(** * HumanSign keystroke notary: a shallow embedding of the core library

    The development follows the TypeScript sources file by file:

    - [src/types/index.ts]              the event and metadata records;
    - [src/lib/securityUtils.ts]        [SecurityUtils];
    - [src/lib/fileHandler.ts]          [CryptoUtils] and [FileHandler];
    - [src/lib/aiDetector.ts]           [AIDetector];
    - [src/lib/analysisEngine.ts]       [AnalysisEngine];
    - [src/hooks/useBiometricCapture.ts] the capture session ([Capture]).

    Conventions of the embedding.

    - A JavaScript number that is a count or a score is an integer ([Z]); a
      time stamp is a rational ([Q], [performance.now()] has a fractional
      part); the result of a division is a [num], which adds [NaN] and the two
      infinities to the rationals, so that a division by zero is visible in
      the result.  Arithmetic is exact: the rounding of IEEE doubles is not
      modelled, and the sign of a zero is not tracked.
    - [Math.sqrt] is kept in closed form ([sqv]): a value [c * sqrt r].
    - A string is a [string] of code units below 256.
    - The clock ([Date.now()]) and the random source ([crypto.randomUUID()])
      are explicit arguments.  The reads of the clock during one call of the
      packager or of the verifier are one instant.
    - The compressed container (JSZip) and [JSON.parse] are library code: a
      file is given by its size and by what the container decodes to.  The
      text JSZip gives to a failed load is library text: one message stands
      for it.
    - Values read by [JSON.parse] have the types the interfaces declare: the
      two time stamps of an event are numbers (the two [typeof] tests of
      [validateEventStructure] hold of them), a paste length is an integer,
      and [contentHash] and [signature] are a string or [null] (an absent
      member is read as [null]).  A value of another type, and a number that
      overflows a double, are outside the embedding. *)

From Stdlib Require Import ZArith QArith Qround Bool List SetoidList String Ascii Lia Lqa.
Import ListNotations.

Local Open Scope Z_scope.

(* ================================================================== *)
(** * JavaScript numbers *)
(* ================================================================== *)

Module JSNum.

(** A number: a rational, [NaN], [+Infinity] or [-Infinity]. *)
Inductive num : Type :=
| Fin (q : Q)
| NaN
| PInf
| NInf.

Definition Qlt_bool (x y : Q) : bool := negb (Qle_bool y x).

Definition ofZ (z : Z) : num := Fin (inject_Z z).
Definition ofNat (n : nat) : num := Fin (inject_Z (Z.of_nat n)).

(** [x < y], [x > y], [x <= y], [x >= y], [x === y]: false as soon as one side is NaN. *)
Definition nlt (x y : num) : bool :=
  match x, y with
  | NaN, _ | _, NaN => false
  | Fin a, Fin b => Qlt_bool a b
  | NInf, NInf => false
  | NInf, _ => true
  | _, NInf => false
  | PInf, _ => false
  | Fin _, PInf => true
  end.

Definition ngt (x y : num) : bool := nlt y x.

Definition nle (x y : num) : bool :=
  match x, y with
  | NaN, _ | _, NaN => false
  | Fin a, Fin b => Qle_bool a b
  | NInf, _ => true
  | _, PInf => true
  | PInf, _ => false
  | Fin _, NInf => false
  end.

Definition nge (x y : num) : bool := nle y x.

Definition neq (x y : num) : bool :=
  match x, y with
  | Fin a, Fin b => Qeq_bool a b
  | PInf, PInf | NInf, NInf => true
  | _, _ => false
  end.

Definition is_finite (x : num) : bool :=
  match x with Fin _ => true | _ => false end.

(** The infinity with the sign of [a] ([a] non-zero). *)
Definition inf_of_sign (a : Q) : num := if Qle_bool 0 a then PInf else NInf.

Definition nopp (x : num) : num :=
  match x with Fin a => Fin (- a) | NaN => NaN | PInf => NInf | NInf => PInf end.

Definition nadd (x y : num) : num :=
  match x, y with
  | NaN, _ | _, NaN => NaN
  | Fin a, Fin b => Fin (a + b)
  | PInf, NInf | NInf, PInf => NaN
  | PInf, _ | _, PInf => PInf
  | NInf, _ | _, NInf => NInf
  end.

Definition nsub (x y : num) : num := nadd x (nopp y).

Definition nmul (x y : num) : num :=
  match x, y with
  | NaN, _ | _, NaN => NaN
  | Fin a, Fin b => Fin (a * b)
  | Fin a, PInf | PInf, Fin a => if Qeq_bool a 0 then NaN else inf_of_sign a
  | Fin a, NInf | NInf, Fin a => if Qeq_bool a 0 then NaN else inf_of_sign (- a)
  | PInf, PInf | NInf, NInf => PInf
  | PInf, NInf | NInf, PInf => NInf
  end.

(** [x / y]: a zero divisor gives NaN (0/0) or an infinity, never a rational. *)
Definition ndiv (x y : num) : num :=
  match x, y with
  | NaN, _ | _, NaN => NaN
  | Fin a, Fin b =>
      if Qeq_bool b 0 then (if Qeq_bool a 0 then NaN else inf_of_sign a)
      else Fin (a / b)
  | Fin _, _ => Fin 0
  | PInf, Fin b => inf_of_sign b
  | NInf, Fin b => inf_of_sign (- b)
  | _, _ => NaN
  end.

(** [Math.max(x, y)] and [Math.min(x, y)]. *)
Definition nmax (x y : num) : num :=
  match x, y with
  | NaN, _ | _, NaN => NaN
  | _, _ => if nle x y then y else x
  end.

Definition nmin (x y : num) : num :=
  match x, y with
  | NaN, _ | _, NaN => NaN
  | _, _ => if nle x y then x else y
  end.

(** [Math.round(x)]: the integer nearest to [x], halves rounded up. *)
Definition Qround_half_up (q : Q) : Z := Qfloor (q + (1 # 2)).

Definition nround (x : num) : num :=
  match x with Fin a => ofZ (Qround_half_up a) | _ => x end.

(** [Math.pow(x, 2)]. *)
Definition nsquare (x : num) : num := nmul x x.

(** ** Values of [Math.sqrt]

    [Sqv c r] is the real number [c * sqrt r], with [0 < r].  [Math.sqrt] of a
    rational is the only way to build one; it is then divided or multiplied by
    a number, rounded, or compared with a rational constant. *)
Record sqv : Type := Sqv { coef : num; radicand : Q }.

Definition nsqrt (x : num) : sqv :=
  match x with
  | Fin a =>
      if Qeq_bool a 0 then Sqv (Fin 0) 1
      else if Qle_bool 0 a then Sqv (Fin 1) a
      else Sqv NaN 1
  | NaN | NInf => Sqv NaN 1
  | PInf => Sqv PInf 1
  end.

Definition sqv_div (s : sqv) (y : num) : sqv := Sqv (ndiv (coef s) y) (radicand s).
Definition sqv_mul (s : sqv) (y : num) : sqv := Sqv (nmul (coef s) y) (radicand s).

(** [c * sqrt r < k] for rationals: by the signs, then by the squares. *)
Definition Qsurd_lt (c r k : Q) : bool :=
  if Qle_bool 0 c
  then Qlt_bool 0 k && Qlt_bool (c * c * r) (k * k)
  else Qle_bool 0 k || Qlt_bool (k * k) (c * c * r).

Definition sqv_lt (s : sqv) (k : Q) : bool :=
  match coef s with
  | Fin c => Qsurd_lt c (radicand s) k
  | NInf => true
  | NaN | PInf => false
  end.

(** The least integer not below [sqrt m], for [0 <= m]. *)
Definition ceil_sqrt (m : Q) : Z :=
  let f := Z.sqrt (Qfloor m) in
  if Qeq_bool (inject_Z (f * f)) m then f else f + 1.

(** [Math.round(c * sqrt r)]: with [y = 2 |c| sqrt r = sqrt (4 c c r)],
    [floor (y/2 + 1/2) = floor ((floor y + 1) / 2)] and
    [floor (- y/2 + 1/2) = - ceil ((ceil y - 1) / 2) = - floor (ceil y / 2)]. *)
Definition sqv_round (s : sqv) : num :=
  match coef s with
  | Fin c =>
      let m := (4 # 1) * c * c * radicand s in
      if Qle_bool 0 c
      then ofZ ((Z.sqrt (Qfloor m) + 1) / 2)
      else ofZ (- (ceil_sqrt m / 2))
  | other => other
  end%Q.

End JSNum.
Export JSNum.

(* ================================================================== *)
(** * Strings, decimal and hexadecimal numerals *)
(* ================================================================== *)

Module Text.

Definition code (c : ascii) : Z := Z.of_nat (nat_of_ascii c).
Definition chr (z : Z) : ascii := ascii_of_nat (Z.to_nat z).
Definition str1 (z : Z) : string := String (chr z) EmptyString.

Fixpoint codes (s : string) : list Z :=
  match s with
  | EmptyString => []
  | String c s' => code c :: codes s'
  end.

(** [s.length]. *)
Definition strlen (s : string) : Z := Z.of_nat (String.length s).

(** [TextEncoder.encode]: the UTF-8 bytes of code units below 256. *)
Definition utf8 (s : string) : list Z :=
  flat_map (fun c => if c <? 128 then [c] else [192 + c / 64; 128 + c mod 64]) (codes s).

(** The digit of [d] in a base up to 36: [0-9] then [a-z]. *)
Definition digit (d : Z) : string :=
  if d <? 10 then str1 (48 + d) else str1 (87 + d).

(** [n.toString(base)] for an integer [n]; the fuel bounds the number of digits. *)
Fixpoint digits (fuel : nat) (base n : Z) (acc : string) : string :=
  match fuel with
  | O => acc
  | S f =>
      let acc' := (digit (n mod base) ++ acc)%string in
      if n / base =? 0 then acc' else digits f base (n / base) acc'
  end.

Definition toStringBase (base n : Z) : string :=
  let body := digits (S (Z.to_nat (Z.log2 (Z.abs n)))) base (Z.abs n) EmptyString in
  if n <? 0 then ("-" ++ body)%string else body.

Definition decimal (n : Z) : string := toStringBase 10 n.

(** [b.toString(16).padStart(2, '0')]. *)
Definition hex2 (b : Z) : string := (digit (b / 16) ++ digit (b mod 16))%string.

(** [s.slice(0, n)]. *)
Definition slice0 (n : nat) (s : string) : string := String.substring 0 n s.

Definition is_empty (s : string) : bool :=
  match s with EmptyString => true | _ => false end.

(** [s.split(/sep+/).filter(w => w.length > 0)]: the maximal runs of code
    units that are not separators. *)
Fixpoint tokens_from (sep : Z -> bool) (s : string) (cur : string) : list string :=
  match s with
  | EmptyString => if is_empty cur then [] else [cur]
  | String c rest =>
      if sep (code c)
      then (if is_empty cur then tokens_from sep rest EmptyString
            else cur :: tokens_from sep rest EmptyString)
      else tokens_from sep rest (cur ++ String c EmptyString)
  end.

Definition tokens (sep : Z -> bool) (s : string) : list string :=
  tokens_from sep s EmptyString.

(** The class [\s] on code units below 256. *)
Definition is_space (c : Z) : bool :=
  ((9 <=? c) && (c <=? 13)) || (c =? 32) || (c =? 160).

(** [text.split(/\s+/).filter(word => word.length > 0)]. *)
Definition words (text : string) : list string := tokens is_space text.

(** [s.replace(/c/g, '')]. *)
Fixpoint remove (c : ascii) (s : string) : string :=
  match s with
  | EmptyString => EmptyString
  | String x rest => if Ascii.eqb x c then remove c rest else String x (remove c rest)
  end.

End Text.

(* ================================================================== *)
(** * SHA-256 ([crypto.subtle.digest('SHA-256', _)], FIPS 180-4) *)
(* ================================================================== *)

Module SHA256.

Definition mask32 : Z := 4294967295.
Definition w32 (x : Z) : Z := Z.land x mask32.
Definition add32 (x y : Z) : Z := w32 (x + y).
Definition rotr (n x : Z) : Z := w32 (Z.lor (Z.shiftr x n) (Z.shiftl x (32 - n))).
Definition not32 (x : Z) : Z := Z.lxor x mask32.

Definition Ch (x y z : Z) : Z := Z.lxor (Z.land x y) (Z.land (not32 x) z).
Definition Maj (x y z : Z) : Z :=
  Z.lxor (Z.lxor (Z.land x y) (Z.land x z)) (Z.land y z).
Definition Sigma0 (x : Z) : Z := Z.lxor (Z.lxor (rotr 2 x) (rotr 13 x)) (rotr 22 x).
Definition Sigma1 (x : Z) : Z := Z.lxor (Z.lxor (rotr 6 x) (rotr 11 x)) (rotr 25 x).
Definition sigma0 (x : Z) : Z := Z.lxor (Z.lxor (rotr 7 x) (rotr 18 x)) (Z.shiftr x 3).
Definition sigma1 (x : Z) : Z := Z.lxor (Z.lxor (rotr 17 x) (rotr 19 x)) (Z.shiftr x 10).

(** The first primes, by trial division. *)
Definition divides_none (ps : list Z) (n : Z) : bool :=
  forallb (fun p => negb (n mod p =? 0)) ps.

Fixpoint primes_from (fuel : nat) (n : Z) (found : list Z) : list Z :=
  match fuel with
  | O => found
  | S f =>
      if divides_none found n then primes_from f (n + 1) (found ++ [n])
      else primes_from f (n + 1) found
  end.

Definition primes64 : list Z := Eval vm_compute in primes_from 310 2 [].

(** The integer cube root, bit by bit from the top. *)
Fixpoint icbrt_bits (bits : nat) (n r : Z) : Z :=
  match bits with
  | O => r
  | S b =>
      let r' := r + Z.shiftl 1 (Z.of_nat b) in
      icbrt_bits b n (if r' * r' * r' <=? n then r' else r)
  end.

Definition icbrt (n : Z) : Z := icbrt_bits 40 n 0.

(** The round constants: the first 32 bits of the fractional parts of the
    cube roots of the first 64 primes. *)
Definition K : list Z :=
  Eval vm_compute in map (fun p => w32 (icbrt (p * 2 ^ 96))) primes64.

(** The initial hash value: the same of the square roots of the first 8 primes. *)
Definition H0 : list Z :=
  Eval vm_compute in map (fun p => w32 (Z.sqrt (p * 2 ^ 64))) (firstn 8 primes64).

(** Padding: a 1 bit, zeros up to 56 modulo 64 bytes, the bit length on 8 bytes. *)
Fixpoint be_bytes (n : nat) (x : Z) : list Z :=
  match n with
  | O => []
  | S k => Z.land (Z.shiftr x (8 * Z.of_nat k)) 255 :: be_bytes k x
  end.

Definition pad (msg : list Z) : list Z :=
  let len := Z.of_nat (List.length msg) in
  let zeros := Z.to_nat ((55 - len) mod 64) in
  msg ++ [128] ++ repeat 0 zeros ++ be_bytes 8 (8 * len).

Fixpoint be_words (n : nat) (bytes : list Z) : list Z :=
  match n, bytes with
  | S k, a :: b :: c :: d :: rest =>
      (((a * 256 + b) * 256 + c) * 256 + d) :: be_words k rest
  | _, _ => []
  end.

(** The message schedule, most recent word first. *)
Fixpoint schedule (n : nat) (rev_w : list Z) : list Z :=
  match n with
  | O => rev_w
  | S k =>
      let w i := nth i rev_w 0 in
      schedule k (add32 (add32 (sigma1 (w 1%nat)) (w 6%nat))
                        (add32 (sigma0 (w 14%nat)) (w 15%nat)) :: rev_w)
  end.

Record regs : Type := Regs { ra : Z; rb : Z; rc : Z; rd : Z; re : Z; rf : Z; rg : Z; rh : Z }.

Definition round (s : regs) (kw : Z * Z) : regs :=
  let t1 := add32 (add32 (add32 (rh s) (Sigma1 (re s))) (Ch (re s) (rf s) (rg s)))
                  (add32 (fst kw) (snd kw)) in
  let t2 := add32 (Sigma0 (ra s)) (Maj (ra s) (rb s) (rc s)) in
  Regs (add32 t1 t2) (ra s) (rb s) (rc s) (add32 (rd s) t1) (re s) (rf s) (rg s).

Definition compress (h : regs) (block : list Z) : regs :=
  let w := rev (schedule 48 (rev (be_words 16 block))) in
  let s := fold_left round (combine K w) h in
  Regs (add32 (ra h) (ra s)) (add32 (rb h) (rb s)) (add32 (rc h) (rc s))
       (add32 (rd h) (rd s)) (add32 (re h) (re s)) (add32 (rf h) (rf s))
       (add32 (rg h) (rg s)) (add32 (rh h) (rh s)).

Fixpoint blocks (n : nat) (h : regs) (bytes : list Z) : regs :=
  match n with
  | O => h
  | S k => blocks k (compress h (firstn 64 bytes)) (skipn 64 bytes)
  end.

Definition init : regs :=
  match H0 with
  | [a; b; c; d; e; f; g; h] => Regs a b c d e f g h
  | _ => Regs 0 0 0 0 0 0 0 0
  end.

Definition digest (msg : list Z) : list Z :=
  let p := pad msg in
  let h := blocks (List.length p / 64) init p in
  flat_map (be_bytes 4) [ra h; rb h; rc h; rd h; re h; rf h; rg h; rh h].

End SHA256.

(* ================================================================== *)
(** * The data model ([src/types/index.ts]) *)
(* ================================================================== *)

(** [EVENT_TYPES]. *)
Module EVENT_TYPES.
Definition KEY_DOWN : string := "keydown".
Definition KEY_UP : string := "keyup".
Definition PASTE : string := "paste".
Definition COPY : string := "copy".
Definition CUT : string := "cut".
Definition FOCUS : string := "focus".
Definition BLUR : string := "blur".
End EVENT_TYPES.

(** [VERDICT_TYPES]. *)
Inductive VerdictType : Type :=
| VERIFIED_HUMAN
| AI_DETECTED
| PASTE_DETECTED
| MIXED_CONTENT
| INVALID.

(** The payload of an event: every member is optional. *)
Module EventData.
Record t : Type := mk {
  key : option string;
  code : option string;
  keyCode : option Z;
  shiftKey : option bool;
  ctrlKey : option bool;
  altKey : option bool;
  metaKey : option bool;
  pasteData : option string;
  pasteLength : option Z;
  selectionStart : option Z;
  selectionEnd : option Z;
  currentText : option string;
  textLength : option Z;
  wordCount : option Z
}.
Definition empty : t :=
  mk None None None None None None None None None None None None None None.
End EventData.

(** [KeystrokeEvent].  The payload type is a parameter: it is [EventData.t]
    for an event of the interface and [option EventData.t] for an event as
    [JSON.parse] returns it, whose [data] may be [null]. *)
Module KeystrokeEvent.
Record t (D : Type) : Type := mk {
  id : string;
  timestamp : Q;
  absoluteTime : Q;
  type : string;
  sessionId : string;
  data : D
}.
Arguments mk {D}.
Arguments id {D}.
Arguments timestamp {D}.
Arguments absoluteTime {D}.
Arguments type {D}.
Arguments sessionId {D}.
Arguments data {D}.
End KeystrokeEvent.

Definition Event : Type := KeystrokeEvent.t EventData.t.
Definition ParsedEvent : Type := KeystrokeEvent.t (option EventData.t).

(** [BiometricMetadata].  The type of the [events] member is a parameter: a
    list of events for the interface; for parsed JSON the member may be
    missing.  [sessionStart] is [NaN] when parsed JSON has no such number. *)
Module BiometricMetadata.
Record t (EV : Type) : Type := mk {
  version : string;
  events : EV;
  sessionStart : num;
  sessionId : string;
  contentHash : option string;
  signature : option string;
  finalText : string
}.
Arguments mk {EV}.
Arguments version {EV}.
Arguments events {EV}.
Arguments sessionStart {EV}.
Arguments sessionId {EV}.
Arguments contentHash {EV}.
Arguments signature {EV}.
Arguments finalText {EV}.

Definition with_events {A B : Type} (m : t A) (ev : B) : t B :=
  mk (version m) ev (sessionStart m) (sessionId m) (contentHash m) (signature m)
     (finalText m).
Definition with_contentHash {A : Type} (m : t A) (h : option string) : t A :=
  mk (version m) (events m) (sessionStart m) (sessionId m) h (signature m)
     (finalText m).
Definition with_signature {A : Type} (m : t A) (sg : option string) : t A :=
  mk (version m) (events m) (sessionStart m) (sessionId m) (contentHash m) sg
     (finalText m).
End BiometricMetadata.

Definition Metadata : Type := BiometricMetadata.t (list Event).
Definition ParsedMetadata : Type := BiometricMetadata.t (option (list ParsedEvent)).

(* ================================================================== *)
(** * [SecurityUtils] ([src/lib/securityUtils.ts]) *)
(* ================================================================== *)

Module SecurityUtils.

Import KeystrokeEvent.

(** Truthiness of a string and of a number. *)
Definition truthy_string (s : string) : bool :=
  match s with EmptyString => false | _ => true end.
Definition truthy_number (q : Q) : bool := negb (Qeq_bool q 0).
Definition truthy_option {A : Type} (o : option A) : bool :=
  match o with Some _ => true | None => false end.

(** [isReplayAttack(metadata, maxAge = 24h)] at clock [now]. *)
Definition maxAge_default : Z := 24 * 60 * 60 * 1000.

Definition isReplayAttack {EV : Type} (now : Z) (metadata : BiometricMetadata.t EV)
    (maxAge : Z) : bool :=
  let fileAge := nsub (ofZ now) (BiometricMetadata.sessionStart metadata) in
  ngt fileAge (ofZ maxAge).

(** The loop of [detectTimestampManipulation]: some [events[i].timestamp] is
    below [events[i-1].timestamp]. *)
Fixpoint nonSequential {D : Type} (events : list (t D)) : bool :=
  match events with
  | a :: (b :: _) as rest =>
      if Qlt_bool (timestamp b) (timestamp a) then true else nonSequential rest
  | _ => false
  end.

Definition detectTimestampManipulation {D : Type} (now : Z) (events : list (t D)) : bool :=
  if (List.length events <? 2)%nat then false
  else if nonSequential events then true
  else if existsb (fun event => Qlt_bool (inject_Z (now + 60000)) (absoluteTime event)) events
       then true
  else false.

(** The callback of [validateEventStructure].  The two [typeof ... === 'number']
    tests hold of a rational. *)
Definition validEvent (event : ParsedEvent) : bool :=
  truthy_string (id event) &&
  truthy_number (timestamp event) &&
  truthy_number (absoluteTime event) &&
  truthy_string (type event) &&
  truthy_string (sessionId event) &&
  truthy_option (data event) &&
  true && true.

Definition validateEventStructure (events : list ParsedEvent) : bool :=
  forallb validEvent events.

(** [content.replace(/c/g, by)]. *)
Fixpoint replaceAll (c : ascii) (by_ : string) (content : string) : string :=
  match content with
  | EmptyString => EmptyString
  | String x rest =>
      if Ascii.eqb x c then (by_ ++ replaceAll c by_ rest)%string
      else String x (replaceAll c by_ rest)
  end.

Definition sanitizeContent (content : string) : string :=
  replaceAll "/" "&#x2F;"
    (replaceAll "'" "&#x27;"
      (replaceAll (Text.chr 34) "&quot;"
        (replaceAll ">" "&gt;"
          (replaceAll "<" "&lt;" content)))).

End SecurityUtils.

(* ================================================================== *)
(** * [CryptoUtils] ([src/lib/fileHandler.ts]) *)
(* ================================================================== *)

(** [JSON.stringify] of a string, of a number and of the signed object. *)
Module JSON.

Definition dq : string := Text.str1 34.
Definition backslash : string := Text.str1 92.

Definition escape (c : Z) : string :=
  if c =? 34 then backslash ++ dq
  else if c =? 92 then backslash ++ backslash
  else if c =? 8 then backslash ++ "b"
  else if c =? 12 then backslash ++ "f"
  else if c =? 10 then backslash ++ "n"
  else if c =? 13 then backslash ++ "r"
  else if c =? 9 then backslash ++ "t"
  else if c <? 32 then backslash ++ "u00" ++ Text.hex2 c
  else Text.str1 c.

Definition quote (s : string) : string :=
  (dq ++ String.concat EmptyString (map escape (Text.codes s)) ++ dq)%string.

Definition quote_or_null (o : option string) : string :=
  match o with Some s => quote s | None => "null" end.

Definition member (name value : string) : string :=
  (dq ++ name ++ dq ++ ":" ++ value)%string.

Definition object (members : list string) : string :=
  ("{" ++ String.concat "," members ++ "}")%string.

End JSON.

Module CryptoUtils.

(** [bufferToHex]. *)
Definition bufferToHex (buffer : list Z) : string :=
  String.concat EmptyString (map Text.hex2 buffer).

(** [createHash(content)]. *)
Definition createHash (content : string) : string :=
  bufferToHex (SHA256.digest (Text.utf8 content)).

(** [JSON.stringify(signatureData) + secretKey], with [timestamp: Date.now()]
    read as [now]. *)
Definition signatureString {D : Type} (now : Z)
    (metadata : BiometricMetadata.t (list (KeystrokeEvent.t D))) (secretKey : string) : string :=
  (JSON.object
     [ JSON.member "sessionId" (JSON.quote (BiometricMetadata.sessionId metadata));
       JSON.member "contentHash" (JSON.quote_or_null (BiometricMetadata.contentHash metadata));
       JSON.member "eventCount"
         (Text.decimal (Z.of_nat (List.length (BiometricMetadata.events metadata))));
       JSON.member "finalTextLength"
         (Text.decimal (Text.strlen (BiometricMetadata.finalText metadata)));
       JSON.member "timestamp" (Text.decimal now) ]
   ++ secretKey)%string.

(** [createSignature(metadata, secretKey)] at clock [now]. *)
Definition createSignature {D : Type} (now : Z)
    (metadata : BiometricMetadata.t (list (KeystrokeEvent.t D))) (secretKey : string) : string :=
  createHash (signatureString now metadata secretKey).

(** [verifySignature(metadata, signature, secretKey)] at clock [now]: the
    expected signature is made by [createSignature], which reads the clock. *)
Definition verifySignature {D : Type} (now : Z)
    (metadata : BiometricMetadata.t (list (KeystrokeEvent.t D)))
    (signature secretKey : string) : bool :=
  let expectedSignature := createSignature now metadata secretKey in
  String.eqb signature expectedSignature.

End CryptoUtils.

(* ================================================================== *)
(** * The archive and the effects of reading it *)
(* ================================================================== *)

(** The embedded analysis block and the file summary of a manifest. *)
Module Metrics.
Record t : Type := mk {
  totalEvents : Z;
  keyEvents : Z;
  pasteEvents : Z;
  backspaceCount : Z;
  averageTiming : num;
  timingVariance : num;
  sessionDuration : num
}.
End Metrics.

Module BiometricAnalysis.
Record t : Type := mk {
  humanScore : Z;
  verdict : string;
  anomalies : list string;
  metrics : Metrics.t;
  analysisTimestamp : Z
}.
End BiometricAnalysis.

Module FileInfo.
Record t : Type := mk {
  textLength : Z;
  wordCount : Z;
  eventCount : Z;
  sessionDuration : num
}.
End FileInfo.

(** [HumanSignManifest].  [created] is the instant whose ISO rendering the
    source stores.  The members the verifier reads, [contentHash] and
    [signature], may be missing from parsed JSON. *)
Module HumanSignManifest.
Record t : Type := mk {
  version : string;
  format : string;
  created : Z;
  sessionId : string;
  contentHash : option string;
  signature : option string;
  analysis : option BiometricAnalysis.t;
  fileInfo : option FileInfo.t
}.
(** [JSON.parse('{}')]. *)
Definition empty : t := mk EmptyString EmptyString 0 EmptyString None None None None.
End HumanSignManifest.

(** A JSON member of the container: missing, present with empty text, text
    that [JSON.parse] rejects, or text that parses to a value. *)
Inductive jsonMember (A : Type) : Type :=
| Missing
| Blank
| Unparsable
| Parses (a : A).
Arguments Missing {A}.
Arguments Blank {A}.
Arguments Unparsable {A}.
Arguments Parses {A}.

(** What the container decodes to.  [PROOF.md] is text for a reader, built
    with locale-dependent formatting and never read back: only its presence
    is recorded. *)
Module Archive.
Record t : Type := mk {
  content_txt : option string;
  metadata_json : jsonMember ParsedMetadata;
  manifest_json : jsonMember HumanSignManifest.t;
  proof_md : bool
}.
End Archive.

(** A [File]: its size in bytes and, when its bytes are a container JSZip can
    load, what it holds. *)
Module File.
Record t : Type := mk {
  size : Z;
  container : option Archive.t
}.
End File.

(** The observable steps of a read, and the error/trace monad of the
    [async] functions: a trace of steps and a thrown message or a value. *)
Inductive Op : Type :=
| LoadAsync
| ReadMember (name : string)
| JSONParse (name : string)
| ConsoleError (context message : string).

Module Eff.

Definition M (A : Type) : Type := (list Op * (string + A))%type.

Definition ret {A : Type} (a : A) : M A := ([], inr a).
Definition throw {A : Type} (message : string) : M A := ([], inl message).
Definition log (o : Op) : M unit := ([o], inr tt).

Definition bind {A B : Type} (m : M A) (k : A -> M B) : M B :=
  match m with
  | (tr, inl e) => (tr, inl e)
  | (tr, inr a) => let (tr', r) := k a in (tr ++ tr', r)
  end.

(** [try { m } catch (error) { console.error(context, error); throw new Error(message) }]. *)
Definition try_catch {A : Type} (m : M A) (context message : string) : M A :=
  match m with
  | (tr, inl e) => (tr ++ [ConsoleError context e], inl message)
  | ok => ok
  end.

Definition trace {A : Type} (m : M A) : list Op := fst m.
Definition outcome {A : Type} (m : M A) : string + A := snd m.
Definition succeeded {A : Type} (m : M A) : bool :=
  match outcome m with inr _ => true | inl _ => false end.

End Eff.

Notation "x <- m ;; k" := (Eff.bind m (fun x => k))
  (at level 61, m at next level, right associativity).
Notation "m ;;; k" := (Eff.bind m (fun _ => k))
  (at level 61, right associativity).

(* ================================================================== *)
(** * [FileHandler] ([src/lib/fileHandler.ts]) *)
(* ================================================================== *)

Module FileHandler.

Import KeystrokeEvent.

(** [e.type === ty] and [e.data.key === k]. *)
Definition has_type (ty : string) (e : Event) : bool := String.eqb (type e) ty.
Definition key_is (k : string) (e : Event) : bool :=
  match EventData.key (data e) with Some x => String.eqb x k | None => false end.

Definition count {A : Type} (l : list A) : Z := Z.of_nat (List.length l).

(** [numbers.reduce((a, b) => a + b, 0)]. *)
Definition sum (numbers : list Q) : Q := fold_left Qplus numbers 0%Q.
Definition nsum (numbers : list num) : num := fold_left nadd numbers (Fin 0).

(** [generateSecretKey()] at clock [now], with [crypto.randomUUID()] read as [uuid]. *)
Definition generateSecretKey (now : Z) (uuid : string) : string :=
  Text.slice0 32 ("hs_" ++ Text.toStringBase 36 now ++ "_" ++ Text.remove "-" uuid).

(** The loop of [preProcessEvents] over the key-down events: the intervals
    between neighbours that lie strictly between 0 and 5000. *)
Fixpoint timingsOf (keyDownEvents : list Event) : list Q :=
  match keyDownEvents with
  | prev :: (cur :: _) as rest =>
      let timing := (timestamp cur - timestamp prev)%Q in
      if Qlt_bool 0 timing && Qlt_bool timing 5000
      then timing :: timingsOf rest
      else timingsOf rest
  | _ => []
  end.

(** [calculateVariance(numbers)]. *)
Definition calculateVariance (numbers : list Q) : num :=
  if (List.length numbers =? 0)%nat then Fin 0
  else
    let mean := ndiv (Fin (sum numbers)) (ofNat (List.length numbers)) in
    let squaredDiffs := map (fun n => nsquare (nsub (Fin n) mean)) numbers in
    let variance := ndiv (nsum squaredDiffs) (ofNat (List.length numbers)) in
    ndiv (nround (nmul variance (Fin 100))) (Fin 100).

(** [preProcessEvents(events)]. *)
Definition preProcessEvents (events : list Event) : Metrics.t :=
  let keyEvents :=
    filter (fun e => has_type "keydown" e || has_type "keyup" e) events in
  let pasteEvents := filter (has_type "paste") events in
  let keyDownEvents := filter (has_type "keydown") events in
  let timings := timingsOf keyDownEvents in
  Metrics.mk
    (count events)
    (count keyEvents)
    (count pasteEvents)
    (count (filter (fun e => has_type "keydown" e && key_is "Backspace" e) events))
    (if (0 <? List.length timings)%nat
     then ndiv (Fin (sum timings)) (ofNat (List.length timings))
     else Fin 0)
    (calculateVariance timings)
    (match events with
     | first :: _ =>
         ndiv (Fin (absoluteTime (last events first) - absoluteTime first)) (Fin 1000)
     | [] => Fin 0
     end).

(** The two quotients of [analyzeBiometrics]. *)
Definition avgSpeed (processed : Metrics.t) : num :=
  ndiv (ofZ (Metrics.keyEvents processed)) (nmax (Metrics.sessionDuration processed) (Fin 1)).
Definition backspaceRatio (processed : Metrics.t) : num :=
  ndiv (ofZ (Metrics.backspaceCount processed))
       (nmax (ofZ (Metrics.keyEvents processed)) (Fin 1)).

(** One [if (c) { humanScore -= points; anomalies.push(message) }]. *)
Definition penalise (c : bool) (points : Z) (message : string)
    (st : Z * list string) : Z * list string :=
  if c then (fst st - points, snd st ++ [message]) else st.

(** The score and the anomalies of [analyzeBiometrics], before the clamp. *)
Definition scoreOf (processed : Metrics.t) : Z * list string :=
  let st := (100, []) in
  let st := penalise (Metrics.pasteEvents processed >? 0)
              (Metrics.pasteEvents processed * 10)
              ("Detected " ++ Text.decimal (Metrics.pasteEvents processed) ++ " paste events")
              st in
  let st := penalise (nlt (Metrics.timingVariance processed) (Fin 10)
                      && (Metrics.keyEvents processed >? 20))
              30 "Extremely consistent typing rhythm detected" st in
  let st := penalise (ngt (avgSpeed processed) (Fin 15))
              20 "Unusually high typing speed detected" st in
  let st := penalise (nlt (backspaceRatio processed) (Fin (2 # 100))
                      && (Metrics.keyEvents processed >? 50))
              15 "Very few corrections made" st in
  st.

Definition verdictOf (humanScore : Z) : string :=
  if humanScore >=? 80 then "VERIFIED_HUMAN"
  else if humanScore >=? 60 then "LIKELY_HUMAN"
  else if humanScore >=? 40 then "SUSPICIOUS"
  else if humanScore >=? 20 then "LIKELY_AI"
  else "DETECTED_AI".

(** [analyzeBiometrics(metadata)] at clock [now]. *)
Definition analyzeBiometrics (now : Z) (metadata : Metadata) : BiometricAnalysis.t :=
  let processed := preProcessEvents (BiometricMetadata.events metadata) in
  let (humanScore, anomalies) := scoreOf processed in
  BiometricAnalysis.mk
    (Z.max 0 (Z.min 100 humanScore))
    (verdictOf humanScore)
    anomalies
    processed
    now.

(** What [JSON.parse(JSON.stringify(metadata))] is: every payload an object,
    the [events] member present; a [sessionStart] that is not finite is
    written as [null], which the one subtraction that reads it takes for 0. *)
Definition asParsed (e : Event) : ParsedEvent :=
  mk (id e) (timestamp e) (absoluteTime e) (type e) (sessionId e) (Some (data e)).

Definition toParsed (metadata : Metadata) : ParsedMetadata :=
  let m := BiometricMetadata.with_events metadata
    (Some (map asParsed (BiometricMetadata.events metadata))) in
  if is_finite (BiometricMetadata.sessionStart metadata) then m
  else BiometricMetadata.mk (BiometricMetadata.version m) (BiometricMetadata.events m)
         (Fin 0) (BiometricMetadata.sessionId m) (BiometricMetadata.contentHash m)
         (BiometricMetadata.signature m) (BiometricMetadata.finalText m).

(** [createHumanSignFile(text, metadata)] at clock [now], with the random
    identifier read as [uuid].  The [filename] argument is not used by the body. *)
Definition createHumanSignFile (now : Z) (uuid : string) (text : string)
    (metadata : Metadata) : Archive.t :=
  let secretKey := generateSecretKey now uuid in
  let contentHash := CryptoUtils.createHash text in
  let metadata := BiometricMetadata.with_contentHash metadata (Some contentHash) in
  let signature := CryptoUtils.createSignature now metadata secretKey in
  let metadata := BiometricMetadata.with_signature metadata (Some signature) in
  let analysis := analyzeBiometrics now metadata in
  let manifest :=
    HumanSignManifest.mk "1.0.0" "HUMANSIGN_V1" now
      (BiometricMetadata.sessionId metadata)
      (Some contentHash)
      (Some signature)
      (Some analysis)
      (Some (FileInfo.mk (Text.strlen text)
                         (count (Text.words text))
                         (count (BiometricMetadata.events metadata))
                         (Metrics.sessionDuration (BiometricAnalysis.metrics analysis)))) in
  Archive.mk (Some text) (Parses (toParsed metadata)) (Parses manifest) true.

(** The result of a read. *)
Record ReadResult : Type := mkRead {
  text : string;
  metadata : Metadata;
  manifest : HumanSignManifest.t
}.

(** [zipContent.file(name)?.async('text') || fallback]. *)
Definition readText (name : string) (member : option string) (fallback : string)
    : Eff.M string :=
  match member with
  | Some s => Eff.log (ReadMember name) ;;; Eff.ret (if Text.is_empty s then fallback else s)
  | None => Eff.ret fallback
  end.

(** The same for a JSON member: the text is read here and parsed later. *)
Definition readJSONText {A : Type} (name : string) (member : jsonMember A)
    : Eff.M unit :=
  match member with
  | Missing => Eff.ret tt
  | _ => Eff.log (ReadMember name)
  end.

(** [JSON.parse(text)], where the text of a missing or blank member was
    replaced by ['{}']. *)
Definition parseJSON {A : Type} (name : string) (member : jsonMember A) (empty : A)
    : Eff.M A :=
  Eff.log (JSONParse name) ;;;
  match member with
  | Missing | Blank => Eff.ret empty
  | Unparsable => Eff.throw "SyntaxError: Unexpected token in JSON"
  | Parses a => Eff.ret a
  end.

(** [JSON.parse('{}')] read as metadata: no [events], no [sessionStart]. *)
Definition emptyMetadata : ParsedMetadata :=
  BiometricMetadata.mk EmptyString None NaN EmptyString None None EmptyString.

(** An event that passed [validateEventStructure] has an object for payload. *)
Definition validated (e : ParsedEvent) : Event :=
  mk (id e) (timestamp e) (absoluteTime e) (type e) (sessionId e)
     (match data e with Some d => d | None => EventData.empty end).

Definition sizeLimit : Z := 10 * 1024 * 1024.

(** The body of the [try] block of [readHumanSignFile(file)] at clock [now]. *)
Definition readBody (now : Z) (file : File.t) : Eff.M ReadResult :=
  Eff.log LoadAsync ;;;
  zipContent <- match File.container file with
                | Some a => Eff.ret a
                | None => Eff.throw "Can't find end of central directory : is this a zip file ?"
                end ;;
  (if File.size file >? sizeLimit then Eff.throw "File too large" else Eff.ret tt) ;;;
  text <- readText "content.txt" (Archive.content_txt zipContent) EmptyString ;;
  readJSONText "metadata.json" (Archive.metadata_json zipContent) ;;;
  readJSONText "manifest.json" (Archive.manifest_json zipContent) ;;;
  metadata <- parseJSON "metadata.json" (Archive.metadata_json zipContent) emptyMetadata ;;
  manifest <- parseJSON "manifest.json" (Archive.manifest_json zipContent)
                HumanSignManifest.empty ;;
  events <- match BiometricMetadata.events metadata with
            | Some evs => Eff.ret evs
            | None => Eff.throw "TypeError: Cannot read properties of undefined (reading 'every')"
            end ;;
  (if negb (SecurityUtils.validateEventStructure events)
   then Eff.throw "Invalid event structure" else Eff.ret tt) ;;;
  (if SecurityUtils.detectTimestampManipulation now events
   then Eff.throw "Timestamp manipulation detected" else Eff.ret tt) ;;;
  (if SecurityUtils.isReplayAttack now metadata SecurityUtils.maxAge_default
   then Eff.throw "Possible replay attack detected" else Eff.ret tt) ;;;
  let sanitizedText := SecurityUtils.sanitizeContent text in
  Eff.ret (mkRead sanitizedText
                  (BiometricMetadata.with_events metadata (map validated events))
                  manifest).

(** [readHumanSignFile(file)] at clock [now]. *)
Definition readHumanSignFile (now : Z) (file : File.t) : Eff.M ReadResult :=
  Eff.try_catch (readBody now file)
    "Error reading HumanSign file:" "Invalid or malicious HumanSign file".

End FileHandler.

(* ================================================================== *)
(** * [AIDetector] ([src/lib/aiDetector.ts]) *)
(* ================================================================== *)

Module AIDetector.

Import KeystrokeEvent.

(** A property value of the feature object: a number or a square root. *)
Inductive value : Type :=
| VNum (n : num)
| VSqrt (s : sqv).

(** The feature object, as the list of its properties. *)
Definition Features : Type := list (string * value).

(** [features.name]: [None] is [undefined]. *)
Fixpoint get (features : Features) (name : string) : option value :=
  match features with
  | [] => None
  | (k, v) :: rest => if String.eqb k name then Some v else get rest name
  end.

(** [c * sqrt r > k] for rationals. *)
Definition Qsurd_gt (c r k : Q) : bool :=
  if Qle_bool 0 c
  then Qlt_bool k 0 || Qlt_bool (k * k) (c * c * r)
  else Qlt_bool k 0 && Qlt_bool (c * c * r) (k * k).

(** [v < k] and [v > k] for a property read and a constant: [undefined]
    compares as [NaN]. *)
Definition lt_const (v : option value) (k : Q) : bool :=
  match v with
  | None => false
  | Some (VNum n) => nlt n (Fin k)
  | Some (VSqrt s) => sqv_lt s k
  end.

Definition gt_const (v : option value) (k : Q) : bool :=
  match v with
  | None => false
  | Some (VNum n) => ngt n (Fin k)
  | Some (VSqrt s) =>
      match coef s with
      | Fin c => Qsurd_gt c (radicand s) k
      | PInf => true
      | NaN | NInf => false
      end
  end.

(** [calculateTimings(keyEvents)]. *)
Fixpoint calculateTimings (keyEvents : list Event) : list Q :=
  match keyEvents with
  | prev :: (cur :: _) as rest =>
      let timing := (timestamp cur - timestamp prev)%Q in
      if Qlt_bool 0 timing && Qlt_bool timing 5000
      then timing :: calculateTimings rest
      else calculateTimings rest
  | _ => []
  end.

(** [Math.max(...timings)] and [Math.min(...timings)]. *)
Definition maxOf (timings : list Q) : num :=
  fold_left (fun acc t => nmax acc (Fin t)) timings NInf.
Definition minOf (timings : list Q) : num :=
  fold_left (fun acc t => nmin acc (Fin t)) timings PInf.

Module Rhythm.
Record t : Type := mk {
  avgInterval : num;
  variance : value;
  maxPause : num;
  minPause : num;
  consistency : value;
  thinkingPauses : Z
}.
End Rhythm.

(** [calculateRhythmFeatures(timings)]. *)
Definition calculateRhythmFeatures (timings : list Q) : Rhythm.t :=
  if (List.length timings =? 0)%nat
  then Rhythm.mk (Fin 0) (VNum (Fin 0)) (Fin 0) (Fin 0) (VNum (Fin 0)) 0
  else
    let n := ofNat (List.length timings) in
    let avgInterval := ndiv (Fin (FileHandler.sum timings)) n in
    let variance :=
      nsqrt (ndiv (FileHandler.nsum
                     (map (fun t => nsquare (nsub (Fin t) avgInterval)) timings)) n) in
    let thinkingPauses :=
      FileHandler.count (filter (fun t => Qlt_bool 1000 t) timings) in
    let consistency := sqv_div variance avgInterval in
    Rhythm.mk avgInterval (VSqrt variance) (maxOf timings) (minOf timings)
              (VSqrt consistency) thinkingPauses.

(** The loop of [detectBurstPatterns]. *)
Fixpoint burstCount (timings : list Q) : Z :=
  match timings with
  | a :: rest =>
      match rest with
      | b :: c :: _ =>
          (if Qlt_bool a 100 && Qlt_bool b 100 && Qlt_bool 500 c then 1 else 0)
          + burstCount rest
      | _ => 0
      end
  | [] => 0
  end.

(** [detectBurstPatterns(timings)]. *)
Definition detectBurstPatterns (timings : list Q) : num :=
  if (List.length timings <? 3)%nat then Fin 0
  else ndiv (ofZ (burstCount timings)) (ofZ (FileHandler.count timings - 2)).

(** The separators of [/[.!?]+/]. *)
Definition is_stop (c : Z) : bool := (c =? 46) || (c =? 33) || (c =? 63).

Definition sumLengths (words : list string) : Z :=
  fold_left (fun acc w => acc + Text.strlen w) words 0.

(** [calculateTextComplexity(text)]. *)
Definition calculateTextComplexity (text : string) : num :=
  if Text.is_empty text then Fin 0
  else
    let words := Text.words text in
    let sentences := Text.tokens is_stop text in
    let avgWordLength := ndiv (ofZ (sumLengths words)) (ofZ (FileHandler.count words)) in
    let avgSentenceLength :=
      ndiv (ofZ (FileHandler.count words)) (ofZ (FileHandler.count sentences)) in
    nadd (nmul avgWordLength (Fin (6 # 10))) (nmul avgSentenceLength (Fin (4 # 10))).

(** [calculateWordLengthVariance(text)]. *)
Definition calculateWordLengthVariance (text : string) : value :=
  let words := Text.words text in
  if (List.length words =? 0)%nat then VNum (Fin 0)
  else
    let wordLengths := map (fun w => inject_Z (Text.strlen w)) words in
    let n := ofNat (List.length wordLengths) in
    let avgLength := ndiv (Fin (FileHandler.sum wordLengths)) n in
    let variance :=
      ndiv (FileHandler.nsum
              (map (fun l => nsquare (nsub (Fin l) avgLength)) wordLengths)) n in
    VSqrt (nsqrt variance).

(** [pasteEvents.reduce((sum, e) => sum + (e.data.pasteLength || 0), 0)]. *)
Definition pasteLengthOf (e : Event) : Z :=
  match EventData.pasteLength (data e) with Some l => l | None => 0 end.
Definition totalPasteLength (pasteEvents : list Event) : Z :=
  fold_left (fun sum e => sum + pasteLengthOf e) pasteEvents 0.

(** [extractFeatures(metadata)]. *)
Definition extractFeatures (metadata : Metadata) : Features :=
  let events := BiometricMetadata.events metadata in
  let keyEvents := filter (FileHandler.has_type "keydown") events in
  let pasteEvents := filter (FileHandler.has_type "paste") events in
  let timings := calculateTimings keyEvents in
  let rhythmFeatures := calculateRhythmFeatures timings in
  let backspaceCount :=
    FileHandler.count
      (filter (fun e => FileHandler.has_type "keydown" e && FileHandler.key_is "Backspace" e)
              events) in
  let pasteLength := totalPasteLength pasteEvents in
  let textLength := Text.strlen (BiometricMetadata.finalText metadata) in
  [ ("avgKeyInterval", VNum (Rhythm.avgInterval rhythmFeatures));
    ("timingVariance", Rhythm.variance rhythmFeatures);
    ("maxPause", VNum (Rhythm.maxPause rhythmFeatures));
    ("minPause", VNum (Rhythm.minPause rhythmFeatures));
    ("backspaceRatio",
      VNum (ndiv (ofZ backspaceCount) (nmax (ofZ (FileHandler.count keyEvents)) (Fin 1))));
    ("pasteRatio", VNum (ndiv (ofZ pasteLength) (nmax (ofZ textLength) (Fin 1))));
    ("eventDensity",
      VNum (ndiv (ofZ (FileHandler.count keyEvents)) (nmax (ofZ textLength) (Fin 1))));
    ("rhythmConsistency", Rhythm.consistency rhythmFeatures);
    ("burstPattern", VNum (detectBurstPatterns timings));
    ("thinkingPauses", VNum (ofZ (Rhythm.thinkingPauses rhythmFeatures)));
    ("textComplexity", VNum (calculateTextComplexity (BiometricMetadata.finalText metadata)));
    ("wordLengthVariance",
      calculateWordLengthVariance (BiometricMetadata.finalText metadata)) ]%string.

(** The rules of [predictAIProbability], each with the points it adds. *)
Definition ruleConsistency (features : Features) : Z :=
  if lt_const (get features "consistency") (3 # 10) then 25
  else if lt_const (get features "consistency") (5 # 10) then 15
  else 0.
Definition ruleBurst (features : Features) : Z :=
  if gt_const (get features "burstPattern") (1 # 10) then 20 else 0.
Definition ruleBackspace (features : Features) : Z :=
  if lt_const (get features "backspaceRatio") (2 # 100) then 15 else 0.
Definition rulePaste (features : Features) : Z :=
  if gt_const (get features "pasteRatio") (1 # 10) then 20 else 0.
Definition ruleDensity (features : Features) : Z :=
  if gt_const (get features "eventDensity") 2 then 10 else 0.
Definition rulePauses (features : Features) : Z :=
  if lt_const (get features "thinkingPauses") 2
     && lt_const (get features "avgKeyInterval") 200
  then 10 else 0.

(** [predictAIProbability(features)]. *)
Definition predictAIProbability (features : Features) : Z :=
  let aiScore := 0 in
  let aiScore := aiScore + ruleConsistency features in
  let aiScore := aiScore + ruleBurst features in
  let aiScore := aiScore + ruleBackspace features in
  let aiScore := aiScore + rulePaste features in
  let aiScore := aiScore + ruleDensity features in
  let aiScore := aiScore + rulePauses features in
  Z.min 100 aiScore.

Module AIAnalysis.
Record t : Type := mk {
  aiProbability : Z;
  humanProbability : Z;
  redFlags : list string;
  features : Features;
  confidence : Z
}.
End AIAnalysis.

Definition flag (c : bool) (message : string) : list string :=
  if c then [message] else [].

(** [analyzeForAI(metadata)]. *)
Definition analyzeForAI (metadata : Metadata) : AIAnalysis.t :=
  let features := extractFeatures metadata in
  let aiProbability := predictAIProbability features in
  let eventCount := FileHandler.count (BiometricMetadata.events metadata) in
  let redFlags :=
    flag (lt_const (get features "consistency") (3 # 10))
         "Extremely consistent typing rhythm detected"
    ++ flag (gt_const (get features "burstPattern") (1 # 10))
         "Burst typing pattern suggests automated input"
    ++ flag (lt_const (get features "backspaceRatio") (2 # 100) && (eventCount >? 50))
         "Very few corrections made, unusual for human typing"
    ++ flag (gt_const (get features "pasteRatio") (1 # 10))
         "Significant paste operations detected"
    ++ flag (lt_const (get features "thinkingPauses") 2 && (eventCount >? 100))
         "Lack of natural thinking pauses" in
  AIAnalysis.mk aiProbability (100 - aiProbability) redFlags features
                (Z.abs (aiProbability - 50) * 2).

End AIDetector.

(* ================================================================== *)
(** * [AnalysisEngine] ([src/lib/analysisEngine.ts]) *)
(* ================================================================== *)

Module AnalysisEngine.

Import KeystrokeEvent.

(** Truthiness and the string of a member that may be missing. *)
Definition truthy (o : option string) : bool :=
  match o with Some s => negb (Text.is_empty s) | None => false end.
Definition string_of (o : option string) : string :=
  match o with Some s => s | None => EmptyString end.

Definition simulatedKey : string := "human_sign_demo_key_2024".

(** [verifyCryptographicIntegrity(metadata, manifest)] at clock [now].  The
    digest and the comparison do not throw, so the [catch] branch is dead. *)
Definition verifyCryptographicIntegrity (now : Z) (metadata : Metadata)
    (manifest : HumanSignManifest.t) : bool :=
  if negb (truthy (HumanSignManifest.signature manifest))
     || negb (truthy (HumanSignManifest.contentHash manifest))
  then false
  else
    let currentHash := CryptoUtils.createHash (BiometricMetadata.finalText metadata) in
    if negb (String.eqb currentHash (string_of (HumanSignManifest.contentHash manifest)))
    then false
    else
      let signatureValid :=
        CryptoUtils.verifySignature now metadata
          (string_of (HumanSignManifest.signature manifest)) simulatedKey in
      signatureValid.

(** The gaps between neighbouring events. *)
Fixpoint gapsOf {D : Type} (events : list (t D)) : list Q :=
  match events with
  | prev :: (cur :: _) as rest => (timestamp cur - timestamp prev)%Q :: gapsOf rest
  | _ => []
  end.

(** [analyzeEventGaps(events)]. *)
Definition analyzeEventGaps (events : list Event) : bool * list Q :=
  let gaps := gapsOf events in
  (existsb (fun gap => Qlt_bool 30000 gap) gaps, gaps).

(** [e.data.key && e.data.key.length === 1]. *)
Definition singleKey (e : Event) : bool :=
  match EventData.key (data e) with
  | Some k => negb (Text.is_empty k) && (String.length k =? 1)%nat
  | None => false
  end.

(** [reconstructContentFromEvents(events)]. *)
Definition reconstructContentFromEvents (events : list Event) : string :=
  let keyEvents := filter (fun e => FileHandler.has_type "keydown" e && singleKey e) events in
  fold_left (fun reconstructed event =>
               (reconstructed ++ string_of (EventData.key (data event)))%string)
            keyEvents EmptyString.

(** [new Set(timestamps)]: the distinct values, in order of first appearance. *)
Definition distinct (timestamps : list Q) : list Q :=
  fold_left (fun seen x => if existsb (Qeq_bool x) seen then seen else seen ++ [x])
            timestamps [].

(** [checkDuplicateTimestamps(events)]. *)
Definition checkDuplicateTimestamps (events : list Event) : bool :=
  let timestamps := map timestamp events in
  let uniqueTimestamps := distinct timestamps in
  negb (List.length uniqueTimestamps =? List.length timestamps)%nat.

(** [calculateMean(numbers)] and [calculateStd(numbers)]. *)
Definition calculateMean (numbers : list Q) : num :=
  ndiv (Fin (FileHandler.sum numbers)) (ofNat (List.length numbers)).

Definition calculateStd (numbers : list Q) : sqv :=
  let mean := calculateMean numbers in
  let squaredDiffs := map (fun n => nsquare (nsub (Fin n) mean)) numbers in
  let variance := ndiv (FileHandler.nsum squaredDiffs) (ofNat (List.length numbers)) in
  nsqrt variance.

(** [analyzeTimingPatterns(events)]: the flag and the reasons. *)
Definition analyzeTimingPatterns (events : list Event) : bool * list string :=
  let keyEvents := filter (FileHandler.has_type "keydown") events in
  let timings := gapsOf keyEvents in
  let superhumanCount := FileHandler.count (filter (fun t => Qlt_bool t 10) timings) in
  let r1 :=
    if superhumanCount >? 5
    then (true, ["Superhuman typing speed detected (" ++ Text.decimal superhumanCount
                 ++ " instances)"]%string)
    else (false, []) in
  if (10 <? List.length timings)%nat
  then
    let variance := calculateStd timings in
    let mean := calculateMean timings in
    let coefficient := sqv_div variance mean in
    if sqv_lt coefficient (1 # 10)
    then (true, snd r1 ++ ["Perfect rhythm consistency - unnatural for humans"%string])
    else r1
  else r1.

(** [verifyEventSequence(events)]. *)
Fixpoint verifyEventSequence {D : Type} (events : list (t D)) : bool :=
  match events with
  | cur :: (next :: _) as rest =>
      if Qlt_bool (timestamp next) (timestamp cur) then false else verifyEventSequence rest
  | _ => true
  end.

(** The span of wall-clock time of the log, in milliseconds. *)
Definition sessionDuration (events : list Event) : Q :=
  match events with
  | first :: _ => (absoluteTime (last events first) - absoluteTime first)%Q
  | [] => 0%Q
  end.

Definition warn (c : bool) (message : string) : list string :=
  if c then [message] else [].

(** The warnings of [detectTampering(metadata, manifest, content)]. *)
Definition tamperWarnings (metadata : Metadata) (manifest : HumanSignManifest.t)
    (content : string) : list string :=
  let events := BiometricMetadata.events metadata in
  warn (List.length events =? 0)%nat "No biometric events recorded"
  ++ warn (Qlt_bool (sessionDuration events) 1000 && (50 <? List.length events)%nat)
       "Unnaturally fast typing detected"
  ++ warn (fst (analyzeEventGaps events)) "Suspicious timing gaps in events"
  ++ warn (negb (String.eqb (reconstructContentFromEvents events) content))
       "Content does not match recorded events"
  ++ warn (checkDuplicateTimestamps events)
       "Duplicate timestamps detected - possible data fabrication"
  ++ warn (fst (analyzeTimingPatterns events)) "Unrealistic timing patterns detected"
  ++ warn (negb (verifyEventSequence events)) "Event sequence integrity compromised".

(** [detectTampering(metadata, manifest, content)]. *)
Definition detectTampering (metadata : Metadata) (manifest : HumanSignManifest.t)
    (content : string) : bool :=
  (0 <? List.length (tamperWarnings metadata manifest content))%nat.

(** [determineEnhancedVerdict(humanScore, cryptoValid, isTampered, aiAnalysis)]. *)
Definition determineEnhancedVerdict (humanScore : Z) (cryptoValid isTampered : bool)
    (aiAnalysis : AIDetector.AIAnalysis.t) : VerdictType :=
  if negb cryptoValid then INVALID
  else if isTampered then INVALID
  else
    let adjustedScore :=
      if AIDetector.AIAnalysis.aiProbability aiAnalysis >? 70 then humanScore - 30
      else if AIDetector.AIAnalysis.aiProbability aiAnalysis >? 50 then humanScore - 15
      else humanScore in
    if adjustedScore >=? 75 then VERIFIED_HUMAN
    else if adjustedScore >=? 50 then MIXED_CONTENT
    else if adjustedScore >=? 25 then PASTE_DETECTED
    else AI_DETECTED.

Module FileAnalysisResult.
Record t : Type := mk {
  isValid : bool;
  isTampered : bool;
  humanScore : Z;
  verdict : VerdictType;
  anomalies : list string;
  manifest : HumanSignManifest.t;
  metadata : Metadata;
  content : string;
  biometricAnalysis : BiometricAnalysis.t;
  aiAnalysis : AIDetector.AIAnalysis.t
}.
End FileAnalysisResult.

(** The analysis of what [readHumanSignFile] returned, at clock [now]. *)
Definition analyzeRead (now : Z) (r : FileHandler.ReadResult) : FileAnalysisResult.t :=
  let text := FileHandler.text r in
  let metadata := FileHandler.metadata r in
  let manifest := FileHandler.manifest r in
  let cryptoValid := verifyCryptographicIntegrity now metadata manifest in
  let isTampered := detectTampering metadata manifest text in
  let biometricAnalysis := FileHandler.analyzeBiometrics now metadata in
  let aiAnalysis := AIDetector.analyzeForAI metadata in
  let combinedHumanScore :=
    Z.max 0 (BiometricAnalysis.humanScore biometricAnalysis
             - AIDetector.AIAnalysis.aiProbability aiAnalysis) in
  let verdict := determineEnhancedVerdict combinedHumanScore cryptoValid isTampered aiAnalysis in
  let allAnomalies :=
    BiometricAnalysis.anomalies biometricAnalysis
    ++ AIDetector.AIAnalysis.redFlags aiAnalysis in
  FileAnalysisResult.mk (cryptoValid && negb isTampered) isTampered combinedHumanScore
    verdict allAnomalies manifest metadata text biometricAnalysis aiAnalysis.

(** [analyzeHumanSignFile(file)] at clock [now]. *)
Definition analyzeHumanSignFile (now : Z) (file : File.t) : Eff.M FileAnalysisResult.t :=
  Eff.try_catch
    (r <- FileHandler.readHumanSignFile now file ;; Eff.ret (analyzeRead now r))
    "Analysis error:" "Failed to analyze file".

(** [CONTENT_TYPES]. *)
Inductive ContentType : Type :=
| HUMAN_TYPED
| AI_GENERATED
| PASTED
| MIXED
| UNKNOWN.

(** [biometricAnalysis.name] read as a number.  The object that
    [analyzeBiometrics] builds has the properties [humanScore], [verdict],
    [anomalies], [metrics] and [analysisTimestamp]; the two numbers among them
    are returned as they are, and [None] stands for a property that is
    missing or is no number. *)
Definition numberOf (a : BiometricAnalysis.t) (name : string) : option num :=
  if String.eqb name "humanScore" then Some (ofZ (BiometricAnalysis.humanScore a))
  else if String.eqb name "analysisTimestamp"
       then Some (ofZ (BiometricAnalysis.analysisTimestamp a))
  else None.

(** [x > 0] for such a read: a missing property compares as [NaN]. *)
Definition positive (x : option num) : bool :=
  match x with Some n => ngt n (Fin 0) | None => false end.

(** [determineContentType(analysis)]. *)
Definition determineContentType (analysis : FileAnalysisResult.t) : ContentType :=
  match FileAnalysisResult.verdict analysis with
  | VERIFIED_HUMAN => HUMAN_TYPED
  | AI_DETECTED => AI_GENERATED
  | _ =>
      if positive (numberOf (FileAnalysisResult.biometricAnalysis analysis) "pasteEvents")
      then PASTED else MIXED
  end.

(** [x || d] for a number: [0] and [NaN] are falsy. *)
Definition orElse (x : num) (d : num) : num :=
  match x with
  | NaN => d
  | Fin q => if Qeq_bool q 0 then d else x
  | _ => x
  end.

Module Breakdown.
Record Cryptographic : Type := mkCryptographic {
  valid : bool;
  contentHash : option string;
  signature : string;
  verifiedAt : Z
}.
Record Biometric : Type := mkBiometric {
  totalEvents : num;
  sessionDuration : num;
  typingSpeed : num;
  rhythmVariance : num;
  correctionRate : num
}.
Record Content : Type := mkContent {
  length : num;
  wordCount : num;
  pasteEvents : num;
  contentType : ContentType
}.
Record t : Type := mk {
  cryptographic : Cryptographic;
  biometric : Biometric;
  content : Content;
  aiDetection : AIDetector.AIAnalysis.t
}.
End Breakdown.

(** [manifest?.signature?.slice(0, 16) + '...']: a missing signature prints
    as [undefined]. *)
Definition signaturePreview (manifest : HumanSignManifest.t) : string :=
  match HumanSignManifest.signature manifest with
  | Some s => Text.slice0 16 s ++ "..."
  | None => "undefined..."
  end.

(** [getDetailedBreakdown(analysis)] at clock [now], for a result of
    [analyzeHumanSignFile] (its [manifest], [metadata] and two analyses are
    objects).  The members are evaluated in order; [manifest?.fileInfo.x]
    throws when the manifest has no [fileInfo]. *)
Definition getDetailedBreakdown (now : Z) (analysis : FileAnalysisResult.t)
    : string + Breakdown.t :=
  let metadata := FileAnalysisResult.metadata analysis in
  let manifest := FileAnalysisResult.manifest analysis in
  let biometricAnalysis := FileAnalysisResult.biometricAnalysis analysis in
  let eventCount := ofZ (FileHandler.count (BiometricMetadata.events metadata)) in
  let cryptographic :=
    Breakdown.mkCryptographic (FileAnalysisResult.isValid analysis)
      (HumanSignManifest.contentHash manifest) (signaturePreview manifest) now in
  match HumanSignManifest.fileInfo manifest with
  | None =>
      inl "TypeError: Cannot read properties of undefined (reading 'sessionDuration')"%string
  | Some fileInfo =>
      let metrics := BiometricAnalysis.metrics biometricAnalysis in
      inr (Breakdown.mk cryptographic
             (Breakdown.mkBiometric
                (orElse eventCount (Fin 0))
                (orElse (FileInfo.sessionDuration fileInfo) (Fin 0))
                (nround (ndiv (orElse eventCount (Fin 0))
                              (nmax (orElse (FileInfo.sessionDuration fileInfo) (Fin 1))
                                    (Fin 1))))
                (orElse (Metrics.timingVariance metrics) (Fin 0))
                (ndiv (ofZ (Metrics.backspaceCount metrics))
                      (nmax (orElse eventCount (Fin 1)) (Fin 1))))
             (Breakdown.mkContent
                (orElse (ofZ (FileInfo.textLength fileInfo)) (Fin 0))
                (orElse (ofZ (FileInfo.wordCount fileInfo)) (Fin 0))
                (orElse (ofZ (Metrics.pasteEvents metrics)) (Fin 0))
                (determineContentType analysis))
             (FileAnalysisResult.aiAnalysis analysis))
  end.

End AnalysisEngine.

(* ================================================================== *)
(** * The capture session ([src/hooks/useBiometricCapture.ts]) *)
(* ================================================================== *)

Module Capture.

Import KeystrokeEvent.

(** [KeyTiming]. *)
Module KeyTiming.
Record t : Type := mk {
  key : string;
  timestamp : Q;
  timing : Q
}.
End KeyTiming.

(** [LiveStats]. *)
Module LiveStats.
Record t : Type := mk {
  totalKeys : Z;
  backspaceCount : Z;
  pasteCount : Z;
  avgSpeed : num;
  currentSpeed : num;
  variance : num;
  thinkingPauses : Z;
  sessionDuration : num;
  lastKeyTiming : Q;
  typingRhythm : list Q;
  humanConfidence : Z
}.
End LiveStats.

(** The state of the hook: the React state ([text], [events], [isCapturing])
    and the five references. *)
Record Session : Type := mkSession {
  text : string;
  events : list Event;
  isCapturing : bool;
  sessionStartRef : Z;
  lastKeyTimeRef : Q;
  keyTimingsRef : list KeyTiming.t;
  backspaceCountRef : Z;
  pasteCountRef : Z
}.

(** The hook as first rendered, at clock [now]. *)
Definition initial (now : Z) : Session :=
  mkSession EmptyString [] false now 0 [] 0 0.

(** What a handler reads of the clocks and of the random source when it
    builds an event. *)
Record Sample : Type := mkSample {
  uuid : string;
  performanceNow : Q;
  dateNow : Z
}.

(** [createEvent(type, data)]. *)
Definition createEvent (s : Session) (smp : Sample) (type : string) (data : EventData.t)
    : Event :=
  mk (uuid smp) (performanceNow smp) (inject_Z (dateNow smp)) type
     ("session-" ++ Text.decimal (sessionStartRef s)) data.

(** [Math.mean] and [Math.std], the two extensions the file adds. *)
Definition mean (array : list Q) : num :=
  ndiv (Fin (FileHandler.sum array)) (ofNat (List.length array)).

Definition std (array : list Q) : sqv :=
  let m := mean array in
  nsqrt (ndiv (fold_left (fun sq n => nadd sq (nsquare (nsub (Fin n) m))) array (Fin 0))
              (ofNat (List.length array))).

(** [calculateHumanConfidence(backspaces, pastes, variance, pauses, totalKeys)]. *)
Definition calculateHumanConfidence (backspaces pastes : Z) (variance : num)
    (pauses totalKeys : Z) : Z :=
  let score := 100 in
  let score := if pastes >? 0 then score - pastes * 15 else score in
  let backspaceRatio :=
    if totalKeys >? 0 then ndiv (ofZ backspaces) (ofZ totalKeys) else Fin 0 in
  let score :=
    if ngt backspaceRatio (Fin (5 # 100)) && nlt backspaceRatio (Fin (2 # 10))
    then score + 10
    else if neq backspaceRatio (Fin 0) then score - 20
    else score in
  let score :=
    if ngt variance (Fin 20) && nlt variance (Fin 80) then score + 15
    else if nle variance (Fin 5) then score - 25
    else score in
  let score := if pauses >? 2 then score + 10 else score in
  Z.max 0 (Z.min 100 score).

(** [array.slice(-n)]. *)
Definition lastN {A : Type} (n : nat) (l : list A) : list A :=
  skipn (List.length l - n) l.

(** The filtered timings of [calculateStats]. *)
Definition ringTimings (s : Session) : list Q :=
  filter (fun t => Qlt_bool 0 t && Qlt_bool t 5000) (map KeyTiming.timing (keyTimingsRef s)).

(** [calculateStats()] at clock [now]: the value given to [setStats]. *)
Definition calculateStats (now : Z) (s : Session) : LiveStats.t :=
  let sessionDuration := ndiv (ofZ (now - sessionStartRef s)) (Fin 1000) in
  let words := FileHandler.count (Text.words (text s)) in
  let minutes := ndiv sessionDuration (Fin 60) in
  let currentSpeed :=
    if ngt minutes (Fin 0) then nround (ndiv (ofZ words) minutes) else Fin 0 in
  let timings := ringTimings s in
  let variance :=
    if (1 <? List.length timings)%nat
    then sqv_round (sqv_mul (sqv_div (std timings) (mean timings)) (Fin 100))
    else Fin 0 in
  let thinkingPauses := FileHandler.count (filter (fun timing => Qlt_bool 1000 timing) timings) in
  let humanConfidence :=
    calculateHumanConfidence (backspaceCountRef s) (pasteCountRef s) variance thinkingPauses
      (FileHandler.count timings) in
  LiveStats.mk
    (FileHandler.count (filter (FileHandler.has_type EVENT_TYPES.KEY_DOWN) (events s)))
    (backspaceCountRef s)
    (pasteCountRef s)
    currentSpeed
    currentSpeed
    variance
    thinkingPauses
    (nround sessionDuration)
    (last timings 0%Q)
    (lastN 20 timings)
    humanConfidence.

(** What the handlers read of a keyboard or clipboard event and of its target. *)
Record KeyInput : Type := mkKey {
  k_key : string;
  k_code : string;
  k_keyCode : Z;
  k_shiftKey : bool;
  k_ctrlKey : bool;
  k_altKey : bool;
  k_metaKey : bool
}.

Record Target : Type := mkTarget {
  t_selectionStart : Z;
  t_selectionEnd : Z;
  t_value : string
}.

(** [handleKeyDown(e)]: [now] is the handler's own read of [performance.now()]. *)
Definition handleKeyDown (now : Q) (smp : Sample) (e : KeyInput) (target : Target)
    (s : Session) : Session :=
  if negb (isCapturing s) then s
  else
    let timing := if Qlt_bool 0 (lastKeyTimeRef s) then (now - lastKeyTimeRef s)%Q else 0%Q in
    let keyTimings :=
      if (String.length (k_key e) =? 1)%nat || String.eqb (k_key e) "Backspace"
         || String.eqb (k_key e) "Enter"
      then
        let pushed := keyTimingsRef s ++ [KeyTiming.mk (k_key e) now timing] in
        if (100 <? List.length pushed)%nat then lastN 100 pushed else pushed
      else keyTimingsRef s in
    let backspaceCount :=
      if String.eqb (k_key e) "Backspace" then backspaceCountRef s + 1
      else backspaceCountRef s in
    let event :=
      createEvent s smp EVENT_TYPES.KEY_DOWN
        (EventData.mk (Some (k_key e)) (Some (k_code e)) (Some (k_keyCode e))
           (Some (k_shiftKey e)) (Some (k_ctrlKey e)) (Some (k_altKey e))
           (Some (k_metaKey e)) None None
           (Some (t_selectionStart target)) (Some (t_selectionEnd target))
           (Some (t_value target)) (Some (Text.strlen (t_value target)))
           (Some (FileHandler.count (Text.words (t_value target))))) in
    mkSession (text s) (events s ++ [event]) (isCapturing s) (sessionStartRef s)
      now keyTimings backspaceCount (pasteCountRef s).

Definition append (s : Session) (event : Event) : Session :=
  mkSession (text s) (events s ++ [event]) (isCapturing s) (sessionStartRef s)
    (lastKeyTimeRef s) (keyTimingsRef s) (backspaceCountRef s) (pasteCountRef s).

(** [handleKeyUp(e)]. *)
Definition handleKeyUp (smp : Sample) (e : KeyInput) (s : Session) : Session :=
  if negb (isCapturing s) then s
  else
    append s
      (createEvent s smp EVENT_TYPES.KEY_UP
         (EventData.mk (Some (k_key e)) (Some (k_code e)) (Some (k_keyCode e))
            (Some (k_shiftKey e)) (Some (k_ctrlKey e)) (Some (k_altKey e))
            (Some (k_metaKey e)) None None None None None None None)).

(** [handlePaste(e)]: [pasteData] is the clipboard's text. *)
Definition handlePaste (smp : Sample) (pasteData : string) (target : Target)
    (s : Session) : Session :=
  if negb (isCapturing s) then s
  else
    let event :=
      createEvent s smp EVENT_TYPES.PASTE
        (EventData.mk None None None None None None None
           (Some pasteData) (Some (Text.strlen pasteData))
           (Some (t_selectionStart target)) (Some (t_selectionEnd target))
           (Some (t_value target)) (Some (Text.strlen (t_value target))) None) in
    mkSession (text s) (events s ++ [event]) (isCapturing s) (sessionStartRef s)
      (lastKeyTimeRef s) (keyTimingsRef s) (backspaceCountRef s) (pasteCountRef s + 1).

Definition selectionOnly (target : Target) : EventData.t :=
  EventData.mk None None None None None None None None None
    (Some (t_selectionStart target)) (Some (t_selectionEnd target)) None None None.

(** [handleCopy(e)] and [handleCut(e)]. *)
Definition handleCopy (smp : Sample) (target : Target) (s : Session) : Session :=
  if negb (isCapturing s) then s
  else append s (createEvent s smp EVENT_TYPES.COPY (selectionOnly target)).

Definition handleCut (smp : Sample) (target : Target) (s : Session) : Session :=
  if negb (isCapturing s) then s
  else append s (createEvent s smp EVENT_TYPES.CUT (selectionOnly target)).

(** [startCapture()] at clock [now], [stopCapture()] and [setText(value)]. *)
Definition startCapture (now : Z) (s : Session) : Session :=
  mkSession (text s) [] true now 0 [] 0 0.

Definition stopCapture (s : Session) : Session :=
  mkSession (text s) (events s) false (sessionStartRef s) (lastKeyTimeRef s)
    (keyTimingsRef s) (backspaceCountRef s) (pasteCountRef s).

Definition setText (value : string) (s : Session) : Session :=
  mkSession value (events s) (isCapturing s) (sessionStartRef s) (lastKeyTimeRef s)
    (keyTimingsRef s) (backspaceCountRef s) (pasteCountRef s).

(** [getBiometricMetadata()]. *)
Definition getBiometricMetadata (s : Session) : Metadata :=
  BiometricMetadata.mk "1.0.0" (events s) (ofZ (sessionStartRef s))
    ("session-" ++ Text.decimal (sessionStartRef s)) None None (text s).

(** One action on the hook, and the sessions a run of actions can reach. *)
Inductive step : Session -> Session -> Prop :=
| step_keyDown now smp e target s : step s (handleKeyDown now smp e target s)
| step_keyUp smp e s : step s (handleKeyUp smp e s)
| step_paste smp pasteData target s : step s (handlePaste smp pasteData target s)
| step_copy smp target s : step s (handleCopy smp target s)
| step_cut smp target s : step s (handleCut smp target s)
| step_start now s : step s (startCapture now s)
| step_stop s : step s (stopCapture s)
| step_setText value s : step s (setText value s).

Inductive reachable : Session -> Prop :=
| reach_initial now : reachable (initial now)
| reach_step s s' : reachable s -> step s s' -> reachable s'.

End Capture.

(* ================================================================== *)
(** * The specification's own wording of two rules *)
(* ================================================================== *)

Module Spec.

(** Verdict combination, as the specification words it: the combined score
    is [max(0, behavioralScore - aiProbability)]; not crypto-valid or tampered
    gives [invalid]; otherwise 30 is subtracted when [aiProbability > 70], else
    15 when [> 50]; then [>= 75] is verified-human, [>= 50] mixed-content,
    [>= 25] paste-detected, anything lower ai-detected. *)
Definition combinedScore (behavioralScore aiProbability : Z) : Z :=
  Z.max 0 (behavioralScore - aiProbability).

Definition adjustment (aiProbability : Z) : Z :=
  if 70 <? aiProbability then 30 else if 50 <? aiProbability then 15 else 0.

Definition threshold (score : Z) : VerdictType :=
  if 75 <=? score then VERIFIED_HUMAN
  else if 50 <=? score then MIXED_CONTENT
  else if 25 <=? score then PASTE_DETECTED
  else AI_DETECTED.

Definition verdict (behavioralScore aiProbability : Z) (cryptoValid tampered : bool)
    : VerdictType :=
  if negb cryptoValid || tampered then INVALID
  else threshold (combinedScore behavioralScore aiProbability - adjustment aiProbability).

(** The human-confidence heuristic, as the specification words it: base 100;
    15 off per paste; the backspace ratio is backspaces over all key-down
    events (0 when there is none); +10 when it lies in (0.05, 0.20), -20 when
    it is 0; +15 when the variance lies in (20, 80), -25 when it is at most
    5; +10 when there are more than 2 thinking pauses; clamped to [0, 100]. *)
Definition backspaceRatio (backspaces keyDowns : Z) : Q :=
  if keyDowns =? 0 then 0%Q else (inject_Z backspaces / inject_Z keyDowns)%Q.

Definition humanConfidence (pastes backspaces keyDowns : Z) (variance : num) (pauses : Z) : Z :=
  let ratio := backspaceRatio backspaces keyDowns in
  let score :=
    100 - 15 * pastes
    + (if Qlt_bool (5 # 100) ratio && Qlt_bool ratio (20 # 100) then 10 else 0)
    - (if Qeq_bool ratio 0 then 20 else 0)
    + (if ngt variance (Fin 20) && nlt variance (Fin 80) then 15 else 0)
    - (if nle variance (Fin 5) then 25 else 0)
    + (if 2 <? pauses then 10 else 0) in
  Z.max 0 (Z.min 100 score).

(** An event one of whose six required fields is falsy, though all are
    present and the two time stamps are numbers. *)
Definition falsyField (e : ParsedEvent) : Prop :=
  KeystrokeEvent.id e = EmptyString
  \/ (KeystrokeEvent.timestamp e == 0)%Q
  \/ (KeystrokeEvent.absoluteTime e == 0)%Q
  \/ KeystrokeEvent.type e = EmptyString
  \/ KeystrokeEvent.sessionId e = EmptyString
  \/ KeystrokeEvent.data e = None.

(** A paste event whose recorded length is not negative. *)
Definition pasteEvent (e : Event) : Prop :=
  KeystrokeEvent.type e = EVENT_TYPES.PASTE /\ 0 <= AIDetector.pasteLengthOf e.

(** A property of the feature object that holds the number 0 (not NaN, not
    an infinity, not [undefined]). *)
Definition isZero (v : option AIDetector.value) : bool :=
  match v with
  | Some (AIDetector.VNum n) => neq n (Fin 0)
  | _ => false
  end.

(** Some event's capture-order time stamp is below its predecessor's, and
    some event is stamped more than 60 seconds after the clock [now]. *)
Definition decreasingPair {D : Type} (events : list (KeystrokeEvent.t D)) : Prop :=
  exists i a b,
    nth_error events i = Some a /\ nth_error events (S i) = Some b
    /\ (KeystrokeEvent.timestamp b < KeystrokeEvent.timestamp a)%Q.

Definition futureEvent {D : Type} (now : Z) (events : list (KeystrokeEvent.t D)) : Prop :=
  exists e, In e events /\ (inject_Z (now + 60000) < KeystrokeEvent.absoluteTime e)%Q.

(** The character [d] occurs in [s]; every character of [s] satisfies [p]. *)
Fixpoint occurs (d : ascii) (s : string) : bool :=
  match s with
  | EmptyString => false
  | String x rest => Ascii.eqb x d || occurs d rest
  end.

Fixpoint every (p : ascii -> bool) (s : string) : bool :=
  match s with
  | EmptyString => true
  | String x rest => p x && every p rest
  end.

(** The five characters [sanitizeContent] replaces. *)
Definition markup : list ascii := ["<"; ">"; Text.chr 34; "'"; "/"]%char.

(** A lowercase hexadecimal digit. *)
Definition isHexDigit (c : ascii) : bool :=
  let n := Text.code c in
  ((48 <=? n) && (n <=? 57)) || ((97 <=? n) && (n <=? 102)).

(** A feature that is a rational, or a rational times a square root: not
    NaN and not an infinity. *)
Definition finiteValue (v : AIDetector.value) : bool :=
  match v with
  | AIDetector.VNum n => is_finite n
  | AIDetector.VSqrt s => is_finite (coef s)
  end.

(** The features of [extractFeatures] that are computed from counts, from
    the kept intervals and from word lengths: all but [textComplexity] and
    [pasteRatio] (a quotient of the recorded paste lengths, whose magnitude
    the log does not bound). *)
Definition guardedFeatures : list string :=
  [ "avgKeyInterval"; "timingVariance"; "maxPause"; "minPause"; "backspaceRatio";
    "eventDensity"; "rhythmConsistency"; "burstPattern"; "thinkingPauses";
    "wordLengthVariance" ]%string.

(** The text and the manifest a reader gets from a container: a missing
    [content.txt] reads as the empty text, a missing or blank
    [manifest.json] as the empty object. *)
Definition contentOf (archive : Archive.t) : string :=
  match Archive.content_txt archive with Some s => s | None => EmptyString end.

Definition manifestOf (archive : Archive.t) : HumanSignManifest.t :=
  match Archive.manifest_json archive with
  | Parses m => m
  | _ => HumanSignManifest.empty
  end.

(** The outcome of a read that was refused. *)
Definition rejected : string + FileHandler.ReadResult :=
  inl "Invalid or malicious HumanSign file"%string.

(** A step of a read that touches a member of the container. *)
Definition memberStep (o : Op) : bool :=
  match o with
  | ReadMember _ | JSONParse _ => true
  | LoadAsync | ConsoleError _ _ => false
  end.

End Spec.

(* ================================================================== *)
(** * Sample sessions and archives *)
(* ================================================================== *)

Module Samples.

Import KeystrokeEvent.

Definition keyData (k : string) : EventData.t :=
  EventData.mk (Some k) None None None None None None None None None None None None None.

Definition pasteData (s : string) : EventData.t :=
  EventData.mk None None None None None None None (Some s) (Some (Text.strlen s))
    None None None None None.

(** A session started at 1699999990000. *)
Definition sessionStart : Z := 1699999990000.
Definition session : string := "session-1699999990000".

Definition keyDown (i : string) (ts : Q) (abs : Z) (k : string) : Event :=
  mk i ts (inject_Z abs) EVENT_TYPES.KEY_DOWN session (keyData k).

Definition metadataOf (evs : list Event) (finalText : string) : Metadata :=
  BiometricMetadata.mk "1.0.0" evs (ofZ sessionStart) session None None finalText.

(** The text [hi], typed as [h], [i]. *)
Definition plain_events : list Event :=
  [ keyDown "e1" (10005 # 10) 1699999995000 "h";
    keyDown "e2" (12002 # 10) 1699999995200 "i" ].

Definition plain_metadata : Metadata := metadataOf plain_events "hi".

(** Packaging at 1700000000000, verification one minute later. *)
Definition signedAt : Z := 1700000000000.
Definition verifiedAt : Z := 1700000060000.
Definition uuid : string := "123e4567-e89b-12d3-a456-426614174000".

Definition archiveOf (text : string) (m : Metadata) : File.t :=
  File.mk 2048 (Some (FileHandler.createHumanSignFile signedAt uuid text m)).

Definition plain_file : File.t := archiveOf "hi" plain_metadata.

(** A log of one event, stamped a day after the verification. *)
Definition future_events : list Event :=
  [ keyDown "e1" (10005 # 10) (verifiedAt + 86400000) "h" ].
Definition future_file : File.t := archiveOf "h" (metadataOf future_events "h").

(** The archive of [hi] in a file of 10 MiB and one byte, and a file of that
    size that is no container. *)
Definition oversized_file : File.t :=
  File.mk (10 * 1024 * 1024 + 1)
          (Some (FileHandler.createHumanSignFile signedAt uuid "hi" plain_metadata)).
Definition oversized_garbage : File.t := File.mk (10 * 1024 * 1024 + 1) None.

(** The archive of [hi] with the time stamp of its first event set to 0. *)
Definition zeroed_event : ParsedEvent :=
  mk "e1" 0%Q (inject_Z 1699999995000) EVENT_TYPES.KEY_DOWN session (Some (keyData "h")).
Definition zeroed_metadata : ParsedMetadata :=
  BiometricMetadata.with_events plain_metadata
    (Some [ zeroed_event;
            mk "e2" (12002 # 10) (inject_Z 1699999995200) EVENT_TYPES.KEY_DOWN session
               (Some (keyData "i")) ]).
Definition zeroed_archive : Archive.t :=
  Archive.mk (Some "hi"%string) (Parses zeroed_metadata) (Parses HumanSignManifest.empty) true.
Definition zeroed_file : File.t := File.mk 2048 (Some zeroed_archive).

(** Sixteen key-downs 50 ms apart, and a paste ten seconds later. *)
Fixpoint burst (n : nat) (ts : Q) (abs : Z) : list Event :=
  match n with
  | O => []
  | S k => keyDown "k" ts abs "x" :: burst k (ts + 50)%Q (abs + 50)
  end.
Definition fast_events : list Event := burst 16 (10005 # 10) 1699999995000.
Definition late_paste : Event :=
  mk "p1" (120005 # 10) (inject_Z 1700000005000) EVENT_TYPES.PASTE session (pasteData "y").
Definition fast_metadata : Metadata := metadataOf fast_events "xxxxxxxxxxxxxxxx".
Definition fast_then_paste : Metadata :=
  metadataOf (fast_events ++ [late_paste]) "xxxxxxxxxxxxxxxx".

(** A session started at [signedAt] in which the first key pressed is Backspace. *)
Definition backspace_first : Capture.Session :=
  Capture.handleKeyDown (5000 # 1)
    (Capture.mkSample "u1" (50001 # 10) (signedAt + 500))
    (Capture.mkKey "Backspace" "Backspace" 8 false false false false)
    (Capture.mkTarget 0 0 EmptyString)
    (Capture.startCapture signedAt (Capture.initial sessionStart)).

(** The metadata of [hi] with its content hash, and a session key. *)
Definition hashed_metadata : Metadata :=
  BiometricMetadata.with_contentHash plain_metadata (Some (CryptoUtils.createHash "hi")).
Definition secretKey : string := FileHandler.generateSecretKey signedAt uuid.

(** A session with no event and no text. *)
Definition empty_metadata : Metadata := metadataOf [] EmptyString.

(** The archive of [hi] with the time stamps of its two events exchanged. *)
Definition swapped_events : list ParsedEvent :=
  [ mk "e1" (12002 # 10) (inject_Z 1699999995000) EVENT_TYPES.KEY_DOWN session
       (Some (keyData "h"));
    mk "e2" (10005 # 10) (inject_Z 1699999995200) EVENT_TYPES.KEY_DOWN session
       (Some (keyData "i")) ].
Definition swapped_metadata : ParsedMetadata :=
  BiometricMetadata.with_events plain_metadata (Some swapped_events).
Definition swapped_archive : Archive.t :=
  Archive.mk (Some "hi"%string) (Parses swapped_metadata) (Parses HumanSignManifest.empty) true.
Definition swapped_file : File.t := File.mk 2048 (Some swapped_archive).

(** The text [a'], typed as [a], [']. *)
Definition quoted_events : list Event :=
  [ keyDown "e1" (10005 # 10) 1699999995000 "a";
    keyDown "e2" (12002 # 10) 1699999995200 "'" ].
Definition quoted_file : File.t := archiveOf "a'" (metadataOf quoted_events "a'").

(** The archive of [hi] without its [manifest.json]. *)
Definition bare_archive : Archive.t :=
  Archive.mk (Some "hi"%string) (Parses (FileHandler.toParsed plain_metadata)) Missing true.
Definition bare_file : File.t := File.mk 2048 (Some bare_archive).


(** The hook after [setText(' ')] and [startCapture()]: no event, and a
    text of one space. *)
Definition blank_session : Capture.Session :=
  Capture.startCapture signedAt (Capture.setText " " (Capture.initial sessionStart)).
Definition blank_metadata : Metadata := Capture.getBiometricMetadata blank_session.

(** The analysis of a file at [verifiedAt], when there is one. *)
Definition emptyRead : FileHandler.ReadResult :=
  FileHandler.mkRead EmptyString (metadataOf [] EmptyString) HumanSignManifest.empty.

Definition analysisOf (file : File.t) : AnalysisEngine.FileAnalysisResult.t :=
  match Eff.outcome (AnalysisEngine.analyzeHumanSignFile verifiedAt file) with
  | inr r => r
  | inl _ => AnalysisEngine.analyzeRead verifiedAt emptyRead
  end.

(** The same at another clock. *)
Definition analysisAt (now : Z) (file : File.t) : AnalysisEngine.FileAnalysisResult.t :=
  match Eff.outcome (AnalysisEngine.analyzeHumanSignFile now file) with
  | inr r => r
  | inl _ => AnalysisEngine.analyzeRead now emptyRead
  end.

End Samples.

(* ================================================================== *)
(** * Properties *)
(* ================================================================== *)

(** ** The digest, on the test vectors of FIPS 180-4 *)

Example createHash_abc :
  CryptoUtils.createHash "abc"
  = "ba7816bf8f01cfea414140de5dae2223b00361a396177a9cb410ff61f20015ad"%string.
Proof. vm_compute. reflexivity. Qed.

Example createHash_empty :
  CryptoUtils.createHash EmptyString
  = "e3b0c44298fc1c149afbf4c8996fb92427ae41e4649b934ca495991b7852b855"%string.
Proof. vm_compute. reflexivity. Qed.

Example createHash_two_blocks :
  CryptoUtils.createHash "abcdbcdecdefdefgefghfghighijhijkijkljklmklmnlmnomnopnopq"
  = "248d6a61d20638b8e5c026930c3e6039a33ce45964ff2167f6ecedd419db06c1"%string.
Proof. vm_compute. reflexivity. Qed.

Example generateSecretKey_sample :
  Samples.secretKey = "hs_loyw3v28_123e4567e89b12d3a456"%string.
Proof. vm_compute. reflexivity. Qed.

(** ** Comparisons of rationals *)

Lemma Qlt_bool_iff (x y : Q) : Qlt_bool x y = true <-> (x < y)%Q.
Proof.
  unfold Qlt_bool. rewrite negb_true_iff.
  split; intro H.
  - destruct (Qlt_le_dec x y) as [Hlt | Hle]; [exact Hlt |].
    apply Qle_bool_iff in Hle. congruence.
  - destruct (Qle_bool y x) eqn:E; [| reflexivity].
    apply Qle_bool_iff in E. exfalso. apply (Qlt_irrefl x).
    eapply Qlt_le_trans; eauto.
Qed.

Lemma Qlt_bool_false_iff (x y : Q) : Qlt_bool x y = false <-> (y <= x)%Q.
Proof.
  unfold Qlt_bool. rewrite negb_false_iff. apply Qle_bool_iff.
Qed.

(** ** The effect monad *)

Lemma bind_inr {A B : Type} (m : Eff.M A) (k : A -> Eff.M B) (b : B) :
  Eff.outcome (Eff.bind m k) = inr b ->
  exists a, Eff.outcome m = inr a /\ Eff.outcome (k a) = inr b.
Proof.
  destruct m as [tr [e | a]]; simpl; [discriminate |].
  intro H. exists a. split; [reflexivity |].
  destruct (k a) as [tr' r]. exact H.
Qed.

Lemma try_catch_inr {A : Type} (m : Eff.M A) (c msg : string) (a : A) :
  Eff.outcome (Eff.try_catch m c msg) = inr a -> Eff.outcome m = inr a.
Proof.
  destruct m as [tr [e | x]]; simpl; [discriminate | auto].
Qed.

Lemma analyze_inr (now : Z) (file : File.t) (r : AnalysisEngine.FileAnalysisResult.t) :
  Eff.outcome (AnalysisEngine.analyzeHumanSignFile now file) = inr r ->
  exists rr, Eff.outcome (FileHandler.readHumanSignFile now file) = inr rr
             /\ r = AnalysisEngine.analyzeRead now rr.
Proof.
  unfold AnalysisEngine.analyzeHumanSignFile. intro H.
  apply try_catch_inr in H. apply bind_inr in H.
  destruct H as [rr [Hr Hk]]. exists rr. split; [exact Hr |].
  simpl in Hk. congruence.
Qed.

(** ** The verdict *)



(** ** The reader *)

Lemma validateEventStructure_false (evs : list ParsedEvent) (e : ParsedEvent) :
  In e evs -> SecurityUtils.validEvent e = false ->
  SecurityUtils.validateEventStructure evs = false.
Proof.
  intros Hin He. unfold SecurityUtils.validateEventStructure.
  destruct (forallb SecurityUtils.validEvent evs) eqn:E; [| reflexivity].
  rewrite forallb_forall in E. rewrite (E e Hin) in He. discriminate.
Qed.

Lemma falsyField_invalid (e : ParsedEvent) :
  Spec.falsyField e -> SecurityUtils.validEvent e = false.
Proof.
  unfold Spec.falsyField, SecurityUtils.validEvent, SecurityUtils.truthy_number.
  intros [H | [H | [H | [H | [H | H]]]]].
  - rewrite H. reflexivity.
  - apply Qeq_bool_iff in H. rewrite H. simpl. rewrite andb_false_r. reflexivity.
  - apply Qeq_bool_iff in H. rewrite H. simpl. rewrite !andb_false_r. reflexivity.
  - rewrite H. simpl. rewrite !andb_false_r. reflexivity.
  - rewrite H. simpl. rewrite !andb_false_r. reflexivity.
  - rewrite H. simpl. rewrite !andb_false_r. reflexivity.
Qed.

Lemma validEvent_falsyField (e : ParsedEvent) :
  SecurityUtils.validEvent e = false -> Spec.falsyField e.
Proof.
  unfold Spec.falsyField, SecurityUtils.validEvent, SecurityUtils.truthy_number.
  destruct e as [i ts ab ty ss d]; simpl.
  destruct i; [auto |].
  destruct (Qeq_bool ts 0) eqn:E1; [apply Qeq_bool_iff in E1; auto |].
  destruct (Qeq_bool ab 0) eqn:E2; [apply Qeq_bool_iff in E2; auto |].
  destruct ty; [auto 6 |].
  destruct ss; [auto 6 |].
  destruct d; [simpl; discriminate | auto 7].
Qed.

(** The steps of a read, spelled out by cases. *)
Ltac run_read :=
  unfold FileHandler.readHumanSignFile, FileHandler.readBody, FileHandler.readText,
    FileHandler.readJSONText, FileHandler.parseJSON, Eff.try_catch, Eff.bind, Eff.log,
    Eff.ret, Eff.throw, Eff.outcome, Eff.trace.

(** C10.  An archive one of whose events has a falsy [id], [timestamp],
    [absoluteTime], [type], [sessionId] or [data] is rejected by
    [readHumanSignFile]; when the file is within the size limit and its manifest
    parses, the error behind the rejection is ['Invalid event structure']. *)
Theorem falsy_field_rejected (now : Z) (file : File.t) (archive : Archive.t)
    (md : ParsedMetadata) (evs : list ParsedEvent) (e : ParsedEvent) :
  File.container file = Some archive ->
  Archive.metadata_json archive = Parses md ->
  BiometricMetadata.events md = Some evs ->
  In e evs ->
  Spec.falsyField e ->
  Eff.outcome (FileHandler.readHumanSignFile now file)
  = inl "Invalid or malicious HumanSign file"%string
  /\ (File.size file <= FileHandler.sizeLimit ->
      Archive.manifest_json archive <> Unparsable ->
      In (ConsoleError "Error reading HumanSign file:" "Invalid event structure")
         (Eff.trace (FileHandler.readHumanSignFile now file))).
Proof.
  intros Hc Hm He Hin Hf.
  pose proof (validateEventStructure_false evs e Hin (falsyField_invalid e Hf)) as Hv.
  destruct file as [sz c]. simpl in Hc. subst c.
  destruct archive as [txt mj nj pf]. simpl in Hm. subst mj.
  run_read. cbn [File.container File.size Archive.content_txt Archive.metadata_json
    Archive.manifest_json].
  rewrite He, Hv.
  destruct (sz >? FileHandler.sizeLimit) eqn:Esz.
  - split; [reflexivity |]. intro Hle. apply Z.gtb_lt in Esz. lia.
  - destruct txt as [t |]; destruct nj as [| | | m]; simpl;
      (split; [reflexivity |]); intros _ Hn; try congruence;
      repeat (first [left; reflexivity | right]).
Qed.

Lemma falsy_field_rejected_witness :
  Spec.falsyField Samples.zeroed_event
  /\ Eff.outcome (FileHandler.readHumanSignFile Samples.verifiedAt Samples.zeroed_file)
     = inl "Invalid or malicious HumanSign file"%string.
Proof.
  assert (F : Spec.falsyField Samples.zeroed_event) by (right; left; reflexivity).
  split; [exact F |].
  apply (falsy_field_rejected Samples.verifiedAt Samples.zeroed_file Samples.zeroed_archive
           Samples.zeroed_metadata _ Samples.zeroed_event
           eq_refl eq_refl eq_refl (or_introl eq_refl) F).
Defined.

(** X2.  The size check comes after the container was loaded: an oversized
    file is rejected, its members are neither read nor parsed, and the first
    step of the read is the load of the container. *)
Theorem oversized_rejected_after_load (now : Z) (file : File.t) :
  File.size file > FileHandler.sizeLimit ->
  Eff.outcome (FileHandler.readHumanSignFile now file)
  = inl "Invalid or malicious HumanSign file"%string
  /\ existsb Spec.memberStep (Eff.trace (FileHandler.readHumanSignFile now file)) = false
  /\ hd_error (Eff.trace (FileHandler.readHumanSignFile now file)) = Some LoadAsync.
Proof.
  intro H. apply Z.gt_lt, Z.gtb_lt in H.
  destruct file as [sz [a |]]; run_read;
    cbn [File.container File.size]; simpl in H; rewrite ?H; simpl; auto.
Qed.

(** The two branches of [detectTimestampManipulation]. *)
Lemma detect_short {D : Type} (now : Z) (events : list (KeystrokeEvent.t D)) :
  (List.length events < 2)%nat ->
  SecurityUtils.detectTimestampManipulation now events = false.
Proof.
  intro H. unfold SecurityUtils.detectTimestampManipulation.
  apply Nat.ltb_lt in H. rewrite H. reflexivity.
Qed.

Lemma detect_long {D : Type} (now : Z) (events : list (KeystrokeEvent.t D)) :
  (2 <= List.length events)%nat ->
  SecurityUtils.detectTimestampManipulation now events
  = SecurityUtils.nonSequential events
    || existsb (fun event =>
                  Qlt_bool (inject_Z (now + 60000)) (KeystrokeEvent.absoluteTime event))
               events.
Proof.
  intro H. unfold SecurityUtils.detectTimestampManipulation.
  destruct (List.length events <? 2)%nat eqn:E.
  - apply Nat.ltb_lt in E. lia.
  - destruct (SecurityUtils.nonSequential events); simpl; [reflexivity |].
    destruct (existsb _ events); reflexivity.
Qed.

(** C4, at the failing input.  The log of [Samples.future_file] has one event,
    stamped a day after the verification: [detectTimestampManipulation] returns
    before it looks at [absoluteTime], and the archive is read. *)
Theorem single_future_event_accepted :
  existsb (fun event =>
             Qlt_bool (inject_Z (Samples.verifiedAt + 60000))
                      (KeystrokeEvent.absoluteTime event))
          Samples.future_events = true
  /\ SecurityUtils.detectTimestampManipulation Samples.verifiedAt Samples.future_events
     = false
  /\ Eff.succeeded (FileHandler.readHumanSignFile Samples.verifiedAt Samples.future_file)
     = true.
Proof.
  split; [| split]; vm_compute; reflexivity.
Qed.

(** C5, at the failing input.  A file of 10 MiB and one byte is rejected, but
    only after [zip.loadAsync(file)] ran: the first step of the read is the
    load of the container, and the error caught is ['File too large']. *)
Theorem oversized_file_loaded_first :
  (File.size Samples.oversized_file >? FileHandler.sizeLimit) = true
  /\ Eff.trace (FileHandler.readHumanSignFile Samples.verifiedAt Samples.oversized_file)
     = [LoadAsync; ConsoleError "Error reading HumanSign file:" "File too large"]
  /\ Eff.outcome (FileHandler.readHumanSignFile Samples.verifiedAt Samples.oversized_file)
     = inl "Invalid or malicious HumanSign file"%string
  /\ Eff.trace (FileHandler.readHumanSignFile Samples.verifiedAt Samples.oversized_garbage)
     = [LoadAsync;
        ConsoleError "Error reading HumanSign file:"
                     "Can't find end of central directory : is this a zip file ?"].
Proof.
  repeat split.
Qed.

(** ** The red flags *)

(** C7, counterexample.  On a log with no event the backspace rule and the
    pause rule add their points (15 and 10), and no red flag is emitted. *)
Lemma red_flags_counterexample :
  AIDetector.ruleBackspace (AIDetector.extractFeatures Samples.empty_metadata) = 15
  /\ AIDetector.rulePauses (AIDetector.extractFeatures Samples.empty_metadata) = 10
  /\ AIDetector.AIAnalysis.aiProbability (AIDetector.analyzeForAI Samples.empty_metadata) = 25
  /\ AIDetector.AIAnalysis.redFlags (AIDetector.analyzeForAI Samples.empty_metadata) = [].
Proof.
  repeat split.
Qed.

Lemma in_flag (c : bool) (m s : string) :
  In s (AIDetector.flag c m) <-> c = true /\ s = m.
Proof.
  destruct c; simpl; intuition congruence.
Qed.

(** The red flags, one condition each. *)
Lemma redFlags_in (metadata : Metadata) (s : string) :
  let f := AIDetector.extractFeatures metadata in
  let n := FileHandler.count (BiometricMetadata.events metadata) in
  In s (AIDetector.AIAnalysis.redFlags (AIDetector.analyzeForAI metadata))
  <-> (AIDetector.lt_const (AIDetector.get f "consistency") (3 # 10) = true
       /\ s = "Extremely consistent typing rhythm detected"%string)
      \/ (AIDetector.gt_const (AIDetector.get f "burstPattern") (1 # 10) = true
          /\ s = "Burst typing pattern suggests automated input"%string)
      \/ ((AIDetector.lt_const (AIDetector.get f "backspaceRatio") (2 # 100) = true /\ 50 < n)
          /\ s = "Very few corrections made, unusual for human typing"%string)
      \/ (AIDetector.gt_const (AIDetector.get f "pasteRatio") (1 # 10) = true
          /\ s = "Significant paste operations detected"%string)
      \/ ((AIDetector.lt_const (AIDetector.get f "thinkingPauses") 2 = true /\ 100 < n)
          /\ s = "Lack of natural thinking pauses"%string).
Proof.
  intros f n. unfold AIDetector.analyzeForAI. cbn [AIDetector.AIAnalysis.redFlags].
  fold f. fold n.
  rewrite !in_app_iff, !in_flag, !andb_true_iff, !Z.gtb_ltb, !Z.ltb_lt. tauto.
Qed.

Lemma redFlags_NoDup (metadata : Metadata) :
  NoDup (AIDetector.AIAnalysis.redFlags (AIDetector.analyzeForAI metadata)).
Proof.
  unfold AIDetector.analyzeForAI. cbn [AIDetector.AIAnalysis.redFlags].
  set (f := AIDetector.extractFeatures metadata).
  destruct (AIDetector.lt_const (AIDetector.get f "consistency") (3 # 10));
    destruct (AIDetector.gt_const (AIDetector.get f "burstPattern") (1 # 10));
    destruct (AIDetector.lt_const (AIDetector.get f "backspaceRatio") (2 # 100) && _);
    destruct (AIDetector.gt_const (AIDetector.get f "pasteRatio") (1 # 10));
    destruct (AIDetector.lt_const (AIDetector.get f "thinkingPauses") 2 && _);
    cbn [AIDetector.flag app];
    repeat (constructor; [cbn [In]; intuition discriminate |]); constructor.
Qed.

(** C7, amended.  The burst flag and the paste flag are emitted exactly when
    their rules add points; the corrections flag exactly when the backspace
    rule adds points and the log has more than 50 events; the pause flag
    exactly when there are fewer than 2 thinking pauses and the log has more
    than 100 events; the density rule has no flag; no flag is emitted twice;
    and the probability is the sum of the rules' points, capped at 100. *)
Theorem red_flags_by_rule (metadata : Metadata) :
  let f := AIDetector.extractFeatures metadata in
  let n := FileHandler.count (BiometricMetadata.events metadata) in
  let r := AIDetector.analyzeForAI metadata in
  let flags := AIDetector.AIAnalysis.redFlags r in
  (In "Burst typing pattern suggests automated input"%string flags
   <-> AIDetector.ruleBurst f = 20)
  /\ (In "Significant paste operations detected"%string flags
      <-> AIDetector.rulePaste f = 20)
  /\ (In "Very few corrections made, unusual for human typing"%string flags
      <-> AIDetector.ruleBackspace f = 15 /\ 50 < n)
  /\ (In "Lack of natural thinking pauses"%string flags
      <-> AIDetector.lt_const (AIDetector.get f "thinkingPauses") 2 = true /\ 100 < n)
  /\ (forall s, In s flags ->
        In s [ "Extremely consistent typing rhythm detected";
               "Burst typing pattern suggests automated input";
               "Very few corrections made, unusual for human typing";
               "Significant paste operations detected";
               "Lack of natural thinking pauses" ]%string)
  /\ NoDup flags
  /\ AIDetector.AIAnalysis.aiProbability r
     = Z.min 100 (AIDetector.ruleConsistency f + AIDetector.ruleBurst f
                  + AIDetector.ruleBackspace f + AIDetector.rulePaste f
                  + AIDetector.ruleDensity f + AIDetector.rulePauses f).
Proof.
  intros f n r flags. subst r flags.
  pose proof (redFlags_in metadata) as Hin. cbv zeta in Hin. fold f n in Hin.
  unfold AIDetector.ruleBurst, AIDetector.rulePaste, AIDetector.ruleBackspace.
  split; [| split; [| split; [| split; [| split; [| split]]]]].
  - rewrite Hin.
    destruct (AIDetector.gt_const (AIDetector.get f "burstPattern") (1 # 10));
      intuition (try discriminate; try lia; auto).
  - rewrite Hin.
    destruct (AIDetector.gt_const (AIDetector.get f "pasteRatio") (1 # 10));
      intuition (try discriminate; try lia; auto).
  - rewrite Hin.
    destruct (AIDetector.lt_const (AIDetector.get f "backspaceRatio") (2 # 100));
      intuition (try discriminate; try lia; auto).
  - rewrite Hin. intuition (try discriminate; auto 6).
  - intros s H. apply Hin in H. cbn [In]. intuition auto.
  - apply redFlags_NoDup.
  - reflexivity.
Qed.

(** ** Appending paste events *)

Section AppendPastes.

Variable events pastes : list Event.
Hypothesis all_pastes : Forall Spec.pasteEvent pastes.

Lemma pastes_have_type : forall e, In e pastes -> KeystrokeEvent.type e = "paste"%string.
Proof.
  intros e H. rewrite Forall_forall in all_pastes. apply (all_pastes e H).
Qed.

Lemma filter_none (p : Event -> bool) :
  (forall e, KeystrokeEvent.type e = "paste"%string -> p e = false) ->
  filter p (events ++ pastes) = filter p events.
Proof.
  intro H. rewrite filter_app.
  assert (E : filter p pastes = []).
  { pose proof pastes_have_type as T. clear all_pastes.
    induction pastes as [| e l IH]; [reflexivity |].
    simpl. rewrite (H e (T e (or_introl eq_refl))). apply IH.
    intros x Hx. apply T. right. exact Hx. }
  rewrite E. apply app_nil_r.
Qed.

Lemma filter_all :
  filter (FileHandler.has_type "paste") (events ++ pastes)
  = filter (FileHandler.has_type "paste") events ++ pastes.
Proof.
  rewrite filter_app. f_equal.
  pose proof pastes_have_type as T. clear all_pastes.
  induction pastes as [| e l IH]; [reflexivity |].
  simpl. unfold FileHandler.has_type at 1. rewrite (T e (or_introl eq_refl)). simpl.
  f_equal. apply IH. intros x Hx. apply T. right. exact Hx.
Qed.

Lemma keyDown_unchanged :
  filter (FileHandler.has_type "keydown") (events ++ pastes)
  = filter (FileHandler.has_type "keydown") events.
Proof.
  apply filter_none. intros e H. unfold FileHandler.has_type. rewrite H. reflexivity.
Qed.

Lemma keys_unchanged :
  filter (fun e => FileHandler.has_type "keydown" e || FileHandler.has_type "keyup" e)
         (events ++ pastes)
  = filter (fun e => FileHandler.has_type "keydown" e || FileHandler.has_type "keyup" e)
           events.
Proof.
  apply filter_none. intros e H. unfold FileHandler.has_type. rewrite H. reflexivity.
Qed.

Lemma backspaces_unchanged :
  filter (fun e => FileHandler.has_type "keydown" e && FileHandler.key_is "Backspace" e)
         (events ++ pastes)
  = filter (fun e => FileHandler.has_type "keydown" e && FileHandler.key_is "Backspace" e)
           events.
Proof.
  apply filter_none. intros e H. unfold FileHandler.has_type. rewrite H. reflexivity.
Qed.

(** What [preProcessEvents] keeps and what it changes. *)
Lemma preProcess_append :
  let P := FileHandler.preProcessEvents events in
  let P' := FileHandler.preProcessEvents (events ++ pastes) in
  Metrics.keyEvents P' = Metrics.keyEvents P
  /\ Metrics.pasteEvents P' = Metrics.pasteEvents P + FileHandler.count pastes
  /\ Metrics.backspaceCount P' = Metrics.backspaceCount P
  /\ Metrics.timingVariance P' = Metrics.timingVariance P.
Proof.
  unfold FileHandler.preProcessEvents.
  cbn [Metrics.keyEvents Metrics.pasteEvents Metrics.backspaceCount Metrics.timingVariance].
  rewrite keys_unchanged, keyDown_unchanged, backspaces_unchanged, filter_all.
  repeat split. unfold FileHandler.count. rewrite length_app. lia.
Qed.

End AppendPastes.

(** The score of the behavioral scorer, penalty by penalty. *)
Lemma penalise_fst (c : bool) (points : Z) (message : string) (st : Z * list string) :
  fst (FileHandler.penalise c points message st) = fst st - (if c then points else 0).
Proof.
  destruct c; simpl; lia.
Qed.

Lemma scoreOf_fst (P : Metrics.t) :
  fst (FileHandler.scoreOf P)
  = 100
    - (if Metrics.pasteEvents P >? 0 then Metrics.pasteEvents P * 10 else 0)
    - (if nlt (Metrics.timingVariance P) (Fin 10) && (Metrics.keyEvents P >? 20)
       then 30 else 0)
    - (if ngt (FileHandler.avgSpeed P) (Fin 15) then 20 else 0)
    - (if nlt (FileHandler.backspaceRatio P) (Fin (2 # 100)) && (Metrics.keyEvents P >? 50)
       then 15 else 0).
Proof.
  unfold FileHandler.scoreOf. rewrite !penalise_fst. reflexivity.
Qed.

Lemma analyzeBiometrics_humanScore (now : Z) (metadata : Metadata) :
  BiometricAnalysis.humanScore (FileHandler.analyzeBiometrics now metadata)
  = Z.max 0 (Z.min 100
      (fst (FileHandler.scoreOf
              (FileHandler.preProcessEvents (BiometricMetadata.events metadata))))).
Proof.
  unfold FileHandler.analyzeBiometrics.
  destruct (FileHandler.scoreOf _) as [sc an]. reflexivity.
Qed.

(** The features a rule reads, by name. *)
Lemma get_consistency (m : Metadata) :
  AIDetector.get (AIDetector.extractFeatures m) "consistency" = None.
Proof. reflexivity. Qed.

Lemma get_pasteRatio (m : Metadata) :
  AIDetector.get (AIDetector.extractFeatures m) "pasteRatio"
  = Some (AIDetector.VNum
      (ndiv (ofZ (AIDetector.totalPasteLength
                    (filter (FileHandler.has_type "paste") (BiometricMetadata.events m))))
            (nmax (ofZ (Text.strlen (BiometricMetadata.finalText m))) (Fin 1)))).
Proof. reflexivity. Qed.

Lemma get_backspaceRatio (m : Metadata) :
  AIDetector.get (AIDetector.extractFeatures m) "backspaceRatio"
  = Some (AIDetector.VNum
      (ndiv (ofZ (FileHandler.count
                    (filter (fun e => FileHandler.has_type "keydown" e
                                      && FileHandler.key_is "Backspace" e)
                            (BiometricMetadata.events m))))
            (nmax (ofZ (FileHandler.count
                          (filter (FileHandler.has_type "keydown")
                                  (BiometricMetadata.events m))))
                  (Fin 1)))).
Proof. reflexivity. Qed.

Lemma get_eventDensity (m : Metadata) :
  AIDetector.get (AIDetector.extractFeatures m) "eventDensity"
  = Some (AIDetector.VNum
      (ndiv (ofZ (FileHandler.count
                    (filter (FileHandler.has_type "keydown") (BiometricMetadata.events m))))
            (nmax (ofZ (Text.strlen (BiometricMetadata.finalText m))) (Fin 1)))).
Proof. reflexivity. Qed.

Lemma get_burstPattern (m : Metadata) :
  AIDetector.get (AIDetector.extractFeatures m) "burstPattern"
  = Some (AIDetector.VNum
      (AIDetector.detectBurstPatterns
         (AIDetector.calculateTimings
            (filter (FileHandler.has_type "keydown") (BiometricMetadata.events m))))).
Proof. reflexivity. Qed.

Lemma get_thinkingPauses (m : Metadata) :
  AIDetector.get (AIDetector.extractFeatures m) "thinkingPauses"
  = Some (AIDetector.VNum
      (ofZ (AIDetector.Rhythm.thinkingPauses
              (AIDetector.calculateRhythmFeatures
                 (AIDetector.calculateTimings
                    (filter (FileHandler.has_type "keydown")
                            (BiometricMetadata.events m))))))).
Proof. reflexivity. Qed.

Lemma get_avgKeyInterval (m : Metadata) :
  AIDetector.get (AIDetector.extractFeatures m) "avgKeyInterval"
  = Some (AIDetector.VNum
      (AIDetector.Rhythm.avgInterval
         (AIDetector.calculateRhythmFeatures
            (AIDetector.calculateTimings
               (filter (FileHandler.has_type "keydown") (BiometricMetadata.events m)))))).
Proof. reflexivity. Qed.

(** Quotients by [Math.max(_, 1)]. *)
Lemma nmax_one (z : Z) : exists d, nmax (ofZ z) (Fin 1) = Fin d /\ (0 < d)%Q.
Proof.
  unfold nmax, ofZ, nle.
  destruct (Qle_bool (inject_Z z) 1) eqn:E.
  - exists 1%Q. split; [reflexivity | reflexivity].
  - exists (inject_Z z). split; [reflexivity |].
    apply Qlt_bool_iff. unfold Qlt_bool.
    destruct (Qle_bool (inject_Z z) 0) eqn:E0; [| reflexivity].
    apply Qle_bool_iff in E0.
    assert (H : Qle_bool (inject_Z z) 1 = true).
    { apply Qle_bool_iff. eapply Qle_trans; [exact E0 | discriminate]. }
    congruence.
Qed.

Lemma ndiv_pos (a d : Q) : (0 < d)%Q -> ndiv (Fin a) (Fin d) = Fin (a / d).
Proof.
  intro H. unfold ndiv.
  destruct (Qeq_bool d 0) eqn:E; [| reflexivity].
  apply Qeq_bool_iff in E. rewrite E in H. discriminate H.
Qed.

Lemma quotient_mono (a b : Z) (den : num) (k : Q) :
  a <= b ->
  (exists d, den = Fin d /\ (0 < d)%Q) ->
  ngt (ndiv (ofZ a) den) (Fin k) = true ->
  ngt (ndiv (ofZ b) den) (Fin k) = true.
Proof.
  intros Hab [d [-> Hd]]. unfold ofZ. rewrite !ndiv_pos by exact Hd.
  unfold ngt, nlt. rewrite !Qlt_bool_iff. intro H.
  eapply Qlt_le_trans; [exact H |].
  unfold Qdiv. apply Qmult_le_compat_r.
  - rewrite <- Zle_Qle. exact Hab.
  - apply Qlt_le_weak, Qinv_lt_0_compat, Hd.
Qed.

Lemma totalPasteLength_from (l : list Event) (a : Z) :
  fold_left (fun sum e => sum + AIDetector.pasteLengthOf e) l a
  = a + AIDetector.totalPasteLength l.
Proof.
  unfold AIDetector.totalPasteLength.
  assert (G : forall b, fold_left (fun sum e => sum + AIDetector.pasteLengthOf e) l (a + b)
                        = a + fold_left (fun sum e => sum + AIDetector.pasteLengthOf e) l b).
  { induction l as [| e l IH]; intro b; simpl; [reflexivity |].
    rewrite <- IH. f_equal. lia. }
  rewrite <- G. f_equal. lia.
Qed.

Lemma totalPasteLength_app (l ps : list Event) :
  AIDetector.totalPasteLength (l ++ ps)
  = AIDetector.totalPasteLength l + AIDetector.totalPasteLength ps.
Proof.
  unfold AIDetector.totalPasteLength at 1. rewrite fold_left_app.
  fold (AIDetector.totalPasteLength l). apply totalPasteLength_from.
Qed.

Lemma totalPasteLength_nonneg (ps : list Event) :
  Forall Spec.pasteEvent ps -> 0 <= AIDetector.totalPasteLength ps.
Proof.
  induction 1 as [| e l [_ He] _ IH]; [reflexivity |].
  change (e :: l) with ([e] ++ l). rewrite totalPasteLength_app.
  unfold AIDetector.totalPasteLength at 1. simpl. lia.
Qed.

(** The two penalties that appended events can change. *)
Lemma paste_penalty_mono (p c : Z) :
  0 <= p -> 0 <= c ->
  (if p >? 0 then p * 10 else 0) <= (if p + c >? 0 then (p + c) * 10 else 0).
Proof.
  intros Hp Hc. rewrite !Z.gtb_ltb.
  destruct (0 <? p) eqn:G1; destruct (0 <? p + c) eqn:G2;
    try (apply Z.ltb_lt in G1); try (apply Z.ltb_ge in G1);
    try (apply Z.ltb_lt in G2); try (apply Z.ltb_ge in G2); lia.
Qed.

Lemma speed_penalty_mono (s s' : bool) :
  (s = true -> s' = true) -> (if s then 20 else 0) <= (if s' then 20 else 0).
Proof.
  destruct s; [intro H; rewrite (H eq_refl) | destruct s']; lia.
Qed.

(** C8, counterexample.  Sixteen key-downs within a second score 80 (the
    speed penalty applies); with one paste appended ten seconds later the
    speed penalty is gone and the score is 90. *)
Lemma pastes_counterexample :
  BiometricAnalysis.humanScore
    (FileHandler.analyzeBiometrics Samples.verifiedAt Samples.fast_metadata) = 80
  /\ BiometricAnalysis.humanScore
       (FileHandler.analyzeBiometrics Samples.verifiedAt Samples.fast_then_paste) = 90
  /\ BiometricMetadata.events Samples.fast_then_paste
     = BiometricMetadata.events Samples.fast_metadata ++ [Samples.late_paste]
  /\ Spec.pasteEvent Samples.late_paste.
Proof.
  split; [| split; [| split]]; try (vm_compute; reflexivity).
  split; [reflexivity | vm_compute; discriminate].
Qed.

(** C8, amended.  Appending paste events of non-negative length to a log
    never lowers the AI-likelihood score, and never raises the behavioral
    score as long as a speed penalty that applied to the log still applies to
    the extended log. *)
Theorem pastes_monotone (now : Z) (metadata : Metadata) (pastes : list Event) :
  Forall Spec.pasteEvent pastes ->
  let extended :=
    BiometricMetadata.with_events metadata (BiometricMetadata.events metadata ++ pastes) in
  AIDetector.AIAnalysis.aiProbability (AIDetector.analyzeForAI metadata)
  <= AIDetector.AIAnalysis.aiProbability (AIDetector.analyzeForAI extended)
  /\ ((ngt (FileHandler.avgSpeed
              (FileHandler.preProcessEvents (BiometricMetadata.events metadata)))
           (Fin 15) = true ->
       ngt (FileHandler.avgSpeed
              (FileHandler.preProcessEvents (BiometricMetadata.events extended)))
           (Fin 15) = true) ->
      BiometricAnalysis.humanScore (FileHandler.analyzeBiometrics now extended)
      <= BiometricAnalysis.humanScore (FileHandler.analyzeBiometrics now metadata)).
Proof.
  intros Hp extended. split.
  - unfold AIDetector.analyzeForAI. cbn [AIDetector.AIAnalysis.aiProbability].
    unfold AIDetector.predictAIProbability.
    set (f := AIDetector.extractFeatures metadata).
    set (f' := AIDetector.extractFeatures extended).
    assert (E1 : AIDetector.ruleConsistency f' = AIDetector.ruleConsistency f)
      by (unfold AIDetector.ruleConsistency, f, f'; rewrite !get_consistency; reflexivity).
    assert (E2 : AIDetector.ruleBurst f' = AIDetector.ruleBurst f).
    { unfold AIDetector.ruleBurst, f, f'. rewrite !get_burstPattern.
      unfold extended. cbn [BiometricMetadata.with_events BiometricMetadata.events].
      rewrite (keyDown_unchanged _ _ Hp). reflexivity. }
    assert (E3 : AIDetector.ruleBackspace f' = AIDetector.ruleBackspace f).
    { unfold AIDetector.ruleBackspace, f, f'. rewrite !get_backspaceRatio.
      unfold extended. cbn [BiometricMetadata.with_events BiometricMetadata.events].
      rewrite (keyDown_unchanged _ _ Hp), (backspaces_unchanged _ _ Hp). reflexivity. }
    assert (E4 : AIDetector.ruleDensity f' = AIDetector.ruleDensity f).
    { unfold AIDetector.ruleDensity, f, f'. rewrite !get_eventDensity.
      unfold extended.
      cbn [BiometricMetadata.with_events BiometricMetadata.events BiometricMetadata.finalText].
      rewrite (keyDown_unchanged _ _ Hp). reflexivity. }
    assert (E5 : AIDetector.rulePauses f' = AIDetector.rulePauses f).
    { unfold AIDetector.rulePauses, f, f'. rewrite !get_thinkingPauses, !get_avgKeyInterval.
      unfold extended. cbn [BiometricMetadata.with_events BiometricMetadata.events].
      rewrite (keyDown_unchanged _ _ Hp). reflexivity. }
    assert (E6 : AIDetector.rulePaste f <= AIDetector.rulePaste f').
    { unfold AIDetector.rulePaste, f, f'. rewrite !get_pasteRatio.
      unfold extended.
      cbn [BiometricMetadata.with_events BiometricMetadata.events BiometricMetadata.finalText].
      rewrite (filter_all _ _ Hp), totalPasteLength_app.
      pose proof (totalPasteLength_nonneg pastes Hp) as Hn.
      unfold AIDetector.gt_const.
      set (A := AIDetector.totalPasteLength
                  (filter (FileHandler.has_type "paste") (BiometricMetadata.events metadata))).
      set (B := AIDetector.totalPasteLength pastes) in *.
      destruct (ngt (ndiv (ofZ A) _) _) eqn:E.
      - apply (quotient_mono A (A + B)) in E; [rewrite E; lia | lia | apply nmax_one].
      - match goal with |- context [if ?c then _ else _] => destruct c end; lia. }
    rewrite E1, E2, E3, E4, E5. lia.
  - intro Hspeed. rewrite !analyzeBiometrics_humanScore, !scoreOf_fst.
    unfold extended in *. cbn [BiometricMetadata.with_events BiometricMetadata.events] in *.
    destruct (preProcess_append (BiometricMetadata.events metadata) pastes Hp)
      as [Ek [Ep [Eb Ev]]].
    set (P := FileHandler.preProcessEvents (BiometricMetadata.events metadata)) in *.
    set (P' := FileHandler.preProcessEvents (BiometricMetadata.events metadata ++ pastes)) in *.
    assert (Er : FileHandler.backspaceRatio P' = FileHandler.backspaceRatio P).
    { unfold FileHandler.backspaceRatio. rewrite Ek, Eb. reflexivity. }
    rewrite Ek, Ep, Ev, Er.
    assert (Hc : 0 <= FileHandler.count pastes) by (unfold FileHandler.count; lia).
    assert (H0 : 0 <= Metrics.pasteEvents P).
    { unfold P, FileHandler.preProcessEvents, FileHandler.count. cbn [Metrics.pasteEvents]. lia. }
    pose proof (paste_penalty_mono (Metrics.pasteEvents P) (FileHandler.count pastes) H0 Hc)
      as Hpaste.
    pose proof (speed_penalty_mono _ _ Hspeed) as Hsp.
    destruct (nlt (Metrics.timingVariance P) (Fin 10) && _);
      destruct (nlt (FileHandler.backspaceRatio P) _ && _); lia.
Qed.

Lemma pastes_monotone_witness :
  Forall Spec.pasteEvent [Samples.late_paste]
  /\ let extended :=
       BiometricMetadata.with_events Samples.plain_metadata
         (BiometricMetadata.events Samples.plain_metadata ++ [Samples.late_paste]) in
     AIDetector.AIAnalysis.aiProbability (AIDetector.analyzeForAI Samples.plain_metadata)
     <= AIDetector.AIAnalysis.aiProbability (AIDetector.analyzeForAI extended)
     /\ BiometricAnalysis.humanScore
          (FileHandler.analyzeBiometrics Samples.verifiedAt extended)
        <= BiometricAnalysis.humanScore
             (FileHandler.analyzeBiometrics Samples.verifiedAt Samples.plain_metadata).
Proof.
  assert (F : Forall Spec.pasteEvent [Samples.late_paste]).
  { constructor; [split; [reflexivity | vm_compute; discriminate] | constructor]. }
  split; [exact F |].
  destruct (pastes_monotone Samples.verifiedAt Samples.plain_metadata [Samples.late_paste] F)
    as [H1 H2].
  split; [exact H1 | apply H2].
  intro H. vm_compute in H. discriminate H.
Defined.

(** ** A session or a log with no event *)

(** A session with no event has an empty ring and both counters at 0. *)
Lemma no_event_no_count (s : Capture.Session) :
  Capture.reachable s ->
  Capture.events s = [] ->
  Capture.keyTimingsRef s = [] /\ Capture.backspaceCountRef s = 0
  /\ Capture.pasteCountRef s = 0.
Proof.
  induction 1 as [now | s s' Hs IH Hstep]; [auto |].
  destruct Hstep; intro He;
    try (unfold Capture.handleKeyDown, Capture.handleKeyUp, Capture.handlePaste,
           Capture.handleCopy, Capture.handleCut, Capture.append in *;
         destruct (Capture.isCapturing s); simpl in He;
         [exfalso; eapply app_cons_not_nil; symmetry; exact He | auto]);
    auto.
Qed.

Lemma zero_quotient (den : num) :
  (exists d, den = Fin d /\ (0 < d)%Q) -> neq (ndiv (ofZ 0) den) (Fin 0) = true.
Proof.
  intros [d [-> Hd]]. unfold ofZ. rewrite ndiv_pos by exact Hd.
  unfold neq. apply Qeq_bool_iff. unfold Qdiv. apply Qmult_0_l.
Qed.

Lemma speed_finite (words elapsed : Z) :
  let minutes := ndiv (ndiv (ofZ elapsed) (Fin 1000)) (Fin 60) in
  is_finite (if ngt minutes (Fin 0) then nround (ndiv (ofZ words) minutes) else Fin 0)
  = true.
Proof.
  intro minutes. subst minutes. unfold ofZ.
  rewrite (ndiv_pos _ 1000) by reflexivity. rewrite (ndiv_pos _ 60) by reflexivity.
  unfold ngt, nlt.
  destruct (Qlt_bool 0 _) eqn:E; [| reflexivity].
  apply Qlt_bool_iff in E. rewrite ndiv_pos by exact E. reflexivity.
Qed.

Lemma isZero_gt (v : option AIDetector.value) (k : Q) :
  Spec.isZero v = true -> (0 <= k)%Q -> AIDetector.gt_const v k = false.
Proof.
  destruct v as [[[q | | |] | sv] |]; try discriminate.
  unfold Spec.isZero, neq, AIDetector.gt_const, ngt, nlt. intros Hq Hk.
  apply Qeq_bool_iff in Hq. apply Qlt_bool_false_iff. rewrite Hq. exact Hk.
Qed.

Lemma isZero_lt (v : option AIDetector.value) (k : Q) :
  Spec.isZero v = true -> (0 < k)%Q -> AIDetector.lt_const v k = true.
Proof.
  destruct v as [[[q | | |] | sv] |]; try discriminate.
  unfold Spec.isZero, neq, AIDetector.lt_const, nlt. intros Hq Hk.
  apply Qeq_bool_iff in Hq. apply Qlt_bool_iff. rewrite Hq. exact Hk.
Qed.

(** X30.  With no event, every statistic computed from the events is a
    finite number and every ratio over them is 0 (the two features computed
    from the text alone are not concerned).  For a capture session: the variance, the pause count and the last
    timing are 0, the speed and the duration are finite, the confidence is an
    integer (55).  For metadata: the average timing, the variance and the
    duration of [preProcessEvents] are 0, the speed and the backspace ratio of
    [analyzeBiometrics] are 0 and its score is 100; the rhythm features of
    [calculateRhythmFeatures] and the backspace ratio, paste ratio, event
    density and burst ratio of [extractFeatures] are 0, and the AI score is
    25. *)
Theorem zero_events_total (now : Z) (s : Capture.Session) (metadata : Metadata) :
  Capture.reachable s ->
  Capture.events s = [] ->
  BiometricMetadata.events metadata = [] ->
  let stats := Capture.calculateStats now s in
  let processed := FileHandler.preProcessEvents (BiometricMetadata.events metadata) in
  let f := AIDetector.extractFeatures metadata in
  (Capture.LiveStats.variance stats = Fin 0
   /\ Capture.LiveStats.thinkingPauses stats = 0
   /\ Capture.LiveStats.lastKeyTiming stats = 0%Q
   /\ Capture.LiveStats.totalKeys stats = 0
   /\ is_finite (Capture.LiveStats.currentSpeed stats) = true
   /\ is_finite (Capture.LiveStats.sessionDuration stats) = true
   /\ Capture.LiveStats.humanConfidence stats = 55)
  /\ (Metrics.averageTiming processed = Fin 0
      /\ Metrics.timingVariance processed = Fin 0
      /\ Metrics.sessionDuration processed = Fin 0
      /\ FileHandler.avgSpeed processed = Fin 0
      /\ FileHandler.backspaceRatio processed = Fin 0
      /\ BiometricAnalysis.humanScore (FileHandler.analyzeBiometrics now metadata) = 100)
  /\ (AIDetector.calculateRhythmFeatures []
      = AIDetector.Rhythm.mk (Fin 0) (AIDetector.VNum (Fin 0)) (Fin 0) (Fin 0)
          (AIDetector.VNum (Fin 0)) 0
      /\ Spec.isZero (AIDetector.get f "avgKeyInterval") = true
      /\ Spec.isZero (AIDetector.get f "timingVariance") = true
      /\ Spec.isZero (AIDetector.get f "rhythmConsistency") = true
      /\ Spec.isZero (AIDetector.get f "backspaceRatio") = true
      /\ Spec.isZero (AIDetector.get f "pasteRatio") = true
      /\ Spec.isZero (AIDetector.get f "eventDensity") = true
      /\ Spec.isZero (AIDetector.get f "burstPattern") = true
      /\ Spec.isZero (AIDetector.get f "thinkingPauses") = true
      /\ AIDetector.predictAIProbability f = 25).
Proof.
  intros Hr He Hm stats processed f.
  destruct (no_event_no_count s Hr He) as [Hk [Hb Hp]].
  split; [| split].
  - subst stats. unfold Capture.calculateStats, Capture.ringTimings.
    rewrite Hk, Hb, Hp, He.
    cbn [Capture.LiveStats.variance Capture.LiveStats.thinkingPauses
         Capture.LiveStats.lastKeyTiming Capture.LiveStats.totalKeys
         Capture.LiveStats.currentSpeed Capture.LiveStats.sessionDuration
         Capture.LiveStats.humanConfidence].
    repeat split. apply speed_finite.
  - subst processed. rewrite analyzeBiometrics_humanScore, Hm. repeat split.
  - assert (Z1 : Spec.isZero (AIDetector.get f "pasteRatio") = true).
    { subst f. rewrite get_pasteRatio, Hm. apply zero_quotient, nmax_one. }
    assert (Z2 : Spec.isZero (AIDetector.get f "eventDensity") = true).
    { subst f. rewrite get_eventDensity, Hm. apply zero_quotient, nmax_one. }
    assert (Z3 : Spec.isZero (AIDetector.get f "backspaceRatio") = true)
      by (subst f; rewrite get_backspaceRatio, Hm; reflexivity).
    assert (Z4 : Spec.isZero (AIDetector.get f "burstPattern") = true)
      by (subst f; rewrite get_burstPattern, Hm; reflexivity).
    assert (Z5 : Spec.isZero (AIDetector.get f "thinkingPauses") = true)
      by (subst f; rewrite get_thinkingPauses, Hm; reflexivity).
    assert (Z6 : Spec.isZero (AIDetector.get f "avgKeyInterval") = true)
      by (subst f; rewrite get_avgKeyInterval, Hm; reflexivity).
    split; [reflexivity |].
    split; [exact Z6 |].
    split; [subst f; unfold AIDetector.extractFeatures; rewrite Hm; reflexivity |].
    split; [subst f; unfold AIDetector.extractFeatures; rewrite Hm; reflexivity |].
    split; [exact Z3 |]. split; [exact Z1 |]. split; [exact Z2 |].
    split; [exact Z4 |]. split; [exact Z5 |].
    unfold AIDetector.predictAIProbability, AIDetector.ruleConsistency, AIDetector.ruleBurst,
      AIDetector.ruleBackspace, AIDetector.rulePaste, AIDetector.ruleDensity,
      AIDetector.rulePauses.
    change (AIDetector.get f "consistency") with (@None AIDetector.value).
    rewrite (isZero_gt _ (1 # 10) Z4), (isZero_lt _ (2 # 100) Z3),
      (isZero_gt _ (1 # 10) Z1), (isZero_gt _ 2 Z2), (isZero_lt _ 2 Z5),
      (isZero_lt _ 200 Z6) by reflexivity || discriminate.
    reflexivity.
Qed.

Lemma zero_events_total_witness :
  Capture.reachable (Capture.startCapture Samples.signedAt (Capture.initial Samples.sessionStart))
  /\ Capture.LiveStats.humanConfidence
       (Capture.calculateStats Samples.verifiedAt
          (Capture.startCapture Samples.signedAt (Capture.initial Samples.sessionStart))) = 55
  /\ FileHandler.avgSpeed
       (FileHandler.preProcessEvents (BiometricMetadata.events Samples.empty_metadata))
     = Fin 0.
Proof.
  assert (R : Capture.reachable
                (Capture.startCapture Samples.signedAt (Capture.initial Samples.sessionStart))).
  { eapply Capture.reach_step; [apply Capture.reach_initial | apply Capture.step_start]. }
  split; [exact R |].
  pose proof (zero_events_total Samples.verifiedAt _ Samples.empty_metadata R eq_refl eq_refl)
    as H.
  cbv zeta in H. destruct H as [[_ [_ [_ [_ [_ [_ H1]]]]]] [[_ [_ [_ [H2 _]]]] _]].
  split; [exact H1 | exact H2].
Defined.

(** C9, at a failing input.  After [setText(' ')] and [startCapture()] the
    hook holds no event and a text of one space.  On the metadata it exports,
    [calculateTextComplexity] passes its guard (the text is not empty), finds
    no word and divides 0 by 0: the feature [textComplexity] is NaN.  The
    sibling [calculateWordLengthVariance] tests the number of words and
    returns 0 on the same text. *)
Theorem zero_events_text_complexity :
  Capture.reachable Samples.blank_session
  /\ Capture.events Samples.blank_session = []
  /\ BiometricMetadata.events Samples.blank_metadata = []
  /\ BiometricMetadata.finalText Samples.blank_metadata = " "%string
  /\ Text.is_empty (BiometricMetadata.finalText Samples.blank_metadata) = false
  /\ FileHandler.count (Text.words (BiometricMetadata.finalText Samples.blank_metadata)) = 0
  /\ ndiv (ofZ 0) (ofZ 0) = NaN
  /\ AIDetector.calculateTextComplexity (BiometricMetadata.finalText Samples.blank_metadata)
     = NaN
  /\ AIDetector.get (AIDetector.extractFeatures Samples.blank_metadata) "textComplexity"
     = Some (AIDetector.VNum NaN)
  /\ AIDetector.get (AIDetector.AIAnalysis.features
                       (AIDetector.analyzeForAI Samples.blank_metadata)) "textComplexity"
     = Some (AIDetector.VNum NaN)
  /\ AIDetector.calculateWordLengthVariance
       (BiometricMetadata.finalText Samples.blank_metadata)
     = AIDetector.VNum (Fin 0).
Proof.
  split.
  - unfold Samples.blank_session.
    eapply Capture.reach_step; [| apply Capture.step_start].
    eapply Capture.reach_step; [apply Capture.reach_initial | apply Capture.step_setText].
  - repeat (split; [vm_compute; reflexivity |]). vm_compute. reflexivity.
Qed.

(** ** The human-confidence score *)

(** X1.  As a function of its five arguments, [calculateHumanConfidence] is
    the heuristic of the specification. *)
Theorem calculateHumanConfidence_spec (backspaces pastes : Z) (variance : num)
    (pauses totalKeys : Z) :
  0 <= pastes -> 0 <= totalKeys ->
  Capture.calculateHumanConfidence backspaces pastes variance pauses totalKeys
  = Spec.humanConfidence pastes backspaces totalKeys variance pauses.
Proof.
  intros Hp Ht.
  unfold Capture.calculateHumanConfidence, Spec.humanConfidence, Spec.backspaceRatio.
  rewrite (Z.gtb_ltb pastes 0), (Z.gtb_ltb totalKeys 0), (Z.gtb_ltb pauses 2).
  assert (E : (if 0 <? totalKeys
               then ndiv (ofZ backspaces) (ofZ totalKeys) else Fin 0)
              = Fin (if totalKeys =? 0 then 0
                     else inject_Z backspaces / inject_Z totalKeys)%Q).
  { destruct (0 <? totalKeys) eqn:E0.
    - apply Z.ltb_lt in E0. destruct (totalKeys =? 0) eqn:E1; [apply Z.eqb_eq in E1; lia |].
      unfold ofZ. apply ndiv_pos. change 0%Q with (inject_Z 0). rewrite <- Zlt_Qlt. exact E0.
    - apply Z.ltb_ge in E0. assert (totalKeys = 0) as -> by lia. reflexivity. }
  rewrite E. clear E.
  set (ratio := (if totalKeys =? 0 then 0 else inject_Z backspaces / inject_Z totalKeys)%Q).
  change (ngt (Fin ratio) (Fin (5 # 100))) with (Qlt_bool (5 # 100) ratio).
  change (nlt (Fin ratio) (Fin (2 # 10))) with (Qlt_bool ratio (2 # 10)).
  change (neq (Fin ratio) (Fin 0)) with (Qeq_bool ratio 0).
  assert (T : Qlt_bool ratio (20 # 100) = Qlt_bool ratio (2 # 10)).
  { unfold Qlt_bool. assert (Q : (20 # 100 == 2 # 10)%Q) by reflexivity.
    rewrite Q. reflexivity. }
  rewrite T. clear T.
  assert (X : Qlt_bool (5 # 100) ratio = true -> Qeq_bool ratio 0 = false).
  { intro R1. apply Qlt_bool_iff in R1. destruct (Qeq_bool ratio 0) eqn:R3; [| reflexivity].
    apply Qeq_bool_iff in R3. rewrite R3 in R1. discriminate R1. }
  assert (Y : ngt variance (Fin 20) = true -> nle variance (Fin 5) = false).
  { destruct variance as [v | | |]; unfold ngt, nlt, nle;
      [| intro V; discriminate V | reflexivity | intro V; discriminate V].
    intro V. apply Qlt_bool_iff in V.
    destruct (Qle_bool v 5) eqn:L; [| reflexivity].
    apply Qle_bool_iff in L. exfalso. apply (Qlt_irrefl 20).
    eapply Qlt_le_trans; [exact V |]. eapply Qle_trans; [exact L | discriminate]. }
  destruct (Qlt_bool (5 # 100) ratio); [rewrite (X eq_refl) |]; clear X;
    (destruct (ngt variance (Fin 20)); [rewrite (Y eq_refl) |]; clear Y);
    destruct (Qlt_bool ratio (2 # 10)); destruct (Qeq_bool ratio 0); cbn [andb];
    destruct (0 <? pastes) eqn:P; try (apply Z.ltb_lt in P); try (apply Z.ltb_ge in P);
    destruct (nlt variance (Fin 80));
    try destruct (nle variance (Fin 5)); destruct (2 <? pauses); lia.
Qed.

(** C6, at the failing input.  In a session whose first key is Backspace
    there is one key-down event and one backspace, but no interval in the
    ring: [calculateStats] passes 0 for [totalKeys], the ratio is taken for 0
    and the score is 55, where the heuristic of the specification, over the
    one key-down event, gives 75. *)
Theorem confidence_over_ring_count :
  Capture.reachable Samples.backspace_first
  /\ let stats := Capture.calculateStats (Samples.signedAt + 1000) Samples.backspace_first in
     Capture.LiveStats.totalKeys stats = 1
     /\ Capture.LiveStats.backspaceCount stats = 1
     /\ Capture.LiveStats.pasteCount stats = 0
     /\ Capture.LiveStats.variance stats = Fin 0
     /\ Capture.LiveStats.thinkingPauses stats = 0
     /\ Capture.ringTimings Samples.backspace_first = []
     /\ Capture.LiveStats.humanConfidence stats = 55
     /\ Spec.humanConfidence 0 1 1 (Fin 0) 0 = 75.
Proof.
  split.
  - unfold Samples.backspace_first.
    eapply Capture.reach_step; [| apply Capture.step_keyDown].
    eapply Capture.reach_step; [apply Capture.reach_initial | apply Capture.step_start].
  - vm_compute. repeat split.
Qed.

(** ** Signatures *)

(** C2, at the failing input.  The signature made at [Samples.signedAt] for
    the metadata of [hi] is refused one minute later with the same key and
    the same metadata: the expected signature is made from the clock of the
    verification. *)
Theorem signature_not_replayed :
  let signature :=
    CryptoUtils.createSignature Samples.signedAt Samples.hashed_metadata Samples.secretKey in
  CryptoUtils.verifySignature Samples.verifiedAt Samples.hashed_metadata signature
    Samples.secretKey = false
  /\ CryptoUtils.verifySignature Samples.signedAt Samples.hashed_metadata signature
       Samples.secretKey = true
  /\ CryptoUtils.signatureString Samples.signedAt Samples.hashed_metadata Samples.secretKey
     <> CryptoUtils.signatureString Samples.verifiedAt Samples.hashed_metadata
          Samples.secretKey.
Proof.
  split; [| split]; vm_compute; [reflexivity | reflexivity | discriminate].
Qed.

(** ** Packaging, then reading *)

Lemma validated_asParsed (l : list Event) :
  map FileHandler.validated (map FileHandler.asParsed l) = l.
Proof.
  induction l as [| e l IH]; [reflexivity |].
  simpl. rewrite IH. destruct e. reflexivity.
Qed.

Lemma nonSequential_asParsed (l : list Event) :
  SecurityUtils.nonSequential (map FileHandler.asParsed l) = SecurityUtils.nonSequential l.
Proof.
  destruct l as [| a l]; [reflexivity |].
  revert a. induction l as [| b l IH]; intro a; [reflexivity |].
  specialize (IH b). simpl in *. rewrite IH. reflexivity.
Qed.

Lemma existsb_asParsed (p : Q -> bool) (l : list Event) :
  existsb (fun event : ParsedEvent => p (KeystrokeEvent.absoluteTime event))
          (map FileHandler.asParsed l)
  = existsb (fun event : Event => p (KeystrokeEvent.absoluteTime event)) l.
Proof.
  induction l as [| e l IH]; [reflexivity |]. simpl. rewrite IH. reflexivity.
Qed.

Lemma detect_asParsed (now : Z) (l : list Event) :
  SecurityUtils.detectTimestampManipulation now (map FileHandler.asParsed l)
  = SecurityUtils.detectTimestampManipulation now l.
Proof.
  unfold SecurityUtils.detectTimestampManipulation.
  rewrite length_map, nonSequential_asParsed.
  rewrite (existsb_asParsed (fun t => Qlt_bool (inject_Z (now + 60000)) t)). reflexivity.
Qed.

Lemma toParsed_events (m : Metadata) :
  BiometricMetadata.events (FileHandler.toParsed m)
  = Some (map FileHandler.asParsed (BiometricMetadata.events m)).
Proof.
  unfold FileHandler.toParsed. destruct (is_finite _); reflexivity.
Qed.

Lemma readText_value (s : string) : (if Text.is_empty s then EmptyString else s) = s.
Proof.
  destruct s; reflexivity.
Qed.

Lemma outcome_bind {A B : Type} (m : Eff.M A) (k : A -> Eff.M B) :
  Eff.outcome (Eff.bind m k)
  = match Eff.outcome m with inl e => inl e | inr a => Eff.outcome (k a) end.
Proof.
  destruct m as [tr [e | a]]; simpl; [reflexivity |]. destruct (k a); reflexivity.
Qed.

Lemma outcome_try_catch {A : Type} (m : Eff.M A) (c msg : string) :
  Eff.outcome (Eff.try_catch m c msg)
  = match Eff.outcome m with inl _ => inl msg | inr a => inr a end.
Proof.
  destruct m as [tr [e | a]]; reflexivity.
Qed.

Ltac simp_outcome :=
  cbn [Eff.outcome Eff.log Eff.ret Eff.throw snd File.container File.size
       Archive.content_txt Archive.metadata_json Archive.manifest_json].

Ltac step_outcome := first [progress simp_outcome | rewrite outcome_bind].

Lemma isReplayAttack_sessionStart {A B : Type} (now maxAge : Z)
    (m : BiometricMetadata.t A) (m' : BiometricMetadata.t B) :
  BiometricMetadata.sessionStart m = BiometricMetadata.sessionStart m' ->
  SecurityUtils.isReplayAttack now m maxAge = SecurityUtils.isReplayAttack now m' maxAge.
Proof.
  intro H. unfold SecurityUtils.isReplayAttack. rewrite H. reflexivity.
Qed.

(** ** The verdict of an analysis *)



(** ** A clean log, packaged and analysed *)

(** C1, at a failing input.  The text [hi], typed as [h], [i] and packaged at
    [Samples.signedAt], is analysed unmodified, a minute later and at the
    very instant of the packaging.  Both analyses succeed, recover the text
    and the log, find the content hash right and detect no tampering; both
    results are not valid and have the verdict [INVALID].  The stored
    signature is the one of the metadata read back under the session key at
    the instant of the packaging; the verifier makes the expected signature
    with its built-in key (refused even at that instant) and at its own clock
    (refused a minute later even with the session key).  The text [a'], typed
    as [a], ['], is moreover reported as tampered: its keys are compared with
    the sanitized text. *)
Theorem packaged_clean_log_not_valid :
  let later := Samples.analysisOf Samples.plain_file in
  let at_once := Samples.analysisAt Samples.signedAt Samples.plain_file in
  let metadata := AnalysisEngine.FileAnalysisResult.metadata later in
  let manifest := AnalysisEngine.FileAnalysisResult.manifest later in
  let signature := AnalysisEngine.string_of (HumanSignManifest.signature manifest) in
  let quoted := Samples.analysisOf Samples.quoted_file in
  (Eff.succeeded (AnalysisEngine.analyzeHumanSignFile Samples.verifiedAt Samples.plain_file)
   = true
   /\ Eff.succeeded (AnalysisEngine.analyzeHumanSignFile Samples.signedAt Samples.plain_file)
      = true)
  /\ (AnalysisEngine.FileAnalysisResult.content later = "hi"%string
      /\ BiometricMetadata.events metadata = Samples.plain_events
      /\ AnalysisEngine.FileAnalysisResult.isTampered later = false
      /\ HumanSignManifest.contentHash manifest
         = Some (CryptoUtils.createHash (BiometricMetadata.finalText metadata))
      /\ AnalysisEngine.FileAnalysisResult.isValid later = false
      /\ AnalysisEngine.FileAnalysisResult.verdict later = INVALID)
  /\ (AnalysisEngine.FileAnalysisResult.isTampered at_once = false
      /\ AnalysisEngine.FileAnalysisResult.isValid at_once = false
      /\ AnalysisEngine.FileAnalysisResult.verdict at_once = INVALID)
  /\ (CryptoUtils.verifySignature Samples.signedAt metadata signature Samples.secretKey = true
      /\ CryptoUtils.verifySignature Samples.signedAt metadata signature
           AnalysisEngine.simulatedKey = false
      /\ CryptoUtils.verifySignature Samples.verifiedAt metadata signature Samples.secretKey
         = false)
  /\ (AnalysisEngine.reconstructContentFromEvents Samples.quoted_events = "a'"%string
      /\ AnalysisEngine.FileAnalysisResult.content quoted = "a&#x27;"%string
      /\ AnalysisEngine.FileAnalysisResult.isTampered quoted = true).
Proof.
  cbv zeta.
  split; [split; vm_compute; reflexivity |].
  split; [repeat (split; [vm_compute; reflexivity |]); vm_compute; reflexivity |].
  split; [repeat (split; [vm_compute; reflexivity |]); vm_compute; reflexivity |].
  split; [repeat (split; [vm_compute; reflexivity |]); vm_compute; reflexivity |].
  repeat (split; [vm_compute; reflexivity |]); vm_compute; reflexivity.
Qed.


(** ** Further properties of the reader and of the scorers *)

Lemma nonSequential_iff {D : Type} (events : list (KeystrokeEvent.t D)) :
  SecurityUtils.nonSequential events = true <-> Spec.decreasingPair events.
Proof.
  unfold Spec.decreasingPair.
  destruct events as [| a l]; [split; [discriminate | intros [[| i] [x [y [H _]]]]; discriminate] |].
  revert a. induction l as [| b l IH]; intro a.
  - split; [discriminate |].
    intros [[| i] [x [y [_ [H _]]]]]; [discriminate | destruct i; discriminate].
  - cbn [SecurityUtils.nonSequential].
    destruct (Qlt_bool (KeystrokeEvent.timestamp b) (KeystrokeEvent.timestamp a)) eqn:E.
    + split; [intros _ | reflexivity].
      exists 0%nat, a, b. apply Qlt_bool_iff in E. auto.
    + rewrite (IH b). split.
      * intros [i [x [y [H1 [H2 H3]]]]]. exists (S i), x, y. auto.
      * intros [[| i] [x [y [H1 [H2 H3]]]]].
        -- simpl in H1, H2. injection H1 as <-. injection H2 as <-.
           apply Qlt_bool_iff in H3. congruence.
        -- exists i, x, y. auto.
Qed.

Lemma future_iff {D : Type} (now : Z) (events : list (KeystrokeEvent.t D)) :
  existsb (fun event =>
             Qlt_bool (inject_Z (now + 60000)) (KeystrokeEvent.absoluteTime event)) events
  = true <-> Spec.futureEvent now events.
Proof.
  unfold Spec.futureEvent. rewrite existsb_exists.
  split; intros [e [H1 H2]]; exists e; (split; [exact H1 |]); apply Qlt_bool_iff; exact H2.
Qed.

Lemma read_rejected_by_checks (now : Z) (file : File.t) (archive : Archive.t)
    (md : ParsedMetadata) (evs : list ParsedEvent) :
  File.container file = Some archive ->
  Archive.metadata_json archive = Parses md ->
  BiometricMetadata.events md = Some evs ->
  SecurityUtils.validateEventStructure evs = false
  \/ SecurityUtils.detectTimestampManipulation now evs = true ->
  Eff.outcome (FileHandler.readHumanSignFile now file)
  = inl "Invalid or malicious HumanSign file"%string.
Proof.
  intros Hc Hm He Hchk.
  destruct file as [sz c]. simpl in Hc. subst c.
  destruct archive as [txt mj nj pf]. simpl in Hm. subst mj.
  unfold FileHandler.readHumanSignFile. rewrite outcome_try_catch.
  unfold FileHandler.readBody, FileHandler.readText, FileHandler.readJSONText,
    FileHandler.parseJSON.
  repeat step_outcome.
  destruct (sz >? FileHandler.sizeLimit); [reflexivity |].
  repeat step_outcome.
  destruct txt as [t |]; repeat step_outcome;
    destruct nj as [| | | m]; repeat step_outcome; try reflexivity;
    rewrite He; repeat step_outcome;
    (destruct Hchk as [Hv | Hd];
     [rewrite Hv; reflexivity
     | destruct (SecurityUtils.validateEventStructure evs); [| reflexivity];
       cbn [negb]; repeat step_outcome; rewrite Hd; reflexivity]).
Qed.

(** X3.  For a log of two events or more, both checks are made: an archive
    with a decreasing time stamp or with an event more than 60 seconds in the
    future is rejected by the reader, and its analysis fails. *)
Theorem long_log_checked (now : Z) (file : File.t) (archive : Archive.t)
    (md : ParsedMetadata) (evs : list ParsedEvent) :
  File.container file = Some archive ->
  Archive.metadata_json archive = Parses md ->
  BiometricMetadata.events md = Some evs ->
  (2 <= List.length evs)%nat ->
  Spec.decreasingPair evs \/ Spec.futureEvent now evs ->
  Eff.outcome (FileHandler.readHumanSignFile now file)
  = inl "Invalid or malicious HumanSign file"%string
  /\ Eff.outcome (AnalysisEngine.analyzeHumanSignFile now file)
     = inl "Failed to analyze file"%string.
Proof.
  intros Hc Hm He Hlen Hbad.
  assert (Hd : SecurityUtils.detectTimestampManipulation now evs = true).
  { rewrite (detect_long now evs Hlen). apply orb_true_iff.
    destruct Hbad as [H | H]; [left; apply nonSequential_iff | right; apply future_iff];
      exact H. }
  pose proof (read_rejected_by_checks now file archive md evs Hc Hm He (or_intror Hd)) as Hr.
  split; [exact Hr |].
  unfold AnalysisEngine.analyzeHumanSignFile.
  rewrite outcome_try_catch, outcome_bind, Hr. reflexivity.
Qed.

Lemma long_log_checked_witness :
  Spec.decreasingPair Samples.swapped_events
  /\ Eff.outcome (AnalysisEngine.analyzeHumanSignFile Samples.verifiedAt Samples.swapped_file)
     = inl "Failed to analyze file"%string.
Proof.
  assert (H : Spec.decreasingPair Samples.swapped_events).
  { eexists 0%nat, _, _. split; [reflexivity |]. split; [reflexivity |]. reflexivity. }
  split; [exact H |].
  apply (long_log_checked Samples.verifiedAt Samples.swapped_file Samples.swapped_archive
           Samples.swapped_metadata Samples.swapped_events eq_refl eq_refl eq_refl
           (Nat.le_refl 2) (or_introl H)).
Defined.

Lemma oversized_rejected_after_load_witness :
  File.size Samples.oversized_file > FileHandler.sizeLimit
  /\ existsb Spec.memberStep
       (Eff.trace (FileHandler.readHumanSignFile Samples.verifiedAt Samples.oversized_file))
     = false.
Proof.
  assert (H : File.size Samples.oversized_file > FileHandler.sizeLimit) by reflexivity.
  split; [exact H |].
  apply (oversized_rejected_after_load Samples.verifiedAt Samples.oversized_file H).
Defined.

Lemma calculateHumanConfidence_spec_witness :
  0 <= 1 /\ 0 <= 40
  /\ Capture.calculateHumanConfidence 4 1 (Fin 35) 3 40
     = Spec.humanConfidence 1 4 40 (Fin 35) 3.
Proof.
  assert (H1 : 0 <= 1) by lia. assert (H2 : 0 <= 40) by lia.
  split; [exact H1 |]. split; [exact H2 |].
  apply (calculateHumanConfidence_spec 4 1 (Fin 35) 3 40 H1 H2).
Defined.

(** X5.  The feature object has no [consistency] property (the rhythm
    consistency is stored as [rhythmConsistency]): the consistency rule adds
    no point and its red flag is never emitted. *)
Theorem consistency_never_read (metadata : Metadata) :
  AIDetector.get (AIDetector.extractFeatures metadata) "consistency" = None
  /\ AIDetector.ruleConsistency (AIDetector.extractFeatures metadata) = 0
  /\ ~ In "Extremely consistent typing rhythm detected"%string
         (AIDetector.AIAnalysis.redFlags (AIDetector.analyzeForAI metadata)).
Proof.
  split; [apply get_consistency |].
  split; [unfold AIDetector.ruleConsistency; rewrite get_consistency; reflexivity |].
  rewrite redFlags_in. cbv zeta. rewrite get_consistency.
  intros [[H _] | [[_ H] | [[_ H] | [[_ H] | [_ H]]]]]; discriminate H.
Qed.

(** X6.  [calculateTextComplexity] guards the empty text only: a text of
    white space divides 0 by 0, a text of full stops divides by 0 sentences. *)
Theorem textComplexity_unguarded :
  AIDetector.calculateTextComplexity EmptyString = Fin 0
  /\ AIDetector.calculateTextComplexity " " = NaN
  /\ AIDetector.calculateTextComplexity "..." = PInf
  /\ AIDetector.get (AIDetector.extractFeatures (Samples.metadataOf [] " ")) "textComplexity"
     = Some (AIDetector.VNum NaN).
Proof.
  repeat split.
Qed.

(* ================================================================== *)
(** * Further properties of the code *)
(* ================================================================== *)

(** ** [SecurityUtils.sanitizeContent] *)

Lemma occurs_app (d : ascii) (a b : string) :
  Spec.occurs d (a ++ b) = Spec.occurs d a || Spec.occurs d b.
Proof.
  induction a as [| x a IH]; [reflexivity |].
  simpl. rewrite IH. apply orb_assoc.
Qed.

Lemma replaceAll_removes (c : ascii) (by_ s : string) :
  Spec.occurs c by_ = false -> Spec.occurs c (SecurityUtils.replaceAll c by_ s) = false.
Proof.
  intro Hb. induction s as [| x s IH]; [reflexivity |].
  simpl. destruct (Ascii.eqb x c) eqn:E.
  - rewrite occurs_app, Hb, IH. reflexivity.
  - simpl. rewrite E, IH. reflexivity.
Qed.

Lemma replaceAll_keeps_absent (c d : ascii) (by_ s : string) :
  Spec.occurs d by_ = false -> Spec.occurs d s = false ->
  Spec.occurs d (SecurityUtils.replaceAll c by_ s) = false.
Proof.
  intro Hb. induction s as [| x s IH]; [reflexivity |].
  simpl. intro H. apply orb_false_iff in H. destruct H as [Hx Hs].
  destruct (Ascii.eqb x c).
  - rewrite occurs_app, Hb, (IH Hs). reflexivity.
  - simpl. rewrite Hx, (IH Hs). reflexivity.
Qed.

Lemma replaceAll_absent (c : ascii) (by_ s : string) :
  Spec.occurs c s = false -> SecurityUtils.replaceAll c by_ s = s.
Proof.
  induction s as [| x s IH]; [reflexivity |].
  simpl. intro H. apply orb_false_iff in H. destruct H as [Hx Hs].
  rewrite Hx, (IH Hs). reflexivity.
Qed.

Lemma sanitize_no_markup (content : string) (d : ascii) :
  In d Spec.markup -> Spec.occurs d (SecurityUtils.sanitizeContent content) = false.
Proof.
  unfold SecurityUtils.sanitizeContent, Spec.markup.
  intros [<- | [<- | [<- | [<- | [<- | []]]]]].
  - do 4 (apply replaceAll_keeps_absent; [reflexivity |]).
    apply replaceAll_removes. reflexivity.
  - do 3 (apply replaceAll_keeps_absent; [reflexivity |]).
    apply replaceAll_removes. reflexivity.
  - do 2 (apply replaceAll_keeps_absent; [reflexivity |]).
    apply replaceAll_removes. reflexivity.
  - apply replaceAll_keeps_absent; [reflexivity |].
    apply replaceAll_removes. reflexivity.
  - apply replaceAll_removes. reflexivity.
Qed.

(** X7.  The sanitized text holds none of the five characters [<], [>], the
    double quote, the single quote and [/]; a text that holds none of them is
    returned as it is; so sanitizing twice is sanitizing once. *)
Theorem sanitizeContent_clean (content : string) :
  (forall d, In d Spec.markup ->
     Spec.occurs d (SecurityUtils.sanitizeContent content) = false)
  /\ ((forall d, In d Spec.markup -> Spec.occurs d content = false) ->
      SecurityUtils.sanitizeContent content = content)
  /\ SecurityUtils.sanitizeContent (SecurityUtils.sanitizeContent content)
     = SecurityUtils.sanitizeContent content.
Proof.
  assert (Id : forall c, (forall d, In d Spec.markup -> Spec.occurs d c = false) ->
                         SecurityUtils.sanitizeContent c = c).
  { intros c H. unfold SecurityUtils.sanitizeContent.
    rewrite (replaceAll_absent "<") by (apply H; simpl; auto).
    rewrite (replaceAll_absent ">") by (apply H; simpl; auto).
    rewrite (replaceAll_absent (Text.chr 34)) by (apply H; simpl; auto).
    rewrite (replaceAll_absent "'") by (apply H; simpl; auto).
    apply replaceAll_absent. apply H. simpl. auto 6. }
  split; [intros d; apply sanitize_no_markup |].
  split; [apply Id |].
  apply Id. intros d. apply sanitize_no_markup.
Qed.

(** ** [SecurityUtils.validateEventStructure] *)

(** [validateEventStructure] on a list whose time stamps are numbers: it is
    accepted exactly when none of its events has a falsy required field. *)
Lemma validateEventStructure_falsy (events : list ParsedEvent) :
  SecurityUtils.validateEventStructure events = true
  <-> (forall e, In e events -> ~ Spec.falsyField e).
Proof.
  unfold SecurityUtils.validateEventStructure. rewrite forallb_forall.
  split; intros H e Hin.
  - intro Hf. specialize (H e Hin). rewrite (falsyField_invalid e Hf) in H. discriminate H.
  - destruct (SecurityUtils.validEvent e) eqn:E; [reflexivity |].
    exfalso. apply (H e Hin). apply validEvent_falsyField. exact E.
Qed.

(** X8.  The log of a packaged archive.  The events of a metadata are
    records whose two time stamps are numbers, and the packager writes them
    with their payload; [validateEventStructure] accepts the log read back
    exactly when every event has a non-empty [id], [type] and [sessionId] and
    a [timestamp] and an [absoluteTime] other than 0.  The empty log is
    accepted. *)
Theorem validateEventStructure_iff (events : list Event) :
  SecurityUtils.validateEventStructure (map FileHandler.asParsed events) = true
  <-> (forall e, In e events ->
         KeystrokeEvent.id e <> EmptyString
         /\ ~ (KeystrokeEvent.timestamp e == 0)%Q
         /\ ~ (KeystrokeEvent.absoluteTime e == 0)%Q
         /\ KeystrokeEvent.type e <> EmptyString
         /\ KeystrokeEvent.sessionId e <> EmptyString).
Proof.
  rewrite validateEventStructure_falsy. split.
  - intros H e Hin.
    assert (N := H (FileHandler.asParsed e) (in_map _ _ _ Hin)).
    unfold Spec.falsyField in N. cbn in N. tauto.
  - intros H p Hp. apply in_map_iff in Hp. destruct Hp as [e [<- Hin]].
    specialize (H e Hin). unfold Spec.falsyField. cbn.
    intros [F | [F | [F | [F | [F | F]]]]]; try tauto. discriminate F.
Qed.

(** ** [FileHandler.readHumanSignFile] *)


Lemma read_outcome (now : Z) (file : File.t) :
  Eff.outcome (FileHandler.readHumanSignFile now file)
  = match File.container file with
    | None => Spec.rejected
    | Some archive =>
        if File.size file >? FileHandler.sizeLimit then Spec.rejected
        else
          match Archive.metadata_json archive, Archive.manifest_json archive with
          | Parses md, (Missing | Blank | Parses _) =>
              match BiometricMetadata.events md with
              | None => Spec.rejected
              | Some evs =>
                  if negb (SecurityUtils.validateEventStructure evs) then Spec.rejected
                  else if SecurityUtils.detectTimestampManipulation now evs then Spec.rejected
                  else if SecurityUtils.isReplayAttack now md SecurityUtils.maxAge_default
                       then Spec.rejected
                  else inr (FileHandler.mkRead
                              (SecurityUtils.sanitizeContent (Spec.contentOf archive))
                              (BiometricMetadata.with_events md (map FileHandler.validated evs))
                              (Spec.manifestOf archive))
              end
          | _, _ => Spec.rejected
          end
    end.
Proof.
  destruct file as [sz [[txt mj nj pf] |]];
    unfold FileHandler.readHumanSignFile; rewrite outcome_try_catch;
    unfold FileHandler.readBody, FileHandler.readText, FileHandler.readJSONText,
      FileHandler.parseJSON, Spec.rejected, Spec.contentOf, Spec.manifestOf;
    repeat step_outcome; [| reflexivity].
  destruct (sz >? FileHandler.sizeLimit); repeat step_outcome; [reflexivity |].
  destruct txt as [t |]; repeat step_outcome;
    destruct mj as [| | | md]; repeat step_outcome;
    destruct nj as [| | | mf]; repeat step_outcome; try reflexivity;
    destruct (BiometricMetadata.events md) as [evs |]; repeat step_outcome; try reflexivity;
    destruct (SecurityUtils.validateEventStructure evs); cbn [negb];
      repeat step_outcome; try reflexivity;
    destruct (SecurityUtils.detectTimestampManipulation now evs);
      repeat step_outcome; try reflexivity;
    destruct (SecurityUtils.isReplayAttack now md SecurityUtils.maxAge_default);
      repeat step_outcome; try reflexivity;
    rewrite ?readText_value; reflexivity.
Qed.

Lemma analyze_outcome (now : Z) (file : File.t) :
  Eff.outcome (AnalysisEngine.analyzeHumanSignFile now file)
  = match Eff.outcome (FileHandler.readHumanSignFile now file) with
    | inl _ => inl "Failed to analyze file"%string
    | inr rr => inr (AnalysisEngine.analyzeRead now rr)
    end.
Proof.
  unfold AnalysisEngine.analyzeHumanSignFile.
  rewrite outcome_try_catch, outcome_bind.
  destruct (Eff.outcome (FileHandler.readHumanSignFile now file)); reflexivity.
Qed.

(** What a successful read tells: the file is a container within the size
    limit, its [metadata.json] parses and lists events that pass the three
    checks, and the result is made of the sanitized text, the parsed metadata
    and the parsed manifest. *)
Lemma read_inv (now : Z) (file : File.t) (r : FileHandler.ReadResult) :
  Eff.outcome (FileHandler.readHumanSignFile now file) = inr r ->
  exists archive md evs,
    File.container file = Some archive
    /\ File.size file <= FileHandler.sizeLimit
    /\ Archive.metadata_json archive = Parses md
    /\ Archive.manifest_json archive <> Unparsable
    /\ BiometricMetadata.events md = Some evs
    /\ SecurityUtils.validateEventStructure evs = true
    /\ SecurityUtils.detectTimestampManipulation now evs = false
    /\ SecurityUtils.isReplayAttack now md SecurityUtils.maxAge_default = false
    /\ r = FileHandler.mkRead
             (SecurityUtils.sanitizeContent (Spec.contentOf archive))
             (BiometricMetadata.with_events md (map FileHandler.validated evs))
             (Spec.manifestOf archive).
Proof.
  rewrite read_outcome. unfold Spec.rejected.
  destruct (File.container file) as [archive |]; [| discriminate].
  destruct (File.size file >? FileHandler.sizeLimit) eqn:Es; [discriminate |].
  destruct (Archive.metadata_json archive) as [| | | md] eqn:Em; try discriminate.
  destruct (Archive.manifest_json archive) as [| | | mf] eqn:En; try discriminate;
    (destruct (BiometricMetadata.events md) as [evs |] eqn:Ee; [| discriminate];
     destruct (SecurityUtils.validateEventStructure evs) eqn:Ev; [| discriminate];
     destruct (SecurityUtils.detectTimestampManipulation now evs) eqn:Ed; [discriminate |];
     destruct (SecurityUtils.isReplayAttack now md SecurityUtils.maxAge_default) eqn:Er;
       [discriminate |];
     cbn [negb]; intro H; injection H as <-;
     exists archive, md, evs;
     rewrite Z.gtb_ltb in Es; apply Z.ltb_ge in Es;
     repeat (split; [first [reflexivity | assumption | congruence] |]);
     reflexivity).
Qed.

(** The same for an analysis. *)
Lemma analysis_inv (now : Z) (file : File.t) (r : AnalysisEngine.FileAnalysisResult.t) :
  Eff.outcome (AnalysisEngine.analyzeHumanSignFile now file) = inr r ->
  exists archive md evs,
    File.container file = Some archive
    /\ File.size file <= FileHandler.sizeLimit
    /\ Archive.metadata_json archive = Parses md
    /\ Archive.manifest_json archive <> Unparsable
    /\ BiometricMetadata.events md = Some evs
    /\ SecurityUtils.validateEventStructure evs = true
    /\ SecurityUtils.detectTimestampManipulation now evs = false
    /\ SecurityUtils.isReplayAttack now md SecurityUtils.maxAge_default = false
    /\ r = AnalysisEngine.analyzeRead now
             (FileHandler.mkRead
                (SecurityUtils.sanitizeContent (Spec.contentOf archive))
                (BiometricMetadata.with_events md (map FileHandler.validated evs))
                (Spec.manifestOf archive)).
Proof.
  rewrite analyze_outcome.
  destruct (Eff.outcome (FileHandler.readHumanSignFile now file)) as [e | rr] eqn:E;
    [discriminate |].
  intros H. injection H as <-.
  destruct (read_inv now file rr E)
    as [archive [md [evs [Hc [Hs [Hm [Hn [He [Hv [Hd [Hr ->]]]]]]]]]]].
  exists archive, md, evs. repeat (split; [assumption |]). reflexivity.
Qed.

(** X9.  [readHumanSignFile] returns a result exactly when the container
    loads, the file is at most 10 MiB, [metadata.json] parses to an object
    with an [events] list that passes the three checks, and [manifest.json]
    is not malformed; the result is then the sanitized text, the parsed
    metadata and the manifest (or the empty object). *)
Theorem read_succeeds_iff (now : Z) (file : File.t) (r : FileHandler.ReadResult) :
  Eff.outcome (FileHandler.readHumanSignFile now file) = inr r
  <-> exists archive md evs,
        File.container file = Some archive
        /\ File.size file <= FileHandler.sizeLimit
        /\ Archive.metadata_json archive = Parses md
        /\ Archive.manifest_json archive <> Unparsable
        /\ BiometricMetadata.events md = Some evs
        /\ SecurityUtils.validateEventStructure evs = true
        /\ SecurityUtils.detectTimestampManipulation now evs = false
        /\ SecurityUtils.isReplayAttack now md SecurityUtils.maxAge_default = false
        /\ r = FileHandler.mkRead
                 (SecurityUtils.sanitizeContent (Spec.contentOf archive))
                 (BiometricMetadata.with_events md (map FileHandler.validated evs))
                 (Spec.manifestOf archive).
Proof.
  split; [apply read_inv |].
  intros [archive [md [evs [Hc [Hs [Hm [Hn [He [Hv [Hd [Hr ->]]]]]]]]]]].
  rewrite read_outcome, Hc, Hm, He, Hv, Hd, Hr.
  assert (Es : (File.size file >? FileHandler.sizeLimit) = false)
    by (rewrite Z.gtb_ltb; apply Z.ltb_ge; exact Hs).
  rewrite Es. destruct (Archive.manifest_json archive); try reflexivity.
  exfalso. apply Hn. reflexivity.
Qed.

(** ** [AIDetector.predictAIProbability] and [analyzeForAI] *)

(** X10.  For every metadata the AI score is a multiple of 5 between 0 and
    75 (the consistency rule never adds its 25 points), the human probability
    is between 25 and 100, and the confidence is between 0 and 100. *)
Theorem aiProbability_bounds (metadata : Metadata) :
  let r := AIDetector.analyzeForAI metadata in
  0 <= AIDetector.AIAnalysis.aiProbability r <= 75
  /\ AIDetector.AIAnalysis.aiProbability r mod 5 = 0
  /\ 25 <= AIDetector.AIAnalysis.humanProbability r <= 100
  /\ 0 <= AIDetector.AIAnalysis.confidence r <= 100.
Proof.
  unfold AIDetector.analyzeForAI.
  cbn [AIDetector.AIAnalysis.aiProbability AIDetector.AIAnalysis.humanProbability
       AIDetector.AIAnalysis.confidence].
  set (f := AIDetector.extractFeatures metadata).
  unfold AIDetector.predictAIProbability.
  assert (E : AIDetector.ruleConsistency f = 0)
    by (unfold AIDetector.ruleConsistency, f; rewrite get_consistency; reflexivity).
  rewrite E.
  unfold AIDetector.ruleBurst, AIDetector.ruleBackspace, AIDetector.rulePaste,
    AIDetector.ruleDensity, AIDetector.rulePauses.
  destruct (AIDetector.gt_const (AIDetector.get f "burstPattern") (1 # 10));
    destruct (AIDetector.lt_const (AIDetector.get f "backspaceRatio") (2 # 100));
    destruct (AIDetector.gt_const (AIDetector.get f "pasteRatio") (1 # 10));
    destruct (AIDetector.gt_const (AIDetector.get f "eventDensity") 2);
    destruct (AIDetector.lt_const (AIDetector.get f "thinkingPauses") 2 && _);
    vm_compute; repeat split; discriminate.
Qed.

(** ** [CryptoUtils] and [generateSecretKey] *)

Lemma length_app_string (a b : string) :
  String.length (a ++ b) = (String.length a + String.length b)%nat.
Proof. induction a as [| c a IH]; simpl; [reflexivity | now rewrite IH]. Qed.

Lemma every_app (p : ascii -> bool) (a b : string) :
  Spec.every p (a ++ b) = Spec.every p a && Spec.every p b.
Proof.
  induction a as [| c a IH]; simpl; [reflexivity |].
  now rewrite IH, andb_assoc.
Qed.

Lemma hex2_format (b : Z) :
  0 <= b < 256 ->
  String.length (Text.hex2 b) = 2%nat /\ Spec.every Spec.isHexDigit (Text.hex2 b) = true.
Proof.
  intros Hb.
  assert (G : forallb (fun n => (String.length (Text.hex2 (Z.of_nat n)) =? 2)%nat
                                && Spec.every Spec.isHexDigit (Text.hex2 (Z.of_nat n)))
                      (seq 0 256) = true) by (vm_compute; reflexivity).
  rewrite forallb_forall in G.
  specialize (G (Z.to_nat b)).
  rewrite Z2Nat.id in G by lia.
  assert (I : In (Z.to_nat b) (seq 0 256)) by (apply in_seq; lia).
  apply G in I. apply andb_true_iff in I. destruct I as [L E].
  apply Nat.eqb_eq in L. now split.
Qed.

Lemma be_bytes_range (n : nat) (x b : Z) : In b (SHA256.be_bytes n x) -> 0 <= b < 256.
Proof.
  induction n as [| n IH]; simpl; [tauto |].
  intros [<- | H]; [| now apply IH].
  change 255 with (Z.ones 8). rewrite Z.land_ones by lia.
  apply Z.mod_pos_bound. lia.
Qed.

Lemma be_bytes_length (n : nat) (x : Z) : List.length (SHA256.be_bytes n x) = n.
Proof. induction n as [| n IH]; simpl; [reflexivity | now rewrite IH]. Qed.

Lemma bufferToHex_format (buffer : list Z) :
  (forall b, In b buffer -> 0 <= b < 256) ->
  String.length (CryptoUtils.bufferToHex buffer) = (2 * List.length buffer)%nat
  /\ Spec.every Spec.isHexDigit (CryptoUtils.bufferToHex buffer) = true.
Proof.
  unfold CryptoUtils.bufferToHex.
  induction buffer as [| b rest IH]; intros H; [split; reflexivity |].
  destruct (hex2_format b (H b (or_introl eq_refl))) as [L E].
  destruct IH as [L' E']; [intros x Hx; apply H; now right |].
  assert (C : String.concat EmptyString (map Text.hex2 (b :: rest))
              = (Text.hex2 b ++ String.concat EmptyString (map Text.hex2 rest))%string).
  { simpl. destruct (map Text.hex2 rest) eqn:M; simpl.
    - clear. induction (Text.hex2 b) as [| c s IH]; simpl; [reflexivity | now rewrite <- IH].
    - reflexivity. }
  rewrite C, length_app_string, every_app, L, E, L', E'.
  split; [simpl; lia | reflexivity].
Qed.

Lemma digest_range (msg : list Z) (b : Z) : In b (SHA256.digest msg) -> 0 <= b < 256.
Proof.
  unfold SHA256.digest. intros H. apply in_flat_map in H.
  destruct H as (x & _ & H). now apply be_bytes_range in H.
Qed.

Lemma digest_length (msg : list Z) : List.length (SHA256.digest msg) = 32%nat.
Proof.
  unfold SHA256.digest. cbn [flat_map].
  repeat rewrite length_app. repeat rewrite be_bytes_length. reflexivity.
Qed.

(** X11.  [createHash] returns 64 lowercase hexadecimal digits for every
    text; in particular a hash is never the empty string. *)
Theorem createHash_format (content : string) :
  String.length (CryptoUtils.createHash content) = 64%nat
  /\ Spec.every Spec.isHexDigit (CryptoUtils.createHash content) = true
  /\ Text.is_empty (CryptoUtils.createHash content) = false.
Proof.
  unfold CryptoUtils.createHash.
  destruct (bufferToHex_format (SHA256.digest (Text.utf8 content))) as [L E].
  { intros b. apply digest_range. }
  rewrite digest_length in L. split; [exact L | split; [exact E |]].
  destruct (CryptoUtils.bufferToHex _); [discriminate L | reflexivity].
Qed.

Lemma createHash_truthy (content : string) :
  Text.is_empty (CryptoUtils.createHash content) = false.
Proof.
  unfold CryptoUtils.createHash.
  destruct (bufferToHex_format (SHA256.digest (Text.utf8 content))) as [L _].
  { intros b. apply digest_range. }
  rewrite digest_length in L.
  destruct (CryptoUtils.bufferToHex _); [discriminate L | reflexivity].
Qed.

(** X12.  The integrity check accepts exactly the manifests whose content
    hash is the hash of [metadata.finalText] and whose signature is the one
    [createSignature] makes, at the clock of the verification, with the
    built-in demonstration key.  The check reads the session id, the content
    hash, the number of events and the length of the final text only: two
    metadata that agree on these and on the final text are accepted or
    refused together, whatever their events hold. *)
Theorem verifyCryptographicIntegrity_iff (now : Z) (metadata : Metadata)
    (manifest : HumanSignManifest.t) :
  (AnalysisEngine.verifyCryptographicIntegrity now metadata manifest = true
   <-> HumanSignManifest.contentHash manifest
       = Some (CryptoUtils.createHash (BiometricMetadata.finalText metadata))
       /\ HumanSignManifest.signature manifest
          = Some (CryptoUtils.createSignature now metadata AnalysisEngine.simulatedKey))
  /\ (forall metadata' : Metadata,
        BiometricMetadata.sessionId metadata' = BiometricMetadata.sessionId metadata ->
        BiometricMetadata.contentHash metadata' = BiometricMetadata.contentHash metadata ->
        BiometricMetadata.finalText metadata' = BiometricMetadata.finalText metadata ->
        List.length (BiometricMetadata.events metadata')
        = List.length (BiometricMetadata.events metadata) ->
        AnalysisEngine.verifyCryptographicIntegrity now metadata' manifest
        = AnalysisEngine.verifyCryptographicIntegrity now metadata manifest).
Proof.
  split.
  - unfold AnalysisEngine.verifyCryptographicIntegrity, CryptoUtils.verifySignature.
    destruct (HumanSignManifest.signature manifest) as [s |],
             (HumanSignManifest.contentHash manifest) as [h |];
      cbn [AnalysisEngine.truthy AnalysisEngine.string_of negb orb].
    + split.
      * intros H.
        destruct (negb (negb (Text.is_empty s)) || negb (negb (Text.is_empty h)));
          [discriminate |].
        destruct (String.eqb _ h) eqn:E; [| discriminate].
        cbn [negb] in H. apply String.eqb_eq in E. apply String.eqb_eq in H.
        now subst.
      * intros [Hh Hs]. injection Hh as ->. injection Hs as ->.
        unfold CryptoUtils.createSignature at 1.
        rewrite !createHash_truthy. cbn [negb orb].
        rewrite !String.eqb_refl. reflexivity.
    + rewrite orb_true_r. split; [discriminate | intros [H _]; discriminate].
    + split; [discriminate | intros [_ H]; discriminate].
    + split; [discriminate | intros [_ H]; discriminate].
  - intros metadata' Hs Hc Hf Hl.
    destruct metadata', metadata.
    cbn [BiometricMetadata.sessionId BiometricMetadata.contentHash
         BiometricMetadata.finalText BiometricMetadata.events] in Hs, Hc, Hf, Hl. subst.
    unfold AnalysisEngine.verifyCryptographicIntegrity, CryptoUtils.verifySignature,
      CryptoUtils.createSignature, CryptoUtils.signatureString.
    cbn [BiometricMetadata.sessionId BiometricMetadata.contentHash
         BiometricMetadata.finalText BiometricMetadata.events].
    unfold Event in *. now rewrite Hl.
Qed.

Lemma substring_length_le (n : nat) (s : string) :
  (String.length (String.substring 0 n s) <= n)%nat.
Proof.
  revert s. induction n as [| n IH]; intros [| c s]; simpl; try lia.
  specialize (IH s). lia.
Qed.

(** X13.  Whatever the clock and the random identifier, the session key
    starts with [hs_], has at most 32 characters, and is not the key the
    verifier uses: a signature is never made with the key it is checked
    with. *)
Theorem generateSecretKey_shape (now : Z) (uuid : string) :
  Text.slice0 3 (FileHandler.generateSecretKey now uuid) = "hs_"%string
  /\ (String.length (FileHandler.generateSecretKey now uuid) <= 32)%nat
  /\ FileHandler.generateSecretKey now uuid <> AnalysisEngine.simulatedKey.
Proof.
  unfold FileHandler.generateSecretKey, Text.slice0.
  split; [| split; [apply substring_length_le |]].
  - cbn. now destruct (String.substring 0 29 _).
  - cbn. unfold AnalysisEngine.simulatedKey. discriminate.
Qed.
(** ** [AnalysisEngine.detectTampering] *)

Lemma append_nil_r (s : string) : (s ++ "")%string = s.
Proof. induction s as [| c s IH]; simpl; [reflexivity | now rewrite IH]. Qed.

Lemma append_assoc (a b c : string) : ((a ++ b) ++ c)%string = (a ++ (b ++ c))%string.
Proof. induction a as [| x a IH]; simpl; [reflexivity | now rewrite IH]. Qed.

Lemma reconstruct_from (l : list Event) (acc : string) :
  fold_left (fun reconstructed event =>
               (reconstructed
                ++ AnalysisEngine.string_of (EventData.key (KeystrokeEvent.data event)))%string)
            l acc
  = (acc ++ fold_left (fun reconstructed event =>
               (reconstructed
                ++ AnalysisEngine.string_of (EventData.key (KeystrokeEvent.data event)))%string)
            l EmptyString)%string.
Proof.
  revert acc. induction l as [| e l IH]; intros acc; simpl.
  - now rewrite append_nil_r.
  - rewrite IH. rewrite (IH (AnalysisEngine.string_of _)). now rewrite append_assoc.
Qed.

Lemma reconstruct_cons (e : Event) (l : list Event) :
  AnalysisEngine.reconstructContentFromEvents (e :: l)
  = ((if FileHandler.has_type "keydown" e && AnalysisEngine.singleKey e
      then AnalysisEngine.string_of (EventData.key (KeystrokeEvent.data e))
      else EmptyString)
     ++ AnalysisEngine.reconstructContentFromEvents l)%string.
Proof.
  unfold AnalysisEngine.reconstructContentFromEvents. cbn [filter].
  destruct (FileHandler.has_type "keydown" e && AnalysisEngine.singleKey e);
    [| reflexivity].
  cbn [fold_left]. now rewrite reconstruct_from.
Qed.

Lemma reconstruct_app (a b : list Event) :
  AnalysisEngine.reconstructContentFromEvents (a ++ b)
  = (AnalysisEngine.reconstructContentFromEvents a
     ++ AnalysisEngine.reconstructContentFromEvents b)%string.
Proof.
  induction a as [| e a IH]; [reflexivity |].
  rewrite <- app_comm_cons, !reconstruct_cons, IH. now rewrite append_assoc.
Qed.

Lemma reconstruct_occurs (events : list Event) (e : Event) (d : ascii) :
  In e events ->
  KeystrokeEvent.type e = EVENT_TYPES.KEY_DOWN ->
  EventData.key (KeystrokeEvent.data e) = Some (String d EmptyString) ->
  Spec.occurs d (AnalysisEngine.reconstructContentFromEvents events) = true.
Proof.
  intros Hin Ht Hk. induction events as [| x l IH]; [destruct Hin |].
  rewrite reconstruct_cons, occurs_app.
  destruct Hin as [-> | Hin].
  - unfold FileHandler.has_type, AnalysisEngine.singleKey. rewrite Ht, Hk.
    cbn. now rewrite Ascii.eqb_refl.
  - rewrite (IH Hin). apply orb_true_r.
Qed.

Lemma occurs_differ (d : ascii) (a b : string) :
  Spec.occurs d a = true -> Spec.occurs d b = false -> String.eqb a b = false.
Proof.
  intros Ha Hb. apply String.eqb_neq. intros ->. congruence.
Qed.

Lemma detectTampering_cases (m : Metadata) (mf : HumanSignManifest.t) (content : string) :
  let events := BiometricMetadata.events m in
  AnalysisEngine.detectTampering m mf content
  = (List.length events =? 0)%nat
    || (Qlt_bool (AnalysisEngine.sessionDuration events) 1000 && (50 <? List.length events)%nat)
    || fst (AnalysisEngine.analyzeEventGaps events)
    || negb (String.eqb (AnalysisEngine.reconstructContentFromEvents events) content)
    || AnalysisEngine.checkDuplicateTimestamps events
    || fst (AnalysisEngine.analyzeTimingPatterns events)
    || negb (AnalysisEngine.verifyEventSequence events).
Proof.
  unfold AnalysisEngine.detectTampering, AnalysisEngine.tamperWarnings.
  cbv zeta.
  destruct (List.length (BiometricMetadata.events m) =? 0)%nat;
    destruct (Qlt_bool _ 1000 && _);
    destruct (fst (AnalysisEngine.analyzeEventGaps _));
    destruct (negb (String.eqb _ content));
    destruct (AnalysisEngine.checkDuplicateTimestamps _);
    destruct (fst (AnalysisEngine.analyzeTimingPatterns _));
    destruct (negb (AnalysisEngine.verifyEventSequence _)); reflexivity.
Qed.

Lemma verifyEventSequence_nonSequential {D : Type} (events : list (KeystrokeEvent.t D)) :
  AnalysisEngine.verifyEventSequence events = negb (SecurityUtils.nonSequential events).
Proof.
  destruct events as [| a l]; [reflexivity |].
  revert a. induction l as [| b l IH]; intros a; [reflexivity |].
  specialize (IH b). simpl in *.
  destruct (Qlt_bool (KeystrokeEvent.timestamp b) (KeystrokeEvent.timestamp a));
    [reflexivity | exact IH].
Qed.

Lemma nonSequential_validated (l : list ParsedEvent) :
  SecurityUtils.nonSequential (map FileHandler.validated l) = SecurityUtils.nonSequential l.
Proof.
  destruct l as [| a l]; [reflexivity |].
  revert a. induction l as [| b l IH]; intros a; [reflexivity |].
  specialize (IH b). simpl in *. now rewrite IH.
Qed.

Lemma detect_sequential {D : Type} (now : Z) (events : list (KeystrokeEvent.t D)) :
  SecurityUtils.detectTimestampManipulation now events = false ->
  SecurityUtils.nonSequential events = false.
Proof.
  unfold SecurityUtils.detectTimestampManipulation.
  destruct events as [| a [| b l]]; [reflexivity | reflexivity |].
  cbn [List.length Nat.ltb Nat.leb].
  destruct (SecurityUtils.nonSequential (a :: b :: l)); [discriminate | reflexivity].
Qed.

(** X14.  The text that is compared with the keys of the log is the
    sanitized one.  So whenever an analysed log holds a key-down of one of
    the characters [<], [>], the double quote, ['] or [/], the content does
    not match the log: the document is reported as tampered, not valid, and
    its verdict is [INVALID], whatever was typed and whatever the manifest. *)
Theorem markup_key_reported_tampered (now : Z) (file : File.t)
    (r : AnalysisEngine.FileAnalysisResult.t) (e : Event) (d : ascii) :
  Eff.outcome (AnalysisEngine.analyzeHumanSignFile now file) = inr r ->
  In e (BiometricMetadata.events (AnalysisEngine.FileAnalysisResult.metadata r)) ->
  KeystrokeEvent.type e = EVENT_TYPES.KEY_DOWN ->
  EventData.key (KeystrokeEvent.data e) = Some (String d EmptyString) ->
  In d Spec.markup ->
  AnalysisEngine.FileAnalysisResult.isTampered r = true
  /\ AnalysisEngine.FileAnalysisResult.isValid r = false
  /\ AnalysisEngine.FileAnalysisResult.verdict r = INVALID.
Proof.
  intros H Hin Ht Hk Hd.
  destruct (analysis_inv now file r H) as [archive [md [evs [_ [_ [_ [_ [_ [_ [_ [_ ->]]]]]]]]]]].
  cbn [AnalysisEngine.analyzeRead AnalysisEngine.FileAnalysisResult.metadata
       FileHandler.metadata FileHandler.text FileHandler.manifest
       AnalysisEngine.FileAnalysisResult.isTampered AnalysisEngine.FileAnalysisResult.isValid
       AnalysisEngine.FileAnalysisResult.verdict] in *.
  assert (T : AnalysisEngine.detectTampering
                (BiometricMetadata.with_events md (map FileHandler.validated evs))
                (Spec.manifestOf archive)
                (SecurityUtils.sanitizeContent (Spec.contentOf archive)) = true).
  { rewrite detectTampering_cases. cbv zeta.
    rewrite (occurs_differ d).
    - cbn [negb]. rewrite !orb_true_r. reflexivity.
    - exact (reconstruct_occurs _ e d Hin Ht Hk).
    - now apply sanitize_no_markup. }
  rewrite T. split; [reflexivity | split; [apply andb_false_r |]].
  unfold AnalysisEngine.determineEnhancedVerdict.
  destruct (negb _); reflexivity.
Qed.

Lemma markup_key_reported_tampered_witness :
  In "'"%char Spec.markup
  /\ AnalysisEngine.FileAnalysisResult.isTampered (Samples.analysisOf Samples.quoted_file)
     = true
  /\ AnalysisEngine.FileAnalysisResult.isValid (Samples.analysisOf Samples.quoted_file)
     = false
  /\ AnalysisEngine.FileAnalysisResult.verdict (Samples.analysisOf Samples.quoted_file)
     = INVALID.
Proof.
  split; [vm_compute; tauto |].
  apply (markup_key_reported_tampered Samples.verifiedAt Samples.quoted_file
           (Samples.analysisOf Samples.quoted_file)
           (Samples.keyDown "e2" (12002 # 10) 1699999995200 "'") "'"%char).
  - vm_compute. reflexivity.
  - vm_compute. tauto.
  - reflexivity.
  - reflexivity.
  - vm_compute. tauto.
Defined.

(** X15.  A log that the reader let through is in capture order, so in an
    analysis the last check of [detectTampering] never fires: the verdict on
    tampering is the disjunction of the six other checks. *)
Theorem sequence_check_never_fires (now : Z) (file : File.t)
    (r : AnalysisEngine.FileAnalysisResult.t) :
  Eff.outcome (AnalysisEngine.analyzeHumanSignFile now file) = inr r ->
  let events := BiometricMetadata.events (AnalysisEngine.FileAnalysisResult.metadata r) in
  AnalysisEngine.verifyEventSequence events = true
  /\ ~ In "Event sequence integrity compromised"%string
         (AnalysisEngine.tamperWarnings (AnalysisEngine.FileAnalysisResult.metadata r)
            (AnalysisEngine.FileAnalysisResult.manifest r)
            (AnalysisEngine.FileAnalysisResult.content r))
  /\ AnalysisEngine.FileAnalysisResult.isTampered r
     = (List.length events =? 0)%nat
       || (Qlt_bool (AnalysisEngine.sessionDuration events) 1000
           && (50 <? List.length events)%nat)
       || fst (AnalysisEngine.analyzeEventGaps events)
       || negb (String.eqb (AnalysisEngine.reconstructContentFromEvents events)
                           (AnalysisEngine.FileAnalysisResult.content r))
       || AnalysisEngine.checkDuplicateTimestamps events
       || fst (AnalysisEngine.analyzeTimingPatterns events).
Proof.
  intros H.
  destruct (analysis_inv now file r H)
    as [archive [md [evs [_ [_ [_ [_ [_ [_ [Hd [_ ->]]]]]]]]]]].
  cbn [AnalysisEngine.analyzeRead AnalysisEngine.FileAnalysisResult.metadata
       FileHandler.metadata FileHandler.text FileHandler.manifest
       AnalysisEngine.FileAnalysisResult.isTampered AnalysisEngine.FileAnalysisResult.content
       AnalysisEngine.FileAnalysisResult.manifest].
  set (m := BiometricMetadata.with_events md (map FileHandler.validated evs)).
  assert (S : AnalysisEngine.verifyEventSequence (BiometricMetadata.events m) = true).
  { unfold m. destruct md. cbn [BiometricMetadata.with_events BiometricMetadata.events].
    rewrite verifyEventSequence_nonSequential, nonSequential_validated.
    now rewrite (detect_sequential now evs Hd). }
  cbv zeta. split; [exact S | split].
  - unfold AnalysisEngine.tamperWarnings. rewrite S. cbn [negb AnalysisEngine.warn].
    rewrite app_nil_r. rewrite !in_app_iff.
    unfold AnalysisEngine.warn.
    repeat match goal with |- context [if ?c then _ else _] => destruct c end;
      cbn [In]; intuition discriminate.
  - rewrite detectTampering_cases. cbv zeta. rewrite S. cbn [negb].
    now rewrite orb_false_r.
Qed.

Lemma sequence_check_never_fires_witness :
  AnalysisEngine.verifyEventSequence
    (BiometricMetadata.events
       (AnalysisEngine.FileAnalysisResult.metadata (Samples.analysisOf Samples.plain_file)))
  = true.
Proof.
  apply (sequence_check_never_fires Samples.verifiedAt Samples.plain_file
           (Samples.analysisOf Samples.plain_file)).
  vm_compute. reflexivity.
Defined.

(** ** [FileHandler.preProcessEvents] and [analyzeBiometrics] *)

Lemma filter_length_imp {A : Type} (p q : A -> bool) (l : list A) :
  (forall x, p x = true -> q x = true) ->
  (List.length (filter p l) <= List.length (filter q l))%nat.
Proof.
  intros H. induction l as [| x l IH]; simpl; [lia |].
  destruct (p x) eqn:P.
  - rewrite (H x P). simpl. lia.
  - destruct (q x); simpl; lia.
Qed.

Lemma filter_length_disjoint {A : Type} (p q : A -> bool) (l : list A) :
  (forall x, p x = true -> q x = false) ->
  (List.length (filter p l) + List.length (filter q l) <= List.length l)%nat.
Proof.
  intros H. induction l as [| x l IH]; simpl; [lia |].
  destruct (p x) eqn:P.
  - rewrite (H x P). simpl. lia.
  - destruct (q x); simpl; lia.
Qed.

Lemma is_finite_Fin (x : num) : is_finite x = true -> exists q, x = Fin q.
Proof. destruct x; try discriminate. intros _. now exists q. Qed.

Lemma ofNat_pos (n : nat) : (0 < n)%nat -> (0 < inject_Z (Z.of_nat n))%Q.
Proof. intros H. unfold Qlt. simpl. lia. Qed.

Lemma ndiv_ofNat (a : Q) (n : nat) :
  (0 < n)%nat -> ndiv (Fin a) (ofNat n) = Fin (a / inject_Z (Z.of_nat n)).
Proof. intros H. apply ndiv_pos. now apply ofNat_pos. Qed.

Lemma nsum_from_finite (l : list num) (a : Q) :
  Forall (fun x => is_finite x = true) l ->
  is_finite (fold_left nadd l (Fin a)) = true.
Proof.
  revert a. induction l as [| x l IH]; intros a H; [reflexivity |].
  inversion H as [| y l' Hx Hl]; subst.
  destruct (is_finite_Fin x Hx) as [q ->]. cbn [fold_left nadd]. now apply IH.
Qed.

Lemma squares_finite (numbers : list Q) (mu : Q) :
  Forall (fun x => is_finite x = true)
         (map (fun n => nsquare (nsub (Fin n) (Fin mu))) numbers).
Proof. apply Forall_forall. intros x H. apply in_map_iff in H. now destruct H as (n & <- & _). Qed.

Lemma calculateVariance_finite (numbers : list Q) :
  is_finite (FileHandler.calculateVariance numbers) = true.
Proof.
  unfold FileHandler.calculateVariance.
  destruct numbers as [| n l]; [reflexivity |].
  cbn [List.length Nat.eqb].
  rewrite ndiv_ofNat by lia.
  set (mu := (FileHandler.sum (n :: l) / _)%Q).
  destruct (is_finite_Fin _ (nsum_from_finite _ 0 (squares_finite (n :: l) mu))) as [v E].
  unfold FileHandler.nsum. rewrite E.
  rewrite ndiv_ofNat by lia. reflexivity.
Qed.

Lemma nmax_Fin_one (q : Q) : exists d, nmax (Fin q) (Fin 1) = Fin d /\ (0 < d)%Q.
Proof.
  unfold nmax, nle. destruct (Qle_bool q 1) eqn:E.
  - exists 1%Q. split; [reflexivity | reflexivity].
  - exists q. split; [reflexivity |].
    destruct (Qlt_le_dec 0 q) as [H | H]; [exact H |].
    assert (Qle_bool q 1 = true) by (apply Qle_bool_iff; lra). congruence.
Qed.

Lemma timingsOf_range (l : list Event) (t : Q) :
  In t (FileHandler.timingsOf l) -> (0 < t /\ t < 5000)%Q.
Proof.
  destruct l as [| a l]; [intros [] |].
  revert a. induction l as [| b l IH]; intros a; [intros [] |].
  specialize (IH b). cbn [FileHandler.timingsOf] in *.
  destruct (Qlt_bool 0 _ && Qlt_bool _ 5000) eqn:E; [| exact IH].
  intros [<- | H]; [| now apply IH].
  apply andb_true_iff in E. destruct E as [E1 E2].
  split; now apply Qlt_bool_iff.
Qed.

Lemma sum_from (l : list Q) (a : Q) :
  (fold_left Qplus l a == a + FileHandler.sum l)%Q.
Proof.
  unfold FileHandler.sum. revert a. induction l as [| x l IH]; intros a; simpl.
  - lra.
  - rewrite IH. rewrite (IH (0 + x)%Q). lra.
Qed.

Lemma sum_range (l : list Q) (lo hi : Q) :
  (forall t, In t l -> lo < t /\ t < hi)%Q ->
  l <> [] ->
  (lo * inject_Z (Z.of_nat (List.length l)) < FileHandler.sum l
   /\ FileHandler.sum l < hi * inject_Z (Z.of_nat (List.length l)))%Q.
Proof.
  intros H Hne. induction l as [| x l IH]; [congruence |].
  assert (Hx := H x (or_introl eq_refl)).
  assert (S : (FileHandler.sum (x :: l) == x + FileHandler.sum l)%Q).
  { unfold FileHandler.sum at 1. simpl. rewrite sum_from. lra. }
  assert (L : (inject_Z (Z.of_nat (List.length (x :: l)))
               == 1 + inject_Z (Z.of_nat (List.length l)))%Q).
  { cbn [List.length]. rewrite Nat2Z.inj_succ. unfold Z.succ. rewrite inject_Z_plus.
    change (inject_Z 1) with 1%Q. lra. }
  rewrite S, L.
  destruct l as [| y l].
  - change (FileHandler.sum []) with 0%Q.
    change (inject_Z (Z.of_nat (List.length (@nil Q)))) with 0%Q. lra.
  - destruct IH as [A B]; [intros t Ht; apply H; now right | discriminate |].
    lra.
Qed.

Lemma mean_range (l : list Q) (lo hi : Q) :
  (forall t, In t l -> lo < t /\ t < hi)%Q ->
  l <> [] ->
  (lo < FileHandler.sum l / inject_Z (Z.of_nat (List.length l))
   /\ FileHandler.sum l / inject_Z (Z.of_nat (List.length l)) < hi)%Q.
Proof.
  intros H Hne. destruct (sum_range l lo hi H Hne) as [A B].
  assert (P : (0 < inject_Z (Z.of_nat (List.length l)))%Q).
  { apply ofNat_pos. destruct l; [congruence | simpl; lia]. }
  split.
  - apply Qlt_shift_div_l; assumption.
  - apply Qlt_shift_div_r; assumption.
Qed.

(** X16.  The metrics of any event log: the counts are ordered (backspaces
    are key events, key and paste events are events); every interval that
    enters the timing statistics lies strictly between 0 and 5000 ms, so the
    average interval and the rounded variance are finite, and both are 0 when
    no interval is kept; the backspace ratio of [analyzeBiometrics] lies
    between 0 and 1.  (Nothing is said of the session duration and of the
    speed, which depend on the magnitude of the recorded wall-clock times.) *)
Theorem preProcessEvents_sound (events : list Event) :
  let P := FileHandler.preProcessEvents events in
  let timings := FileHandler.timingsOf (filter (FileHandler.has_type "keydown") events) in
  Metrics.totalEvents P = FileHandler.count events
  /\ 0 <= Metrics.backspaceCount P <= Metrics.keyEvents P
  /\ 0 <= Metrics.pasteEvents P
  /\ Metrics.keyEvents P + Metrics.pasteEvents P <= Metrics.totalEvents P
  /\ (forall t, In t timings -> (0 < t /\ t < 5000)%Q)
  /\ (timings = [] ->
      Metrics.averageTiming P = Fin 0 /\ Metrics.timingVariance P = Fin 0)
  /\ is_finite (Metrics.averageTiming P) = true
  /\ is_finite (Metrics.timingVariance P) = true
  /\ (exists q, FileHandler.backspaceRatio P = Fin q /\ (0 <= q /\ q <= 1)%Q).
Proof.
  cbv zeta. unfold FileHandler.backspaceRatio, FileHandler.preProcessEvents.
  cbn [Metrics.totalEvents Metrics.keyEvents Metrics.pasteEvents Metrics.backspaceCount
       Metrics.averageTiming Metrics.timingVariance Metrics.sessionDuration].
  unfold FileHandler.count.
  assert (B : (List.length (filter (fun e => FileHandler.has_type "keydown" e
                                              && FileHandler.key_is "Backspace" e) events)
               <= List.length (filter (fun e => FileHandler.has_type "keydown" e
                                                || FileHandler.has_type "keyup" e) events))%nat).
  { apply filter_length_imp. intros x H. apply andb_true_iff in H. destruct H as [H _].
    now rewrite H. }
  assert (K : (List.length (filter (fun e => FileHandler.has_type "keydown" e
                                              || FileHandler.has_type "keyup" e) events)
               + List.length (filter (FileHandler.has_type "paste") events)
               <= List.length events)%nat).
  { apply filter_length_disjoint. intros x. unfold FileHandler.has_type.
    intros H. apply orb_true_iff in H. destruct H as [H | H];
      apply String.eqb_eq in H; rewrite H; reflexivity. }
  split; [reflexivity |]. split; [lia |]. split; [lia |]. split; [lia |].
  split; [apply timingsOf_range |].
  split; [intros ->; split; reflexivity |].
  split; [| split; [apply calculateVariance_finite |]].
  - destruct (FileHandler.timingsOf _) as [| t l]; [reflexivity |].
    cbn [List.length Nat.ltb Nat.leb]. now rewrite ndiv_ofNat by (simpl; lia).
  - set (k := List.length (filter (fun e => FileHandler.has_type "keydown" e
                                            || FileHandler.has_type "keyup" e) events)) in *.
    set (b := List.length (filter (fun e => FileHandler.has_type "keydown" e
                                            && FileHandler.key_is "Backspace" e) events)) in *.
    clearbody k b.
    unfold ofZ at 2. destruct (nmax_Fin_one (inject_Z (Z.of_nat k))) as [d [E Hd]].
    rewrite E. unfold ofZ. rewrite ndiv_pos by exact Hd.
    eexists. split; [reflexivity |].
    assert (Dk : (d == 1 /\ (k <= 1)%nat) \/ (d == inject_Z (Z.of_nat k))%Q).
    { unfold nmax, nle in E. destruct (Qle_bool (inject_Z (Z.of_nat k)) 1) eqn:Q;
        injection E as <-.
      - left. split; [reflexivity |]. apply Qle_bool_iff in Q.
        unfold Qle in Q. simpl in Q. lia.
      - right. reflexivity. }
    assert (Hb : (0 <= inject_Z (Z.of_nat b))%Q) by (unfold Qle; simpl; lia).
    split.
    + apply Qle_shift_div_l; [exact Hd |]. now rewrite Qmult_0_l.
    + apply Qle_shift_div_r; [exact Hd |].
      destruct Dk as [[D1 D2] | D1]; rewrite D1, Qmult_1_l.
      * unfold Qle. simpl. lia.
      * unfold Qle. simpl. lia.
Qed.

Lemma verdictOf_clamp (score : Z) :
  score <= 100 -> FileHandler.verdictOf (Z.max 0 (Z.min 100 score)) = FileHandler.verdictOf score.
Proof.
  intros H. rewrite Z.min_r by lia. unfold FileHandler.verdictOf.
  destruct (Z.max_spec 0 score) as [[A ->] | [A ->]]; [reflexivity |].
  repeat match goal with |- context [?a >=? ?b] =>
    let E := fresh in destruct (Z.geb_spec a b) as [E | E]; try lia end; reflexivity.
Qed.

Lemma penalise_snd (c : bool) (points : Z) (message : string) (st : Z * list string) :
  snd (FileHandler.penalise c points message st)
  = (snd st ++ if c then [message] else [])%list.
Proof. destruct c; simpl; [reflexivity | now rewrite app_nil_r]. Qed.

(** X17.  The result of [analyzeBiometrics] is consistent for every
    metadata: the score lies between 0 and 100, the label is the one the
    thresholds 80, 60, 40 and 20 give to the returned (clamped) score, there
    are at most four anomalies, and there is no anomaly exactly when the
    score is 100. *)
Theorem analyzeBiometrics_consistent (now : Z) (metadata : Metadata) :
  let a := FileHandler.analyzeBiometrics now metadata in
  0 <= BiometricAnalysis.humanScore a <= 100
  /\ BiometricAnalysis.verdict a = FileHandler.verdictOf (BiometricAnalysis.humanScore a)
  /\ (List.length (BiometricAnalysis.anomalies a) <= 4)%nat
  /\ (BiometricAnalysis.anomalies a = [] <-> BiometricAnalysis.humanScore a = 100)
  /\ BiometricAnalysis.metrics a
     = FileHandler.preProcessEvents (BiometricMetadata.events metadata)
  /\ BiometricAnalysis.analysisTimestamp a = now.
Proof.
  cbv zeta. unfold FileHandler.analyzeBiometrics.
  set (P := FileHandler.preProcessEvents (BiometricMetadata.events metadata)).
  assert (F := scoreOf_fst P).
  assert (Hp : 0 <= Metrics.pasteEvents P).
  { unfold P, FileHandler.preProcessEvents, FileHandler.count. cbn. lia. }
  assert (S : snd (FileHandler.scoreOf P)
              = (if Metrics.pasteEvents P >? 0
                 then ["Detected " ++ Text.decimal (Metrics.pasteEvents P) ++ " paste events"]
                 else [])%string
                ++ (if nlt (Metrics.timingVariance P) (Fin 10) && (Metrics.keyEvents P >? 20)
                    then ["Extremely consistent typing rhythm detected"%string] else [])
                ++ (if ngt (FileHandler.avgSpeed P) (Fin 15)
                    then ["Unusually high typing speed detected"%string] else [])
                ++ (if nlt (FileHandler.backspaceRatio P) (Fin (2 # 100))
                       && (Metrics.keyEvents P >? 50)
                    then ["Very few corrections made"%string] else [])).
  { unfold FileHandler.scoreOf. cbv zeta. rewrite !penalise_snd. cbn [snd app].
    now rewrite <- !app_assoc. }
  destruct (FileHandler.scoreOf P) as [score anomalies]. cbn [fst snd] in F, S.
  cbn [BiometricAnalysis.humanScore BiometricAnalysis.verdict BiometricAnalysis.anomalies
       BiometricAnalysis.metrics BiometricAnalysis.analysisTimestamp].
  assert (Hs : score <= 100).
  { rewrite F. destruct (Z.gtb_spec (Metrics.pasteEvents P) 0);
      repeat match goal with |- context [if ?c then _ else _] => destruct c end; lia. }
  split; [lia |]. split; [now rewrite verdictOf_clamp |].
  split; [| split; [| split; reflexivity]].
  - rewrite S. repeat match goal with |- context [if ?c then _ else _] => destruct c end;
      simpl; lia.
  - rewrite S, F. destruct (Z.gtb_spec (Metrics.pasteEvents P) 0) as [G | G];
      repeat match goal with |- context [if ?c then _ else _] => destruct c end;
      cbn [app]; split; intros H; try discriminate H; try reflexivity; try lia.
Qed.
(** ** [AIDetector.extractFeatures] *)

Lemma calculateTimings_timingsOf (keyEvents : list Event) :
  AIDetector.calculateTimings keyEvents = FileHandler.timingsOf keyEvents.
Proof.
  destruct keyEvents as [| a l]; [reflexivity |].
  revert a. induction l as [| b l IH]; intros a; [reflexivity |].
  specialize (IH b). cbn [AIDetector.calculateTimings FileHandler.timingsOf] in *.
  now rewrite IH.
Qed.

Lemma squares_from (l : list Q) (mu a : Q) :
  (0 <= a)%Q ->
  exists v, fold_left nadd (map (fun t => nsquare (nsub (Fin t) (Fin mu))) l) (Fin a) = Fin v
            /\ (0 <= v)%Q.
Proof.
  revert a. induction l as [| t l IH]; intros a Ha.
  - exists a. now split.
  - cbn [map fold_left]. cbn [nsquare nsub nopp nadd nmul].
    apply IH. assert (0 <= (t + - mu) * (t + - mu))%Q; [| lra].
    set (x := (t + - mu)%Q). clearbody x. nra.
Qed.

Lemma variance_nonneg (l : list Q) (mu : Q) :
  l <> [] ->
  exists v, ndiv (FileHandler.nsum (map (fun t => nsquare (nsub (Fin t) (Fin mu))) l))
                 (ofNat (List.length l)) = Fin v
            /\ (0 <= v)%Q.
Proof.
  intros Hne. unfold FileHandler.nsum.
  destruct (squares_from l mu 0 (Qle_refl 0)) as [v [-> Hv]].
  assert (P : (0 < List.length l)%nat) by (destruct l; [congruence | simpl; lia]).
  rewrite ndiv_ofNat by exact P.
  eexists. split; [reflexivity |].
  apply Qle_shift_div_l; [now apply ofNat_pos | now rewrite Qmult_0_l].
Qed.

Lemma nsqrt_nonneg (a : Q) :
  (0 <= a)%Q -> exists c, coef (nsqrt (Fin a)) = Fin c.
Proof.
  intros Ha. unfold nsqrt. destruct (Qeq_bool a 0); [now exists 0%Q |].
  assert (E : Qle_bool 0 a = true) by now apply Qle_bool_iff.
  rewrite E. now exists 1%Q.
Qed.

Lemma maxOf_from (l : list Q) (a : Q) :
  is_finite (fold_left (fun acc t => nmax acc (Fin t)) l (Fin a)) = true.
Proof.
  revert a. induction l as [| t l IH]; intros a; [reflexivity |].
  cbn [fold_left]. unfold nmax at 2, nle. destruct (Qle_bool a t); apply IH.
Qed.

Lemma minOf_from (l : list Q) (a : Q) :
  is_finite (fold_left (fun acc t => nmin acc (Fin t)) l (Fin a)) = true.
Proof.
  revert a. induction l as [| t l IH]; intros a; [reflexivity |].
  cbn [fold_left]. unfold nmin at 2, nle. destruct (Qle_bool a t); apply IH.
Qed.

Lemma burstCount_bound (timings : list Q) :
  0 <= AIDetector.burstCount timings <= Z.max 0 (FileHandler.count timings - 2).
Proof.
  unfold FileHandler.count.
  destruct timings as [| a l]; [simpl; lia |].
  revert a. induction l as [| b l IH]; intros a; [simpl; lia |].
  specialize (IH b).
  destruct l as [| c l]; [simpl; lia |].
  change (AIDetector.burstCount (a :: b :: c :: l))
    with ((if Qlt_bool a 100 && Qlt_bool b 100 && Qlt_bool 500 c then 1 else 0)
          + AIDetector.burstCount (b :: c :: l)).
  cbn [List.length] in *.
  destruct (Qlt_bool a 100 && Qlt_bool b 100 && Qlt_bool 500 c); lia.
Qed.

Lemma detectBurstPatterns_range (timings : list Q) :
  exists q, AIDetector.detectBurstPatterns timings = Fin q /\ (0 <= q /\ q <= 1)%Q.
Proof.
  unfold AIDetector.detectBurstPatterns.
  destruct (Nat.ltb_spec (List.length timings) 3) as [H | H].
  - exists 0%Q. split; [reflexivity | lra].
  - assert (B := burstCount_bound timings).
    unfold FileHandler.count in *.
    set (n := Z.of_nat (List.length timings)) in *.
    assert (Hn : 3 <= n) by (unfold n; lia). clearbody n.
    set (b := AIDetector.burstCount timings) in *. clearbody b.
    assert (P : (0 < inject_Z (n - 2))%Q) by (unfold Qlt; simpl; lia).
    unfold ofZ. rewrite ndiv_pos by exact P.
    eexists. split; [reflexivity |]. split.
    + apply Qle_shift_div_l; [exact P |]. rewrite Qmult_0_l. unfold Qle; simpl; lia.
    + apply Qle_shift_div_r; [exact P |]. rewrite Qmult_1_l. unfold Qle; simpl; lia.
Qed.

Lemma calculateTimings_range (l : list Event) (t : Q) :
  In t (AIDetector.calculateTimings l) -> (0 < t /\ t < 5000)%Q.
Proof. rewrite calculateTimings_timingsOf. apply timingsOf_range. Qed.

Lemma rhythm_finite (keyEvents : list Event) :
  let r := AIDetector.calculateRhythmFeatures (AIDetector.calculateTimings keyEvents) in
  is_finite (AIDetector.Rhythm.avgInterval r) = true
  /\ Spec.finiteValue (AIDetector.Rhythm.variance r) = true
  /\ is_finite (AIDetector.Rhythm.maxPause r) = true
  /\ is_finite (AIDetector.Rhythm.minPause r) = true
  /\ Spec.finiteValue (AIDetector.Rhythm.consistency r) = true.
Proof.
  cbv zeta. unfold AIDetector.calculateRhythmFeatures.
  assert (R := calculateTimings_range keyEvents).
  destruct (AIDetector.calculateTimings keyEvents) as [| t l] eqn:E;
    [repeat split; reflexivity |].
  set (timings := t :: l) in *.
  assert (Hne : timings <> []) by discriminate.
  change (List.length timings =? 0)%nat with false. cbv iota.
  cbn [AIDetector.Rhythm.avgInterval AIDetector.Rhythm.variance AIDetector.Rhythm.maxPause
       AIDetector.Rhythm.minPause AIDetector.Rhythm.consistency Spec.finiteValue].
  rewrite ndiv_ofNat by (unfold timings; simpl; lia).
  set (mu := (FileHandler.sum timings / _)%Q).
  assert (Hmu : (0 < mu)%Q) by (apply (mean_range timings 0 5000 R Hne)).
  destruct (variance_nonneg timings mu Hne) as [v [-> Hv]].
  destruct (nsqrt_nonneg v Hv) as [c Hc].
  split; [reflexivity |]. split; [now rewrite Hc |].
  split; [| split].
  - unfold AIDetector.maxOf, timings. cbn [fold_left nmax nle]. apply maxOf_from.
  - unfold AIDetector.minOf, timings. cbn [fold_left nmin nle]. apply minOf_from.
  - cbn [sqv_div coef]. rewrite Hc. now rewrite ndiv_pos.
Qed.

Lemma quotient_finite (a b : Z) :
  is_finite (ndiv (ofZ a) (nmax (ofZ b) (Fin 1))) = true.
Proof.
  destruct (nmax_one b) as [d [-> Hd]]. unfold ofZ. now rewrite ndiv_pos.
Qed.

Lemma wordLengthVariance_finite (text : string) :
  Spec.finiteValue (AIDetector.calculateWordLengthVariance text) = true.
Proof.
  unfold AIDetector.calculateWordLengthVariance.
  destruct (Text.words text) as [| w ws] eqn:E; [reflexivity |].
  change (List.length (w :: ws) =? 0)%nat with false. cbv iota zeta.
  set (wordLengths := map (fun w => inject_Z (Text.strlen w)) (w :: ws)).
  assert (Hne : wordLengths <> []) by discriminate.
  rewrite ndiv_ofNat by (unfold wordLengths; simpl; lia).
  set (mu := (FileHandler.sum wordLengths / _)%Q).
  destruct (variance_nonneg wordLengths mu Hne) as [v [-> Hv]].
  destruct (nsqrt_nonneg v Hv) as [c Hc].
  cbn [Spec.finiteValue]. now rewrite Hc.
Qed.

(** X18.  Whatever the metadata, every feature other than [textComplexity]
    and [pasteRatio] is present and is neither NaN nor an infinity; the
    intervals the features are computed from are those [preProcessEvents]
    uses, all strictly between 0 and 5000 ms, and the burst ratio lies between
    0 and 1. *)
Theorem features_finite (metadata : Metadata) :
  let keyEvents :=
    filter (FileHandler.has_type "keydown") (BiometricMetadata.events metadata) in
  (forall name, In name Spec.guardedFeatures ->
     exists v, AIDetector.get (AIDetector.extractFeatures metadata) name = Some v
               /\ Spec.finiteValue v = true)
  /\ AIDetector.calculateTimings keyEvents = FileHandler.timingsOf keyEvents
  /\ (forall t, In t (AIDetector.calculateTimings keyEvents) -> (0 < t /\ t < 5000)%Q)
  /\ (exists q, AIDetector.detectBurstPatterns (AIDetector.calculateTimings keyEvents) = Fin q
                /\ (0 <= q /\ q <= 1)%Q).
Proof.
  cbv zeta. split; [| split; [apply calculateTimings_timingsOf
                            | split; [apply calculateTimings_range
                                     | apply detectBurstPatterns_range]]].
  intros name Hin.
  set (keyEvents := filter (FileHandler.has_type "keydown") (BiometricMetadata.events metadata)).
  destruct (rhythm_finite keyEvents) as [A [V [Mx [Mn C]]]].
  unfold Spec.guardedFeatures in Hin. cbn [In] in Hin.
  unfold AIDetector.extractFeatures. cbv zeta. fold keyEvents.
  repeat (destruct Hin as [<- | Hin]; [eexists; split; [reflexivity |] |]);
    try (destruct Hin); cbn [Spec.finiteValue];
    first [ assumption | apply quotient_finite | apply wordLengthVariance_finite
          | reflexivity | idtac ].
  destruct (detectBurstPatterns_range (AIDetector.calculateTimings keyEvents)) as [q [-> _]].
  reflexivity.
Qed.

(** ** [AIDetector.calculateTextComplexity] *)

Lemma tokens_from_nil (sep : Z -> bool) (s cur : string) :
  Text.tokens_from sep s cur = []
  <-> cur = EmptyString /\ Spec.every (fun c => sep (Text.code c)) s = true.
Proof.
  revert cur. induction s as [| c s IH]; intros cur; cbn [Text.tokens_from Spec.every].
  - destruct cur; cbn; split; try tauto; try discriminate.
    + intros [H _]. discriminate.
  - destruct (sep (Text.code c)); cbn [andb].
    + destruct cur; cbn [Text.is_empty].
      * rewrite IH. tauto.
      * split; [discriminate | intros [H _]; discriminate].
    + rewrite IH. split; [| intros [_ H]; discriminate].
      intros [H _]. destruct cur; discriminate.
Qed.

Lemma count_pos {A : Type} (l : list A) : l <> [] -> (0 < inject_Z (FileHandler.count l))%Q.
Proof.
  intros H. unfold FileHandler.count, Qlt. simpl.
  destruct l; [congruence | simpl; lia].
Qed.

(** X19.  When [calculateTextComplexity] is not a number: it is NaN exactly
    for a text that is not empty and holds white space only (no word: 0
    divided by 0), +Infinity exactly for a text that is not empty and holds
    the characters [.], [!] and [?] only (words but no sentence), and a
    rational for every other text. *)
Theorem textComplexity_cases (text : string) :
  (AIDetector.calculateTextComplexity text = NaN
   <-> text <> EmptyString
       /\ Spec.every (fun c => Text.is_space (Text.code c)) text = true)
  /\ (AIDetector.calculateTextComplexity text = PInf
      <-> text <> EmptyString
          /\ Spec.every (fun c => AIDetector.is_stop (Text.code c)) text = true)
  /\ (AIDetector.calculateTextComplexity text <> NInf)
  /\ (is_finite (AIDetector.calculateTextComplexity text) = true
      <-> text = EmptyString
          \/ (Spec.every (fun c => Text.is_space (Text.code c)) text = false
              /\ Spec.every (fun c => AIDetector.is_stop (Text.code c)) text = false)).
Proof.
  unfold AIDetector.calculateTextComplexity.
  destruct text as [| c0 rest]; cbn [Text.is_empty].
  { split; [| split; [| split]].
    - split; [discriminate | intros [H _]; congruence].
    - split; [discriminate | intros [H _]; congruence].
    - discriminate.
    - split; [intros _; now left | reflexivity]. }
  set (text := String c0 rest).
  assert (W := tokens_from_nil Text.is_space text EmptyString).
  assert (S := tokens_from_nil AIDetector.is_stop text EmptyString).
  fold (Text.tokens Text.is_space text) in W. fold (Text.words text) in W.
  fold (Text.tokens AIDetector.is_stop text) in S.
  assert (X : Spec.every (fun c => Text.is_space (Text.code c)) text = true ->
              Spec.every (fun c => AIDetector.is_stop (Text.code c)) text = true -> False).
  { unfold text. cbn [Spec.every]. intros A B.
    apply andb_true_iff in A. destruct A as [A _].
    apply andb_true_iff in B. destruct B as [B _].
    unfold Text.is_space in A. unfold AIDetector.is_stop in B.
    destruct (Z.eqb_spec (Text.code c0) 46), (Z.eqb_spec (Text.code c0) 33),
      (Z.eqb_spec (Text.code c0) 63); cbn in B; try discriminate;
      rewrite e in A; discriminate. }
  cbv zeta.
  destruct (Text.words text) as [| w ws] eqn:Ew.
  - assert (Hs : Spec.every (fun c => Text.is_space (Text.code c)) text = true)
      by (apply W; reflexivity).
    rewrite Hs.
    change (ndiv (ofZ (AIDetector.sumLengths [])) (ofZ (FileHandler.count (@nil string))))
      with NaN.
    cbn [nmul nadd is_finite].
    split; [| split; [| split]].
    + split; [intros _; split; [discriminate | reflexivity] | reflexivity].
    + split; [discriminate | intros [_ H]; exfalso; exact (X Hs H)].
    + discriminate.
    + split; [discriminate | intros [H | [H _]]; discriminate].
  - assert (Hs : Spec.every (fun c => Text.is_space (Text.code c)) text = false).
    { destruct (Spec.every _ text) eqn:E; [| reflexivity].
      assert (H : w :: ws = []) by (apply W; now split). discriminate. }
    rewrite Hs.
    assert (Pw : (0 < inject_Z (FileHandler.count (w :: ws)))%Q) by (apply count_pos; discriminate).
    unfold ofZ at 1 2. rewrite ndiv_pos by exact Pw.
    destruct (Text.tokens AIDetector.is_stop text) as [| s ss] eqn:Es.
    + assert (Ht : Spec.every (fun c => AIDetector.is_stop (Text.code c)) text = true)
        by (apply S; reflexivity).
      rewrite Ht.
      assert (D : ndiv (ofZ (FileHandler.count (w :: ws))) (ofZ (FileHandler.count (@nil string)))
                  = PInf).
      { unfold ofZ, ndiv. change (Qeq_bool (inject_Z (FileHandler.count (@nil string))) 0) with true.
        cbv iota.
        assert (N : Qeq_bool (inject_Z (FileHandler.count (w :: ws))) 0 = false).
        { apply not_true_is_false. intros H. apply Qeq_bool_iff in H. lra. }
        rewrite N. unfold inf_of_sign.
        assert (L : Qle_bool 0 (inject_Z (FileHandler.count (w :: ws))) = true)
          by (apply Qle_bool_iff; lra).
        now rewrite L. }
      rewrite D. change (nmul PInf (Fin (4 # 10))) with PInf.
      cbn [nmul nadd is_finite].
      split; [| split; [| split]].
      * split; [discriminate | intros [_ H]; discriminate].
      * split; [intros _; split; [discriminate | reflexivity] | reflexivity].
      * discriminate.
      * split; [discriminate | intros [H | [_ H]]; discriminate].
    + assert (Ht : Spec.every (fun c => AIDetector.is_stop (Text.code c)) text = false).
      { destruct (Spec.every (fun c => AIDetector.is_stop (Text.code c)) text) eqn:E;
          [| reflexivity].
        assert (H : s :: ss = []) by (apply S; now split). discriminate. }
      rewrite Ht.
      assert (Ps : (0 < inject_Z (FileHandler.count (s :: ss)))%Q)
        by (apply count_pos; discriminate).
      unfold ofZ. rewrite ndiv_pos by exact Ps.
      cbn [nmul nadd is_finite].
      split; [| split; [| split]].
      * split; [discriminate | intros [_ H]; discriminate].
      * split; [discriminate | intros [_ H]; discriminate].
      * discriminate.
      * split; [intros _; right; now split | reflexivity].
Qed.
(** ** [AnalysisEngine.analyzeHumanSignFile] and [getDetailedBreakdown] *)

Lemma aiProbability_range (metadata : Metadata) :
  0 <= AIDetector.AIAnalysis.aiProbability (AIDetector.analyzeForAI metadata) <= 75.
Proof.
  unfold AIDetector.analyzeForAI. cbn [AIDetector.AIAnalysis.aiProbability].
  set (f := AIDetector.extractFeatures metadata).
  unfold AIDetector.predictAIProbability.
  assert (E : AIDetector.ruleConsistency f = 0)
    by (unfold AIDetector.ruleConsistency, f; rewrite get_consistency; reflexivity).
  rewrite E.
  unfold AIDetector.ruleBurst, AIDetector.ruleBackspace, AIDetector.rulePaste,
    AIDetector.ruleDensity, AIDetector.rulePauses.
  repeat match goal with |- context [if ?c then _ else _] => destruct c end; lia.
Qed.

Lemma humanScore_range (now : Z) (metadata : Metadata) :
  0 <= BiometricAnalysis.humanScore (FileHandler.analyzeBiometrics now metadata) <= 100.
Proof. rewrite analyzeBiometrics_humanScore. lia. Qed.

(** X20.  What the verdict of an analysis tells.  It is [INVALID] exactly
    when the result is not valid; the combined score lies between 0 and 100;
    [VERIFIED_HUMAN] is given only to a valid, untampered result whose
    behavioural score is at least 75 and whose AI score is at most 25; and
    with an AI score above 50 the verdict is never [VERIFIED_HUMAN] nor
    [MIXED_CONTENT]. *)
Theorem analysis_verdict (now : Z) (file : File.t)
    (r : AnalysisEngine.FileAnalysisResult.t) :
  Eff.outcome (AnalysisEngine.analyzeHumanSignFile now file) = inr r ->
  let b := BiometricAnalysis.humanScore (AnalysisEngine.FileAnalysisResult.biometricAnalysis r) in
  let a := AIDetector.AIAnalysis.aiProbability (AnalysisEngine.FileAnalysisResult.aiAnalysis r) in
  (AnalysisEngine.FileAnalysisResult.verdict r = INVALID
   <-> AnalysisEngine.FileAnalysisResult.isValid r = false)
  /\ 0 <= AnalysisEngine.FileAnalysisResult.humanScore r <= 100
  /\ AnalysisEngine.FileAnalysisResult.humanScore r <= b
  /\ (AnalysisEngine.FileAnalysisResult.isValid r = true ->
      AnalysisEngine.FileAnalysisResult.isTampered r = false)
  /\ (AnalysisEngine.FileAnalysisResult.verdict r = VERIFIED_HUMAN ->
      AnalysisEngine.FileAnalysisResult.isValid r = true
      /\ 75 <= AnalysisEngine.FileAnalysisResult.humanScore r /\ 75 <= b /\ a <= 25)
  /\ (50 < a ->
      AnalysisEngine.FileAnalysisResult.verdict r <> VERIFIED_HUMAN
      /\ AnalysisEngine.FileAnalysisResult.verdict r <> MIXED_CONTENT).
Proof.
  intros H. destruct (analyze_inr now file r H) as [rr [_ ->]].
  unfold AnalysisEngine.analyzeRead.
  cbn [AnalysisEngine.FileAnalysisResult.verdict AnalysisEngine.FileAnalysisResult.isValid
       AnalysisEngine.FileAnalysisResult.humanScore AnalysisEngine.FileAnalysisResult.isTampered
       AnalysisEngine.FileAnalysisResult.biometricAnalysis
       AnalysisEngine.FileAnalysisResult.aiAnalysis].
  assert (Hb := humanScore_range now (FileHandler.metadata rr)).
  assert (Ha := aiProbability_range (FileHandler.metadata rr)).
  set (b := BiometricAnalysis.humanScore _) in *.
  set (ai := AIDetector.analyzeForAI _) in *.
  set (a := AIDetector.AIAnalysis.aiProbability ai) in *.
  set (c := AnalysisEngine.verifyCryptographicIntegrity _ _ _).
  set (t := AnalysisEngine.detectTampering _ _ _).
  unfold AnalysisEngine.determineEnhancedVerdict. fold a.
  clearbody b a c t.
  destruct c, t; cbn [negb andb];
    repeat match goal with |- context [?x >? ?y] =>
      let E := fresh in destruct (Z.gtb_spec x y) as [E | E] end;
    repeat match goal with |- context [?x >=? ?y] =>
      let E := fresh in destruct (Z.geb_spec x y) as [E | E] end;
    repeat split; intros; try discriminate; try reflexivity; try lia.
Qed.

Lemma analysis_verdict_witness :
  AnalysisEngine.FileAnalysisResult.verdict (Samples.analysisOf Samples.plain_file) = INVALID
  <-> AnalysisEngine.FileAnalysisResult.isValid (Samples.analysisOf Samples.plain_file) = false.
Proof.
  apply (analysis_verdict Samples.verifiedAt Samples.plain_file
           (Samples.analysisOf Samples.plain_file)).
  vm_compute. reflexivity.
Defined.

Lemma integrity_needs_signature (now : Z) (metadata : Metadata) (manifest : HumanSignManifest.t) :
  HumanSignManifest.signature manifest = None ->
  AnalysisEngine.verifyCryptographicIntegrity now metadata manifest = false.
Proof.
  intros H. unfold AnalysisEngine.verifyCryptographicIntegrity. now rewrite H.
Qed.

(** X21.  What a container must hold.  Without a [metadata.json] that
    parses, or with a [manifest.json] that does not parse, the read is refused
    and the analysis fails.  Without a [manifest.json] (or with a blank one)
    the file may be analysed, but the result is never valid, its verdict is
    [INVALID], and [getDetailedBreakdown] throws on it. *)
Theorem members_required (now now' : Z) (file : File.t) (archive : Archive.t) :
  File.container file = Some archive ->
  ((forall md, Archive.metadata_json archive <> Parses md)
   \/ Archive.manifest_json archive = Unparsable ->
   Eff.outcome (FileHandler.readHumanSignFile now file)
   = inl "Invalid or malicious HumanSign file"%string
   /\ Eff.outcome (AnalysisEngine.analyzeHumanSignFile now file)
      = inl "Failed to analyze file"%string)
  /\ (Archive.manifest_json archive = Missing \/ Archive.manifest_json archive = Blank ->
      forall r, Eff.outcome (AnalysisEngine.analyzeHumanSignFile now file) = inr r ->
        AnalysisEngine.FileAnalysisResult.manifest r = HumanSignManifest.empty
        /\ AnalysisEngine.FileAnalysisResult.isValid r = false
        /\ AnalysisEngine.FileAnalysisResult.verdict r = INVALID
        /\ AnalysisEngine.getDetailedBreakdown now' r
           = inl "TypeError: Cannot read properties of undefined (reading 'sessionDuration')"%string).
Proof.
  intros Hc. split.
  - intros Hm.
    assert (R : Eff.outcome (FileHandler.readHumanSignFile now file) = Spec.rejected).
    { rewrite read_outcome, Hc.
      destruct (File.size file >? FileHandler.sizeLimit); [reflexivity |].
      destruct Hm as [Hm | Hm].
      - destruct (Archive.metadata_json archive) as [| | | md]; try reflexivity.
        exfalso. now apply (Hm md).
      - rewrite Hm. destruct (Archive.metadata_json archive); reflexivity. }
    split; [exact R |]. rewrite analyze_outcome, R. reflexivity.
  - intros Hm r H.
    destruct (analysis_inv now file r H)
      as [archive' [md [evs [Hc' [_ [_ [_ [_ [_ [_ [_ ->]]]]]]]]]]].
    rewrite Hc in Hc'. injection Hc' as <-.
    assert (E : Spec.manifestOf archive = HumanSignManifest.empty)
      by (unfold Spec.manifestOf; destruct Hm as [-> | ->]; reflexivity).
    rewrite E. unfold AnalysisEngine.analyzeRead.
    cbn [FileHandler.manifest FileHandler.metadata FileHandler.text].
    rewrite integrity_needs_signature by reflexivity.
    split; [reflexivity | split; [reflexivity | split; reflexivity]].
Qed.

Lemma members_required_witness :
  AnalysisEngine.FileAnalysisResult.isValid (Samples.analysisOf Samples.bare_file) = false
  /\ AnalysisEngine.getDetailedBreakdown Samples.verifiedAt (Samples.analysisOf Samples.bare_file)
     = inl "TypeError: Cannot read properties of undefined (reading 'sessionDuration')"%string.
Proof.
  destruct (members_required Samples.verifiedAt Samples.verifiedAt Samples.bare_file
              Samples.bare_archive eq_refl) as [_ H].
  destruct (H (or_introl eq_refl) (Samples.analysisOf Samples.bare_file))
    as [_ [V [_ B]]].
  - vm_compute. reflexivity.
  - split; [exact V | exact B].
Defined.

Lemma orElse_one (x : num) :
  exists d, nmax (AnalysisEngine.orElse x (Fin 1)) (Fin 1) = Fin d /\ (0 < d)%Q
            \/ nmax (AnalysisEngine.orElse x (Fin 1)) (Fin 1) = PInf.
Proof.
  destruct x as [q | | |]; cbn [AnalysisEngine.orElse].
  - destruct (Qeq_bool q 0).
    + exists 1%Q. left. split; reflexivity.
    + destruct (nmax_Fin_one q) as [d Hd]. exists d. now left.
  - exists 1%Q. left. split; reflexivity.
  - exists 1%Q. now right.
  - exists 1%Q. left. split; reflexivity.
Qed.

(** X22.  [getDetailedBreakdown] on any analysis result: it throws exactly
    when the manifest has no [fileInfo]; otherwise the typing speed and the
    correction rate are finite whatever the recorded duration and counts (the
    divisors are at least 1), and the content type follows the verdict alone:
    the test for paste events reads a property the biometric analysis does
    not have, so [PASTED] is never reported. *)
Theorem getDetailedBreakdown_total (now : Z) (analysis : AnalysisEngine.FileAnalysisResult.t) :
  AnalysisEngine.determineContentType analysis
  = match AnalysisEngine.FileAnalysisResult.verdict analysis with
    | VERIFIED_HUMAN => AnalysisEngine.HUMAN_TYPED
    | AI_DETECTED => AnalysisEngine.AI_GENERATED
    | _ => AnalysisEngine.MIXED
    end
  /\ match HumanSignManifest.fileInfo (AnalysisEngine.FileAnalysisResult.manifest analysis) with
     | None =>
         exists e, AnalysisEngine.getDetailedBreakdown now analysis = inl e
     | Some fileInfo =>
         exists b,
           AnalysisEngine.getDetailedBreakdown now analysis = inr b
           /\ is_finite (AnalysisEngine.Breakdown.typingSpeed
                           (AnalysisEngine.Breakdown.biometric b)) = true
           /\ is_finite (AnalysisEngine.Breakdown.correctionRate
                           (AnalysisEngine.Breakdown.biometric b)) = true
           /\ AnalysisEngine.Breakdown.contentType (AnalysisEngine.Breakdown.content b)
              <> AnalysisEngine.PASTED
           /\ AnalysisEngine.Breakdown.valid (AnalysisEngine.Breakdown.cryptographic b)
              = AnalysisEngine.FileAnalysisResult.isValid analysis
     end.
Proof.
  assert (C : AnalysisEngine.determineContentType analysis
              = match AnalysisEngine.FileAnalysisResult.verdict analysis with
                | VERIFIED_HUMAN => AnalysisEngine.HUMAN_TYPED
                | AI_DETECTED => AnalysisEngine.AI_GENERATED
                | _ => AnalysisEngine.MIXED
                end).
  { unfold AnalysisEngine.determineContentType.
    destruct (AnalysisEngine.FileAnalysisResult.verdict analysis); reflexivity. }
  split; [exact C |].
  unfold AnalysisEngine.getDetailedBreakdown. cbv zeta.
  destruct (HumanSignManifest.fileInfo _) as [fileInfo |]; [| eexists; reflexivity].
  eexists. split; [reflexivity |].
  cbn [AnalysisEngine.Breakdown.biometric AnalysisEngine.Breakdown.typingSpeed
       AnalysisEngine.Breakdown.correctionRate AnalysisEngine.Breakdown.content
       AnalysisEngine.Breakdown.contentType AnalysisEngine.Breakdown.cryptographic
       AnalysisEngine.Breakdown.valid].
  set (n := FileHandler.count _).
  assert (N : exists q, AnalysisEngine.orElse (ofZ n) (Fin 0) = Fin q).
  { unfold ofZ, AnalysisEngine.orElse. destruct (Qeq_bool _ 0); eexists; reflexivity. }
  destruct N as [q ->].
  split; [| split; [| split; [| reflexivity]]].
  - destruct (orElse_one (FileInfo.sessionDuration fileInfo)) as [d [[-> Hd] | ->]].
    + now rewrite ndiv_pos.
    + reflexivity.
  - destruct (orElse_one (ofZ n)) as [d [[-> Hd] | E]].
    + unfold ofZ. now rewrite ndiv_pos.
    + rewrite E. reflexivity.
  - rewrite C. destruct (AnalysisEngine.FileAnalysisResult.verdict analysis); discriminate.
Qed.
(** ** [FileHandler.createHumanSignFile], read back *)

Lemma toParsed_fields (m : Metadata) :
  BiometricMetadata.sessionId (FileHandler.toParsed m) = BiometricMetadata.sessionId m
  /\ BiometricMetadata.contentHash (FileHandler.toParsed m) = BiometricMetadata.contentHash m
  /\ BiometricMetadata.signature (FileHandler.toParsed m) = BiometricMetadata.signature m
  /\ BiometricMetadata.finalText (FileHandler.toParsed m) = BiometricMetadata.finalText m.
Proof. unfold FileHandler.toParsed. destruct (is_finite _); repeat split. Qed.

Lemma createSignature_fields (now : Z) (m m' : Metadata) (secretKey : string) :
  BiometricMetadata.sessionId m' = BiometricMetadata.sessionId m ->
  BiometricMetadata.contentHash m' = BiometricMetadata.contentHash m ->
  BiometricMetadata.finalText m' = BiometricMetadata.finalText m ->
  List.length (BiometricMetadata.events m') = List.length (BiometricMetadata.events m) ->
  CryptoUtils.createSignature now m' secretKey = CryptoUtils.createSignature now m secretKey.
Proof.
  intros Hs Hc Hf Hl. destruct m', m.
  cbn [BiometricMetadata.sessionId BiometricMetadata.contentHash
       BiometricMetadata.finalText BiometricMetadata.events] in Hs, Hc, Hf, Hl. subst.
  unfold CryptoUtils.createSignature, CryptoUtils.signatureString.
  cbn [BiometricMetadata.sessionId BiometricMetadata.contentHash
       BiometricMetadata.finalText BiometricMetadata.events].
  unfold Event in *. now rewrite Hl.
Qed.

(** X23.  A packaged archive, read back and analysed.  Under the conditions
    of the reader, the analysis succeeds; the manifest and the metadata carry
    the same signature and the hash of the packaged text, whatever hash or
    signature the metadata held before; the signature is the one that
    [verifySignature] accepts for the metadata read back, with the session key
    and at the instant of the packaging; and the manifest has the [fileInfo]
    that [getDetailedBreakdown] needs, with the counts of the packaged text
    and log. *)
Theorem packaged_signature (now now' : Z) (uuid text : string) (metadata : Metadata)
    (size : Z) :
  let file := File.mk size (Some (FileHandler.createHumanSignFile now uuid text metadata)) in
  size <= FileHandler.sizeLimit ->
  SecurityUtils.validateEventStructure
    (map FileHandler.asParsed (BiometricMetadata.events metadata)) = true ->
  SecurityUtils.detectTimestampManipulation now' (BiometricMetadata.events metadata) = false ->
  SecurityUtils.isReplayAttack now' (FileHandler.toParsed metadata)
    SecurityUtils.maxAge_default = false ->
  exists r sig fileInfo,
    Eff.outcome (AnalysisEngine.analyzeHumanSignFile now' file) = inr r
    /\ HumanSignManifest.signature (AnalysisEngine.FileAnalysisResult.manifest r) = Some sig
    /\ BiometricMetadata.signature (AnalysisEngine.FileAnalysisResult.metadata r) = Some sig
    /\ CryptoUtils.verifySignature now (AnalysisEngine.FileAnalysisResult.metadata r) sig
         (FileHandler.generateSecretKey now uuid) = true
    /\ HumanSignManifest.contentHash (AnalysisEngine.FileAnalysisResult.manifest r)
       = Some (CryptoUtils.createHash text)
    /\ BiometricMetadata.contentHash (AnalysisEngine.FileAnalysisResult.metadata r)
       = Some (CryptoUtils.createHash text)
    /\ HumanSignManifest.sessionId (AnalysisEngine.FileAnalysisResult.manifest r)
       = BiometricMetadata.sessionId metadata
    /\ HumanSignManifest.fileInfo (AnalysisEngine.FileAnalysisResult.manifest r) = Some fileInfo
    /\ FileInfo.textLength fileInfo = Text.strlen text
    /\ FileInfo.wordCount fileInfo = FileHandler.count (Text.words text)
    /\ FileInfo.eventCount fileInfo = FileHandler.count (BiometricMetadata.events metadata)
    /\ exists b, AnalysisEngine.getDetailedBreakdown now' r = inr b.
Proof.
  intros file Hsz Hv Hd Hr. subst file.
  rewrite analyze_outcome, read_outcome.
  unfold FileHandler.createHumanSignFile.
  set (m1 := BiometricMetadata.with_contentHash metadata _).
  set (sg := CryptoUtils.createSignature now m1 _).
  set (m2 := BiometricMetadata.with_signature m1 _).
  set (fi := FileInfo.mk _ _ _ _).
  set (manifest := HumanSignManifest.mk _ _ _ _ _ _ _ _).
  cbn [File.container File.size Archive.metadata_json Archive.manifest_json].
  assert (Hgt : (size >? FileHandler.sizeLimit) = false)
    by (rewrite Z.gtb_ltb; apply Z.ltb_ge; exact Hsz).
  rewrite Hgt, toParsed_events.
  change (BiometricMetadata.events m2) with (BiometricMetadata.events metadata).
  rewrite Hv, detect_asParsed, Hd. cbn [negb].
  assert (Hr2 : SecurityUtils.isReplayAttack now' (FileHandler.toParsed m2)
                  SecurityUtils.maxAge_default = false).
  { rewrite <- Hr. apply isReplayAttack_sessionStart.
    unfold FileHandler.toParsed.
    change (BiometricMetadata.sessionStart m2) with (BiometricMetadata.sessionStart metadata).
    destruct (is_finite _); reflexivity. }
  rewrite Hr2, validated_asParsed.
  destruct (toParsed_fields m2) as [Ps [Pc [Pg Pf]]].
  eexists. exists sg, fi. split; [reflexivity |].
  unfold AnalysisEngine.analyzeRead.
  cbn [AnalysisEngine.FileAnalysisResult.manifest AnalysisEngine.FileAnalysisResult.metadata
       FileHandler.manifest FileHandler.metadata FileHandler.text Spec.manifestOf
       Archive.manifest_json].
  split; [reflexivity |].
  split; [exact Pg |].
  split.
  { unfold CryptoUtils.verifySignature.
    rewrite (createSignature_fields now m1); [apply String.eqb_refl | | | |].
    - exact Ps.
    - exact Pc.
    - exact Pf.
    - reflexivity. }
  split; [reflexivity |].
  split; [exact Pc |].
  split; [reflexivity |].
  split; [reflexivity |].
  split; [reflexivity |].
  split; [reflexivity |].
  split; [reflexivity |].
  unfold AnalysisEngine.getDetailedBreakdown.
  cbn [AnalysisEngine.FileAnalysisResult.manifest HumanSignManifest.fileInfo manifest].
  eexists. reflexivity.
Qed.

Lemma packaged_signature_witness :
  2048 <= FileHandler.sizeLimit
  /\ exists r sig,
       Eff.outcome (AnalysisEngine.analyzeHumanSignFile Samples.verifiedAt Samples.plain_file)
       = inr r
       /\ CryptoUtils.verifySignature Samples.signedAt
            (AnalysisEngine.FileAnalysisResult.metadata r) sig Samples.secretKey = true.
Proof.
  split; [vm_compute; discriminate |].
  destruct (packaged_signature Samples.signedAt Samples.verifiedAt Samples.uuid "hi"
              Samples.plain_metadata 2048)
    as [r [sig [fi [H [_ [_ [V _]]]]]]].
  - vm_compute. discriminate.
  - vm_compute. reflexivity.
  - vm_compute. reflexivity.
  - vm_compute. reflexivity.
  - exists r, sig. split; [exact H | exact V].
Defined.
(** ** The capture hook *)

Lemma count_filter_snoc {A : Type} (p : A -> bool) (l : list A) (x : A) :
  FileHandler.count (filter p (l ++ [x]))
  = FileHandler.count (filter p l) + (if p x then 1 else 0).
Proof.
  unfold FileHandler.count. rewrite filter_app, length_app. cbn [filter].
  destruct (p x); cbn [List.length]; lia.
Qed.

Lemma lastN_length {A : Type} (n : nat) (l : list A) :
  (List.length (Capture.lastN n l) <= n)%nat.
Proof. unfold Capture.lastN. rewrite length_skipn. lia. Qed.

Lemma createEvent_fields (s : Capture.Session) (smp : Capture.Sample) (ty : string)
    (d : EventData.t) :
  KeystrokeEvent.type (Capture.createEvent s smp ty d) = ty
  /\ KeystrokeEvent.sessionId (Capture.createEvent s smp ty d)
     = ("session-" ++ Text.decimal (Capture.sessionStartRef s))%string
  /\ KeystrokeEvent.data (Capture.createEvent s smp ty d) = d.
Proof. repeat split. Qed.

Lemma capture_invariant (s : Capture.Session) :
  Capture.reachable s ->
  (List.length (Capture.keyTimingsRef s) <= 100)%nat
  /\ Capture.pasteCountRef s
     = FileHandler.count (filter (FileHandler.has_type "paste") (Capture.events s))
  /\ Capture.backspaceCountRef s
     = FileHandler.count
         (filter (fun e => FileHandler.has_type "keydown" e && FileHandler.key_is "Backspace" e)
                 (Capture.events s))
  /\ Forall (fun e =>
               KeystrokeEvent.sessionId e
               = ("session-" ++ Text.decimal (Capture.sessionStartRef s))%string
               /\ In (KeystrokeEvent.type e)
                     [EVENT_TYPES.KEY_DOWN; EVENT_TYPES.KEY_UP; EVENT_TYPES.PASTE;
                      EVENT_TYPES.COPY; EVENT_TYPES.CUT])
            (Capture.events s).
Proof.
  induction 1 as [now | s s' Hs IH Hstep].
  - repeat split; try (cbn; lia); constructor.
  - destruct IH as [R [P [B F]]].
    destruct Hstep as [now smp e target s | smp e s | smp pasteData target s
                      | smp target s | smp target s | now s | s | value s].
    + unfold Capture.handleKeyDown. destruct (Capture.isCapturing s); cbn [negb];
        [| now repeat split].
      cbn [Capture.keyTimingsRef Capture.pasteCountRef Capture.backspaceCountRef
           Capture.events Capture.sessionStartRef].
      split; [| split; [| split]].
      * destruct (_ || _ || _); [| exact R].
        destruct (100 <? _)%nat eqn:E; [apply lastN_length |].
        apply Nat.ltb_ge in E. exact E.
      * rewrite count_filter_snoc, <- P. cbn. lia.
      * rewrite count_filter_snoc, <- B.
        unfold FileHandler.has_type, FileHandler.key_is.
        cbn [KeystrokeEvent.type KeystrokeEvent.data Capture.createEvent EventData.key].
        change (String.eqb EVENT_TYPES.KEY_DOWN "keydown") with true. cbn [andb].
        destruct (String.eqb (Capture.k_key e) "Backspace"); lia.
      * apply Forall_app. split; [exact F |]. constructor; [| constructor].
        split; [reflexivity | cbn; tauto].
    + unfold Capture.handleKeyUp. destruct (Capture.isCapturing s); cbn [negb];
        [| now repeat split].
      unfold Capture.append.
      cbn [Capture.keyTimingsRef Capture.pasteCountRef Capture.backspaceCountRef
           Capture.events Capture.sessionStartRef].
      split; [exact R | split; [| split]].
      * rewrite count_filter_snoc, <- P. cbn. lia.
      * rewrite count_filter_snoc, <- B. cbn. lia.
      * apply Forall_app. split; [exact F |]. constructor; [| constructor].
        split; [reflexivity | cbn; tauto].
    + unfold Capture.handlePaste. destruct (Capture.isCapturing s); cbn [negb];
        [| now repeat split].
      cbn [Capture.keyTimingsRef Capture.pasteCountRef Capture.backspaceCountRef
           Capture.events Capture.sessionStartRef].
      split; [exact R | split; [| split]].
      * rewrite count_filter_snoc, <- P. cbn. lia.
      * rewrite count_filter_snoc, <- B. cbn. lia.
      * apply Forall_app. split; [exact F |]. constructor; [| constructor].
        split; [reflexivity | cbn; tauto].
    + unfold Capture.handleCopy. destruct (Capture.isCapturing s); cbn [negb];
        [| now repeat split].
      unfold Capture.append.
      cbn [Capture.keyTimingsRef Capture.pasteCountRef Capture.backspaceCountRef
           Capture.events Capture.sessionStartRef].
      split; [exact R | split; [| split]].
      * rewrite count_filter_snoc, <- P. cbn. lia.
      * rewrite count_filter_snoc, <- B. cbn. lia.
      * apply Forall_app. split; [exact F |]. constructor; [| constructor].
        split; [reflexivity | cbn; tauto].
    + unfold Capture.handleCut. destruct (Capture.isCapturing s); cbn [negb];
        [| now repeat split].
      unfold Capture.append.
      cbn [Capture.keyTimingsRef Capture.pasteCountRef Capture.backspaceCountRef
           Capture.events Capture.sessionStartRef].
      split; [exact R | split; [| split]].
      * rewrite count_filter_snoc, <- P. cbn. lia.
      * rewrite count_filter_snoc, <- B. cbn. lia.
      * apply Forall_app. split; [exact F |]. constructor; [| constructor].
        split; [reflexivity | cbn; tauto].
    + repeat split; try (cbn; lia); constructor.
    + now repeat split.
    + now repeat split.
Qed.

(** X24.  In every session the hook can reach, the two running counters are
    the counts [analyzeBiometrics] finds again in the exported log (paste
    events, and key-downs of Backspace), the ring of key timings holds at most
    100 entries, and every event of the log carries the session identifier of
    the exported metadata and one of the five recorded types. *)
Theorem capture_counters (s : Capture.Session) :
  Capture.reachable s ->
  let metadata := Capture.getBiometricMetadata s in
  let processed := FileHandler.preProcessEvents (BiometricMetadata.events metadata) in
  Metrics.pasteEvents processed = Capture.pasteCountRef s
  /\ Metrics.backspaceCount processed = Capture.backspaceCountRef s
  /\ (List.length (Capture.keyTimingsRef s) <= 100)%nat
  /\ (forall e, In e (BiometricMetadata.events metadata) ->
        KeystrokeEvent.sessionId e = BiometricMetadata.sessionId metadata
        /\ In (KeystrokeEvent.type e)
              [EVENT_TYPES.KEY_DOWN; EVENT_TYPES.KEY_UP; EVENT_TYPES.PASTE;
               EVENT_TYPES.COPY; EVENT_TYPES.CUT])
  /\ BiometricMetadata.finalText metadata = Capture.text s.
Proof.
  intros H. destruct (capture_invariant s H) as [R [P [B F]]].
  cbv zeta. unfold Capture.getBiometricMetadata, FileHandler.preProcessEvents.
  cbn [BiometricMetadata.events BiometricMetadata.sessionId BiometricMetadata.finalText
       Metrics.pasteEvents Metrics.backspaceCount].
  split; [now rewrite P |]. split; [now rewrite B |]. split; [exact R |].
  split; [| reflexivity].
  intros e He. rewrite Forall_forall in F. exact (F e He).
Qed.

Lemma capture_counters_witness :
  Capture.reachable Samples.backspace_first
  /\ Metrics.backspaceCount
       (FileHandler.preProcessEvents
          (BiometricMetadata.events (Capture.getBiometricMetadata Samples.backspace_first)))
     = Capture.backspaceCountRef Samples.backspace_first.
Proof.
  assert (R : Capture.reachable Samples.backspace_first).
  { unfold Samples.backspace_first.
    eapply Capture.reach_step; [| apply Capture.step_keyDown].
    eapply Capture.reach_step; [apply Capture.reach_initial | apply Capture.step_start]. }
  split; [exact R |].
  apply (capture_counters Samples.backspace_first R).
Defined.

Lemma std_from (array : list Q) (mu a : Q) :
  (0 <= a)%Q ->
  exists v, fold_left (fun sq n => nadd sq (nsquare (nsub (Fin n) (Fin mu)))) array (Fin a)
            = Fin v /\ (0 <= v)%Q.
Proof.
  revert a. induction array as [| t l IH]; intros a Ha.
  - exists a. now split.
  - cbn [fold_left]. cbn [nsquare nsub nopp nadd nmul].
    apply IH. assert (0 <= (t + - mu) * (t + - mu))%Q; [| lra].
    set (x := (t + - mu)%Q). clearbody x. nra.
Qed.

Lemma ring_range (s : Capture.Session) (t : Q) :
  In t (Capture.ringTimings s) -> (0 < t /\ t < 5000)%Q.
Proof.
  unfold Capture.ringTimings. intros H. apply filter_In in H. destruct H as [_ H].
  apply andb_true_iff in H. destruct H as [A B]. split; now apply Qlt_bool_iff.
Qed.

Lemma last_In {A : Type} (l : list A) (d : A) : l <> [] -> In (last l d) l.
Proof.
  induction l as [| x l IH]; [congruence |]. intros _.
  destruct l as [| y l]; [now left |]. right. apply IH. discriminate.
Qed.

(** X25.  The live statistics of any session at any clock: the speed, the
    variance and the duration are finite (the mean that divides the standard
    deviation is over intervals strictly between 0 and 5000 ms, so it is not
    0), the confidence lies between 0 and 100, at most 20 intervals are shown,
    and the last interval shown is 0 or lies strictly between 0 and 5000. *)
Theorem calculateStats_total (now : Z) (s : Capture.Session) :
  let stats := Capture.calculateStats now s in
  is_finite (Capture.LiveStats.currentSpeed stats) = true
  /\ Capture.LiveStats.avgSpeed stats = Capture.LiveStats.currentSpeed stats
  /\ is_finite (Capture.LiveStats.variance stats) = true
  /\ is_finite (Capture.LiveStats.sessionDuration stats) = true
  /\ 0 <= Capture.LiveStats.humanConfidence stats <= 100
  /\ 0 <= Capture.LiveStats.thinkingPauses stats
        <= FileHandler.count (Capture.ringTimings s)
  /\ (List.length (Capture.LiveStats.typingRhythm stats) <= 20)%nat
  /\ (Capture.LiveStats.lastKeyTiming stats = 0%Q
      \/ (0 < Capture.LiveStats.lastKeyTiming stats
          /\ Capture.LiveStats.lastKeyTiming stats < 5000)%Q).
Proof.
  cbv zeta. unfold Capture.calculateStats. cbv zeta.
  cbn [Capture.LiveStats.currentSpeed Capture.LiveStats.avgSpeed Capture.LiveStats.variance
       Capture.LiveStats.sessionDuration Capture.LiveStats.humanConfidence
       Capture.LiveStats.thinkingPauses Capture.LiveStats.typingRhythm
       Capture.LiveStats.lastKeyTiming].
  split; [apply speed_finite |]. split; [reflexivity |].
  assert (R := ring_range s).
  set (timings := Capture.ringTimings s) in *.
  split; [| split; [reflexivity | split; [| split; [| split]]]].
  - destruct (Nat.ltb_spec 1 (List.length timings)) as [L | L]; [| reflexivity].
    assert (Hne : timings <> []) by (destruct timings; [simpl in L; lia | discriminate]).
    unfold Capture.std, Capture.mean.
    rewrite ndiv_ofNat by lia.
    set (mu := (FileHandler.sum timings / _)%Q).
    assert (Hmu : (0 < mu)%Q) by (apply (mean_range timings 0 5000 R Hne)).
    destruct (std_from timings mu 0 (Qle_refl 0)) as [v [-> Hv]].
    rewrite ndiv_ofNat by lia.
    assert (Hq : (0 <= v / inject_Z (Z.of_nat (List.length timings)))%Q).
    { apply Qle_shift_div_l; [apply ofNat_pos; lia | now rewrite Qmult_0_l]. }
    destruct (nsqrt_nonneg _ Hq) as [c Hc].
    unfold sqv_round, sqv_mul, sqv_div. cbn [coef radicand]. rewrite Hc.
    rewrite ndiv_pos by exact Hmu. cbn [nmul].
    destruct (Qle_bool 0 _); reflexivity.
  - unfold Capture.calculateHumanConfidence. cbv zeta. lia.
  - unfold FileHandler.count. split; [lia |].
    apply inj_le. apply filter_length_le.
  - apply lastN_length.
  - destruct timings as [| t l] eqn:E; [left; reflexivity |].
    right. apply R. apply last_In. discriminate.
Qed.

(** ** [SecurityUtils.isReplayAttack] *)

(** X26.  The replay check is a check of age only: it fires exactly when
    [sessionStart] is a number more than [maxAge] before the clock (or minus
    infinity).  A metadata whose [sessionStart] is missing or not a number is
    never refused, nor is one dated after the clock. *)
Theorem isReplayAttack_cases {EV : Type} (now maxAge : Z) (metadata : BiometricMetadata.t EV) :
  (SecurityUtils.isReplayAttack now metadata maxAge = true
   <-> (exists q, BiometricMetadata.sessionStart metadata = Fin q
                  /\ (q < inject_Z (now - maxAge))%Q)
       \/ BiometricMetadata.sessionStart metadata = NInf)
  /\ (BiometricMetadata.sessionStart metadata = NaN ->
      SecurityUtils.isReplayAttack now metadata maxAge = false)
  /\ (forall q, BiometricMetadata.sessionStart metadata = Fin q ->
        0 <= maxAge -> (inject_Z now <= q)%Q ->
        SecurityUtils.isReplayAttack now metadata maxAge = false).
Proof.
  unfold SecurityUtils.isReplayAttack.
  destruct (BiometricMetadata.sessionStart metadata) as [q | | |];
    cbn [nsub nopp nadd ofZ ngt nlt].
  - assert (E : Qlt_bool (inject_Z maxAge) (inject_Z now + - q) = true
                <-> (q < inject_Z (now - maxAge))%Q).
    { rewrite Qlt_bool_iff. unfold Z.sub. rewrite inject_Z_plus, inject_Z_opp.
      split; intros H; lra. }
    split; [| split].
    + rewrite E. split.
      * intros H. left. exists q. now split.
      * intros [[q' [H1 H2]] | H]; [| discriminate]. injection H1 as <-. exact H2.
    + discriminate.
    + intros q' H Hm Hq. injection H as <-.
      apply not_true_is_false. rewrite E. unfold Z.sub.
      rewrite inject_Z_plus, inject_Z_opp.
      assert (0 <= inject_Z maxAge)%Q by (unfold Qle; simpl; lia). lra.
  - split; [| split; [reflexivity | discriminate]].
    split; [discriminate | intros [[q [H _]] | H]; discriminate].
  - split; [| split; [discriminate | discriminate]].
    split; [discriminate | intros [[q [H _]] | H]; discriminate].
  - split; [| split; [discriminate | discriminate]].
    split; [intros _; now right | reflexivity].
Qed.

(** ** What an untampered verdict requires *)

Lemma reconstruct_length (events : list Event) :
  String.length (AnalysisEngine.reconstructContentFromEvents events)
  = List.length (filter (fun e => FileHandler.has_type "keydown" e && AnalysisEngine.singleKey e)
                        events).
Proof.
  induction events as [| e l IH]; [reflexivity |].
  rewrite reconstruct_cons, length_app_string, IH. cbn [filter].
  destruct (FileHandler.has_type "keydown" e) eqn:T; cbn [andb]; [| reflexivity].
  unfold AnalysisEngine.singleKey.
  destruct (EventData.key (KeystrokeEvent.data e)) as [k |]; [| reflexivity].
  destruct (negb (Text.is_empty k)); cbn [andb]; [| reflexivity].
  destruct (Nat.eqb_spec (String.length k) 1) as [L | L]; [| reflexivity].
  cbn [AnalysisEngine.string_of List.length]. now rewrite L.
Qed.

Lemma existsb_false_forall {A : Type} (p : A -> bool) (l : list A) :
  existsb p l = false -> forall x, In x l -> p x = false.
Proof.
  intros H x Hx. destruct (p x) eqn:E; [| reflexivity].
  assert (existsb p l = true) by (apply existsb_exists; now exists x). congruence.
Qed.

(** X27.  An analysis reports a document as not tampered only if the text
    it shows is, character for character, the single-character keys of the
    log: the number of characters is the number of such key-downs (a text
    that is longer or shorter than the keys typed, as after a paste or a
    correction, is reported as tampered), the log is not empty, no gap between
    events exceeds 30 seconds, no two events share a time stamp, and the text
    holds none of the five characters the reader replaces. *)
Theorem untampered_requires (now : Z) (file : File.t)
    (r : AnalysisEngine.FileAnalysisResult.t) :
  Eff.outcome (AnalysisEngine.analyzeHumanSignFile now file) = inr r ->
  AnalysisEngine.FileAnalysisResult.isTampered r = false ->
  let events := BiometricMetadata.events (AnalysisEngine.FileAnalysisResult.metadata r) in
  let content := AnalysisEngine.FileAnalysisResult.content r in
  content = AnalysisEngine.reconstructContentFromEvents events
  /\ Text.strlen content
     = FileHandler.count
         (filter (fun e => FileHandler.has_type "keydown" e && AnalysisEngine.singleKey e)
                 events)
  /\ events <> []
  /\ (forall gap, In gap (AnalysisEngine.gapsOf events) -> (gap <= 30000)%Q)
  /\ AnalysisEngine.checkDuplicateTimestamps events = false
  /\ (forall d, In d Spec.markup -> Spec.occurs d content = false).
Proof.
  intros H T.
  destruct (analysis_inv now file r H)
    as [archive [md [evs [_ [_ [_ [_ [_ [_ [_ [_ ->]]]]]]]]]]].
  cbn [AnalysisEngine.analyzeRead AnalysisEngine.FileAnalysisResult.metadata
       FileHandler.metadata FileHandler.text FileHandler.manifest
       AnalysisEngine.FileAnalysisResult.isTampered
       AnalysisEngine.FileAnalysisResult.content] in *.
  rewrite detectTampering_cases in T. cbv zeta in T.
  set (events := BiometricMetadata.events _) in *.
  set (content := SecurityUtils.sanitizeContent _) in *.
  repeat (apply orb_false_iff in T; let X := fresh "T" in destruct T as [T X]).
  assert (C : content = AnalysisEngine.reconstructContentFromEvents events).
  { apply negb_false_iff in T3. apply String.eqb_eq in T3. now symmetry. }
  split; [exact C |]. split; [| split; [| split; [| split]]].
  - unfold Text.strlen, FileHandler.count. now rewrite C, reconstruct_length.
  - intros E. rewrite E in T. discriminate.
  - intros gap Hg. unfold AnalysisEngine.analyzeEventGaps in T4. cbn [fst] in T4.
    apply Qlt_bool_false_iff. exact (existsb_false_forall _ _ T4 gap Hg).
  - exact T2.
  - intros d Hd. unfold content. now apply sanitize_no_markup.
Qed.

Lemma untampered_requires_witness :
  AnalysisEngine.FileAnalysisResult.content (Samples.analysisOf Samples.plain_file)
  = AnalysisEngine.reconstructContentFromEvents
      (BiometricMetadata.events
         (AnalysisEngine.FileAnalysisResult.metadata (Samples.analysisOf Samples.plain_file))).
Proof.
  apply (untampered_requires Samples.verifiedAt Samples.plain_file
           (Samples.analysisOf Samples.plain_file)).
  - vm_compute. reflexivity.
  - vm_compute. reflexivity.
Defined.

(** ** [AnalysisEngine.checkDuplicateTimestamps] *)

Lemma existsb_InA (x : Q) (seen : list Q) :
  existsb (Qeq_bool x) seen = true <-> InA Qeq x seen.
Proof.
  rewrite existsb_exists, InA_alt. split.
  - intros [y [Hy E]]. exists y. split; [now apply Qeq_bool_iff | exact Hy].
  - intros [y [E Hy]]. exists y. split; [exact Hy | now apply Qeq_bool_iff].
Qed.

Lemma distinct_length_le (l seen : list Q) :
  (List.length
     (fold_left (fun seen x => if existsb (Qeq_bool x) seen then seen else seen ++ [x]) l seen)
   <= List.length seen + List.length l)%nat.
Proof.
  revert seen. induction l as [| x l IH]; intros seen; cbn [fold_left List.length]; [lia |].
  destruct (existsb (Qeq_bool x) seen).
  - specialize (IH seen). lia.
  - specialize (IH (seen ++ [x])). rewrite length_app in IH. cbn [List.length] in IH. lia.
Qed.

Lemma distinct_length_eq (l seen : list Q) :
  List.length
    (fold_left (fun seen x => if existsb (Qeq_bool x) seen then seen else seen ++ [x]) l seen)
  = (List.length seen + List.length l)%nat
  <-> (forall x, InA Qeq x l -> ~ InA Qeq x seen) /\ NoDupA Qeq l.
Proof.
  revert seen. induction l as [| x l IH]; intros seen; cbn [fold_left List.length].
  - split.
    + intros _. split; [intros x H; inversion H | constructor].
    + intros _. lia.
  - destruct (existsb (Qeq_bool x) seen) eqn:E.
    + apply existsb_InA in E. split.
      * intros H. assert (L := distinct_length_le l seen). lia.
      * intros [H _]. exfalso. apply (H x); [now left | exact E].
    + assert (N : ~ InA Qeq x seen).
      { intros H. apply existsb_InA in H. congruence. }
      specialize (IH (seen ++ [x])). rewrite length_app in IH. cbn [List.length] in IH.
      replace (List.length seen + S (List.length l))%nat
        with (List.length seen + 1 + List.length l)%nat by lia.
      rewrite IH. split.
      * intros [A1 A2]. split.
        -- intros y Hy Hs. inversion Hy as [? ? Hyx | ? ? Hyl]; subst.
           ++ apply N. apply (InA_eqA Q_Setoid Hyx Hs).
           ++ apply (A1 y Hyl). apply InA_app_iff. now left.
        -- constructor; [| exact A2].
           intros Hx. apply (A1 x Hx). apply InA_app_iff. right. now left.
      * intros [B1 B2]. inversion B2 as [| ? ? Bx Bl]; subst. split; [| exact Bl].
        intros y Hy Hs. apply InA_app_iff in Hs. destruct Hs as [Hs | Hs].
        -- apply (B1 y); [now right | exact Hs].
        -- inversion Hs as [? ? Hyx | ? ? Hn]; subst; [| inversion Hn].
           apply Bx. apply (InA_eqA Q_Setoid Hyx Hy).
Qed.

(** X28.  [checkDuplicateTimestamps] answers no exactly when no two events
    of the log have the same time stamp, whatever their positions. *)
Theorem checkDuplicateTimestamps_iff (events : list Event) :
  AnalysisEngine.checkDuplicateTimestamps events = false
  <-> NoDupA Qeq (map (fun e : Event => KeystrokeEvent.timestamp e) events).
Proof.
  unfold AnalysisEngine.checkDuplicateTimestamps, AnalysisEngine.distinct. cbv zeta.
  rewrite negb_false_iff, Nat.eqb_eq.
  rewrite (distinct_length_eq _ []). split.
  - intros [_ H]. exact H.
  - intros H. split; [| exact H]. intros x _ Hn. inversion Hn.
Qed.
(** ** A constant rhythm *)

Lemma timingsOf_gapsOf (l : list Event) :
  (forall t, In t (AnalysisEngine.gapsOf l) -> (0 < t /\ t < 5000)%Q) ->
  FileHandler.timingsOf l = AnalysisEngine.gapsOf l.
Proof.
  destruct l as [| a l]; [reflexivity |].
  revert a. induction l as [| b l IH]; intros a H; [reflexivity |].
  specialize (IH b). cbn [FileHandler.timingsOf AnalysisEngine.gapsOf] in *.
  destruct (H _ (or_introl eq_refl)) as [H1 H2].
  apply Qlt_bool_iff in H1. apply Qlt_bool_iff in H2. rewrite H1, H2. cbn [andb].
  f_equal. apply IH. intros t Ht. apply H. now right.
Qed.

Lemma sum_cons (x : Q) (l : list Q) :
  (FileHandler.sum (x :: l) == x + FileHandler.sum l)%Q.
Proof. unfold FileHandler.sum at 1. simpl. rewrite sum_from. lra. Qed.

Lemma sum_const (l : list Q) (g : Q) :
  (forall t, In t l -> t == g)%Q ->
  (FileHandler.sum l == g * inject_Z (Z.of_nat (List.length l)))%Q.
Proof.
  intros H. induction l as [| x l IH].
  - change (FileHandler.sum []) with 0%Q.
    change (inject_Z (Z.of_nat (List.length (@nil Q)))) with 0%Q. lra.
  - assert (Hx := H x (or_introl eq_refl)).
    rewrite sum_cons, IH by (intros t Ht; apply H; now right).
    cbn [List.length]. rewrite Nat2Z.inj_succ. unfold Z.succ. rewrite inject_Z_plus.
    change (inject_Z 1) with 1%Q. set (n := inject_Z (Z.of_nat (List.length l))).
    clearbody n. rewrite Hx. ring.
Qed.

Lemma mean_const (l : list Q) (g : Q) :
  l <> [] ->
  (forall t, In t l -> t == g)%Q ->
  (FileHandler.sum l / inject_Z (Z.of_nat (List.length l)) == g)%Q.
Proof.
  intros Hne H. rewrite (sum_const l g H).
  assert (P : (0 < inject_Z (Z.of_nat (List.length l)))%Q).
  { apply ofNat_pos. destruct l; [congruence | simpl; lia]. }
  field. lra.
Qed.

Lemma squares_zero (l : list Q) (mu a : Q) :
  (forall t, In t l -> t == mu)%Q ->
  exists v, fold_left nadd (map (fun t => nsquare (nsub (Fin t) (Fin mu))) l) (Fin a) = Fin v
            /\ (v == a)%Q.
Proof.
  revert a. induction l as [| t l IH]; intros a H.
  - exists a. split; reflexivity.
  - cbn [map fold_left]. cbn [nsquare nsub nopp nadd nmul].
    destruct (IH (a + (t + - mu) * (t + - mu))%Q) as [v [E Hv]];
      [intros x Hx; apply H; now right |].
    exists v. split; [exact E |].
    rewrite Hv, (H t (or_introl eq_refl)). ring.
Qed.

Lemma variance_zero (l : list Q) (g : Q) :
  l <> [] ->
  (forall t, In t l -> t == g)%Q ->
  exists mu v,
    ndiv (Fin (FileHandler.sum l)) (ofNat (List.length l)) = Fin mu /\ (mu == g)%Q
    /\ ndiv (FileHandler.nsum (map (fun t => nsquare (nsub (Fin t) (Fin mu))) l))
            (ofNat (List.length l)) = Fin v
    /\ (v == 0)%Q.
Proof.
  intros Hne H.
  assert (P : (0 < List.length l)%nat) by (destruct l; [congruence | simpl; lia]).
  set (mu := (FileHandler.sum l / inject_Z (Z.of_nat (List.length l)))%Q).
  assert (Hmu : (mu == g)%Q) by (apply mean_const; assumption).
  destruct (squares_zero l mu 0) as [v [E Hv]].
  { intros t Ht. rewrite Hmu. now apply H. }
  exists mu, (v / inject_Z (Z.of_nat (List.length l)))%Q.
  split; [apply ndiv_ofNat; exact P |]. split; [exact Hmu |]. split.
  - unfold FileHandler.nsum. rewrite E. apply ndiv_ofNat. exact P.
  - rewrite Hv. unfold Qdiv. apply Qmult_0_l.
Qed.

Lemma scoreOf_snd (P : Metrics.t) :
  snd (FileHandler.scoreOf P)
  = (if Metrics.pasteEvents P >? 0
     then ["Detected " ++ Text.decimal (Metrics.pasteEvents P) ++ " paste events"]
     else [])%string
    ++ (if nlt (Metrics.timingVariance P) (Fin 10) && (Metrics.keyEvents P >? 20)
        then ["Extremely consistent typing rhythm detected"%string] else [])
    ++ (if ngt (FileHandler.avgSpeed P) (Fin 15)
        then ["Unusually high typing speed detected"%string] else [])
    ++ (if nlt (FileHandler.backspaceRatio P) (Fin (2 # 100)) && (Metrics.keyEvents P >? 50)
        then ["Very few corrections made"%string] else []).
Proof.
  unfold FileHandler.scoreOf. cbv zeta. rewrite !penalise_snd. cbn [snd app].
  now rewrite <- !app_assoc.
Qed.

(** X29.  A log typed at a constant rhythm.  When the key-down events are
    more than eleven and all the same interval apart (an interval strictly
    between 0 and 5000 ms), [analyzeTimingPatterns] finds the rhythm
    unrealistic, so that any analysis of the log reports tampering; the
    rounded timing variance of [preProcessEvents] is 0; and with more than 20
    key events [analyzeBiometrics] reports the consistent rhythm and gives a
    score of at most 70. *)
Theorem constant_rhythm_flagged (now : Z) (metadata : Metadata) (g : Q) :
  let events := BiometricMetadata.events metadata in
  let keyDowns := filter (FileHandler.has_type "keydown") events in
  (0 < g)%Q -> (g < 5000)%Q ->
  (10 < List.length (AnalysisEngine.gapsOf keyDowns))%nat ->
  (forall t, In t (AnalysisEngine.gapsOf keyDowns) -> t == g)%Q ->
  fst (AnalysisEngine.analyzeTimingPatterns events) = true
  /\ (forall manifest content,
        AnalysisEngine.detectTampering metadata manifest content = true)
  /\ neq (Metrics.timingVariance (FileHandler.preProcessEvents events)) (Fin 0) = true
  /\ (20 < Metrics.keyEvents (FileHandler.preProcessEvents events) ->
      In "Extremely consistent typing rhythm detected"%string
         (BiometricAnalysis.anomalies (FileHandler.analyzeBiometrics now metadata))
      /\ BiometricAnalysis.humanScore (FileHandler.analyzeBiometrics now metadata) <= 70).
Proof.
  intros events keyDowns Hg0 Hg1 Hlen Hall.
  set (timings := AnalysisEngine.gapsOf keyDowns) in *.
  assert (Hne : timings <> []) by (destruct timings; [simpl in Hlen; lia | discriminate]).
  destruct (variance_zero timings g Hne Hall) as [mu [v [Em [Hmu [Ev Hv]]]]].
  assert (Pmu : (0 < mu)%Q) by (rewrite Hmu; exact Hg0).
  assert (A : fst (AnalysisEngine.analyzeTimingPatterns events) = true).
  { unfold AnalysisEngine.analyzeTimingPatterns. cbv zeta.
    fold keyDowns. fold timings.
    destruct (Nat.ltb_spec 10 (List.length timings)) as [_ | L]; [| lia].
    unfold AnalysisEngine.calculateStd, AnalysisEngine.calculateMean. cbv zeta.
    rewrite Em, Ev.
    assert (Z0 : Qeq_bool v 0 = true) by now apply Qeq_bool_iff.
    unfold nsqrt. rewrite Z0.
    unfold sqv_div. cbn [coef radicand]. rewrite ndiv_pos by exact Pmu.
    assert (S : sqv_lt (Sqv (Fin (0 / mu)) 1) (1 # 10) = true).
    { unfold sqv_lt, Qsurd_lt. cbn [coef radicand].
      assert (Zq : (0 / mu == 0)%Q) by (unfold Qdiv; apply Qmult_0_l).
      assert (L1 : Qle_bool 0 (0 / mu) = true) by (apply Qle_bool_iff; rewrite Zq; lra).
      rewrite L1. apply andb_true_iff. split; [reflexivity |].
      apply Qlt_bool_iff. rewrite Zq. lra. }
    rewrite S. reflexivity. }
  assert (T : FileHandler.timingsOf keyDowns = timings).
  { apply timingsOf_gapsOf. intros t Ht. fold timings in Ht.
    rewrite (Hall t Ht). now split. }
  assert (V : Metrics.timingVariance (FileHandler.preProcessEvents events)
              = Fin (inject_Z 0 / 100)).
  { unfold FileHandler.preProcessEvents. cbn [Metrics.timingVariance].
    fold keyDowns. rewrite T.
    unfold FileHandler.calculateVariance.
    destruct (Nat.eqb_spec (List.length timings) 0) as [L | _]; [lia |].
    rewrite Em, Ev. cbn [nmul nround].
    assert (R : Qround_half_up (v * 100) = 0).
    { unfold Qround_half_up. rewrite Hv.
      setoid_replace (0 * 100 + (1 # 2))%Q with (1 # 2)%Q by ring. reflexivity. }
    rewrite R. unfold ofZ. apply ndiv_pos. reflexivity. }
  split; [exact A |]. split; [| split].
  - intros manifest content. rewrite detectTampering_cases. cbv zeta.
    fold events. rewrite A. rewrite !orb_true_r. reflexivity.
  - rewrite V. reflexivity.
  - intros K.
    assert (C : nlt (Metrics.timingVariance (FileHandler.preProcessEvents events)) (Fin 10)
                && (Metrics.keyEvents (FileHandler.preProcessEvents events) >? 20) = true).
    { rewrite V. apply andb_true_iff. split; [reflexivity |].
      rewrite Z.gtb_ltb. now apply Z.ltb_lt. }
    assert (F := scoreOf_fst (FileHandler.preProcessEvents events)).
    assert (S := scoreOf_snd (FileHandler.preProcessEvents events)).
    rewrite C in F, S.
    assert (Hp : 0 <= Metrics.pasteEvents (FileHandler.preProcessEvents events)).
    { unfold FileHandler.preProcessEvents, FileHandler.count. cbn. lia. }
    unfold FileHandler.analyzeBiometrics. fold events.
    destruct (FileHandler.scoreOf (FileHandler.preProcessEvents events)) as [score anomalies].
    cbn [fst snd] in F, S.
    cbn [BiometricAnalysis.anomalies BiometricAnalysis.humanScore].
    split.
    + rewrite S. apply in_or_app. right. apply in_or_app. left. now left.
    + assert (score <= 70); [| lia].
      rewrite F. destruct (Z.gtb_spec (Metrics.pasteEvents (FileHandler.preProcessEvents events)) 0);
        repeat match goal with |- context [if ?c then _ else _] => destruct c end; lia.
Qed.

Lemma constant_rhythm_flagged_witness :
  (0 < 50)%Q /\ (50 < 5000)%Q
  /\ fst (AnalysisEngine.analyzeTimingPatterns
            (BiometricMetadata.events Samples.fast_metadata)) = true.
Proof.
  assert (H1 : (0 < 50)%Q) by reflexivity.
  assert (H2 : (50 < 5000)%Q) by reflexivity.
  assert (H3 : (10 < List.length
                       (AnalysisEngine.gapsOf
                          (filter (FileHandler.has_type "keydown")
                                  (BiometricMetadata.events Samples.fast_metadata))))%nat)
    by (vm_compute; lia).
  assert (H4 : forall t,
             In t (AnalysisEngine.gapsOf
                     (filter (FileHandler.has_type "keydown")
                             (BiometricMetadata.events Samples.fast_metadata))) ->
             (t == 50)%Q).
  { intros t Ht. vm_compute in Ht.
    repeat (destruct Ht as [<- | Ht]; [reflexivity |]). destruct Ht. }
  split; [exact H1 | split; [exact H2 |]].
  exact (proj1 (constant_rhythm_flagged Samples.verifiedAt Samples.fast_metadata 50
                  H1 H2 H3 H4)).
Defined.

(** ** The signature and the clock *)

Lemma digit_cases (m : Z) :
  0 <= m < 10 ->
  In (Text.digit m) ["0"; "1"; "2"; "3"; "4"; "5"; "6"; "7"; "8"; "9"]%string.
Proof.
  intros H.
  assert (C : m = 0 \/ m = 1 \/ m = 2 \/ m = 3 \/ m = 4 \/ m = 5 \/ m = 6 \/ m = 7
              \/ m = 8 \/ m = 9) by lia.
  repeat (destruct C as [-> | C]; [cbn; tauto |]). subst. cbn. tauto.
Qed.

Lemma digit_inj (x y : Z) :
  0 <= x < 10 -> 0 <= y < 10 -> Text.digit x = Text.digit y -> x = y.
Proof.
  intros Hx Hy.
  assert (Cx : x = 0 \/ x = 1 \/ x = 2 \/ x = 3 \/ x = 4 \/ x = 5 \/ x = 6 \/ x = 7
               \/ x = 8 \/ x = 9) by lia.
  assert (Cy : y = 0 \/ y = 1 \/ y = 2 \/ y = 3 \/ y = 4 \/ y = 5 \/ y = 6 \/ y = 7
               \/ y = 8 \/ y = 9) by lia.
  repeat (destruct Cx as [-> | Cx]);
    repeat (destruct Cy as [-> | Cy]); subst;
    first [reflexivity | (cbn; discriminate)].
Qed.

Lemma digit_single (m : Z) :
  0 <= m < 10 -> exists c, Text.digit m = String c EmptyString.
Proof.
  intros H. unfold Text.digit, Text.str1. destruct (m <? 10); eexists; reflexivity.
Qed.

Lemma digit_occurs (c : ascii) (m : Z) :
  0 <= m < 10 ->
  Spec.every (fun x => negb (Spec.isHexDigit x)) (String c EmptyString) = true ->
  Spec.occurs c (Text.digit m) = false.
Proof.
  intros H Hc. cbn [Spec.every] in Hc. rewrite andb_true_r in Hc.
  apply negb_true_iff in Hc.
  assert (D := digit_cases m H). cbn [In] in D.
  repeat (destruct D as [<- | D];
          [cbn [Spec.occurs]; rewrite orb_false_r; apply not_true_is_false;
           intros E; apply Ascii.eqb_eq in E; subst c; vm_compute in Hc; discriminate |]).
  destruct D.
Qed.

Lemma digits_acc (fuel : nat) (n : Z) (acc : string) :
  Text.digits fuel 10 n acc = (Text.digits fuel 10 n EmptyString ++ acc)%string.
Proof.
  revert n acc. induction fuel as [| f IH]; intros n acc; [reflexivity |].
  cbn [Text.digits]. rewrite append_nil_r.
  destruct (n / 10 =? 0).
  - reflexivity.
  - rewrite IH. rewrite (IH (n / 10) (Text.digit (n mod 10))).
    now rewrite append_assoc.
Qed.

Lemma digits_step (f : nat) (n : Z) :
  Text.digits (S f) 10 n EmptyString
  = if n / 10 =? 0 then Text.digit (n mod 10)
    else (Text.digits f 10 (n / 10) EmptyString ++ Text.digit (n mod 10))%string.
Proof.
  cbn [Text.digits]. rewrite append_nil_r.
  destruct (n / 10 =? 0); [reflexivity | apply digits_acc].
Qed.

Lemma digits_occurs (c : ascii) (fuel : nat) (n : Z) :
  Spec.every (fun x => negb (Spec.isHexDigit x)) (String c EmptyString) = true ->
  Spec.occurs c (Text.digits fuel 10 n EmptyString) = false.
Proof.
  intros Hc. revert n. induction fuel as [| f IH]; intros n; [reflexivity |].
  rewrite digits_step.
  assert (M : 0 <= n mod 10 < 10) by (apply Z.mod_pos_bound; lia).
  destruct (n / 10 =? 0).
  - now apply digit_occurs.
  - rewrite occurs_app, IH, (digit_occurs c _ M Hc). reflexivity.
Qed.

Lemma digits_nonempty (f : nat) (n : Z) :
  Text.digits (S f) 10 n EmptyString <> EmptyString.
Proof.
  rewrite digits_step.
  assert (M : 0 <= n mod 10 < 10) by (apply Z.mod_pos_bound; lia).
  destruct (digit_single _ M) as [c E]. rewrite E.
  destruct (n / 10 =? 0); [discriminate |].
  destruct (Text.digits f 10 (n / 10) EmptyString); discriminate.
Qed.

Lemma append_last_inj (a b : string) (c d : ascii) :
  (a ++ String c EmptyString)%string = (b ++ String d EmptyString)%string ->
  a = b /\ c = d.
Proof.
  revert b. induction a as [| x a IH]; intros [| y b] H; cbn in H.
  - injection H as ->. now split.
  - injection H as -> H. destruct b; discriminate.
  - injection H as -> H. destruct a; discriminate.
  - injection H as -> H. destruct (IH b H) as [-> ->]. now split.
Qed.

Lemma digits_inj (f f' : nat) (n n' : Z) :
  0 <= n < 2 ^ Z.of_nat f -> 0 <= n' < 2 ^ Z.of_nat f' ->
  (0 < f)%nat -> (0 < f')%nat ->
  Text.digits f 10 n EmptyString = Text.digits f' 10 n' EmptyString -> n = n'.
Proof.
  revert f' n n'. induction f as [| g IH]; intros f' n n' Hn Hn' Hf Hf'; [lia |].
  destruct f' as [| g']; [lia |].
  rewrite !digits_step.
  assert (M : 0 <= n mod 10 < 10) by (apply Z.mod_pos_bound; lia).
  assert (M' : 0 <= n' mod 10 < 10) by (apply Z.mod_pos_bound; lia).
  destruct (digit_single _ M) as [c Ec]. destruct (digit_single _ M') as [c' Ec'].
  assert (P : 2 ^ Z.of_nat (S g) = 2 * 2 ^ Z.of_nat g)
    by (rewrite Nat2Z.inj_succ, Z.pow_succ_r; lia).
  assert (P' : 2 ^ Z.of_nat (S g') = 2 * 2 ^ Z.of_nat g')
    by (rewrite Nat2Z.inj_succ, Z.pow_succ_r; lia).
  assert (Q : 0 <= n / 10 < 2 ^ Z.of_nat g).
  { split; [apply Z.div_pos; lia |]. apply Z.div_lt_upper_bound; lia. }
  assert (Q' : 0 <= n' / 10 < 2 ^ Z.of_nat g').
  { split; [apply Z.div_pos; lia |]. apply Z.div_lt_upper_bound; lia. }
  assert (G : forall k m, 0 <= m < 2 ^ Z.of_nat k -> m <> 0 -> (0 < k)%nat).
  { intros k m Hm Hz. destruct k; [simpl in Hm; lia | lia]. }
  destruct (Z.eqb_spec (n / 10) 0) as [Z0 | Z0];
    destruct (Z.eqb_spec (n' / 10) 0) as [Z0' | Z0'].
  - intros E. apply digit_inj in E; [| exact M | exact M'].
    rewrite (Z.div_mod n 10), (Z.div_mod n' 10) by lia. lia.
  - intros E. rewrite Ec, Ec' in E. exfalso.
    assert (K := G g' _ Q' Z0'). destruct g' as [| h]; [lia |].
    assert (N := digits_nonempty h (n' / 10)).
    destruct (Text.digits (S h) 10 (n' / 10) EmptyString) as [| y [| z t]];
      [congruence | discriminate | discriminate].
  - intros E. rewrite Ec, Ec' in E. exfalso.
    assert (K := G g _ Q Z0). destruct g as [| h]; [lia |].
    assert (N := digits_nonempty h (n / 10)).
    destruct (Text.digits (S h) 10 (n / 10) EmptyString) as [| y [| z t]];
      [congruence | discriminate | discriminate].
  - intros E. rewrite Ec, Ec' in E. apply append_last_inj in E. destruct E as [E1 E2].
    assert (D : Text.digit (n mod 10) = Text.digit (n' mod 10)) by (rewrite Ec, Ec'; now f_equal).
    apply digit_inj in D; [| exact M | exact M'].
    assert (R : n / 10 = n' / 10).
    { apply (IH g'); [exact Q | exact Q' | exact (G g _ Q Z0) | exact (G g' _ Q' Z0') | exact E1]. }
    rewrite (Z.div_mod n 10), (Z.div_mod n' 10) by lia. lia.
Qed.

Lemma log2_fuel (n : Z) : 0 <= n -> 0 <= n < 2 ^ Z.of_nat (S (Z.to_nat (Z.log2 n))).
Proof.
  intros H. split; [exact H |].
  rewrite Nat2Z.inj_succ, Z2Nat.id by apply Z.log2_nonneg.
  destruct (Z.eq_dec n 0) as [-> | N]; [reflexivity |].
  apply Z.log2_spec. lia.
Qed.

Lemma decimal_inj (n n' : Z) : Text.decimal n = Text.decimal n' -> n = n'.
Proof.
  unfold Text.decimal, Text.toStringBase.
  set (b := Text.digits _ 10 (Z.abs n) EmptyString).
  set (b' := Text.digits _ 10 (Z.abs n') EmptyString).
  assert (I : b = b' -> Z.abs n = Z.abs n').
  { apply digits_inj; try lia; apply log2_fuel; lia. }
  assert (O : Spec.occurs "-" b = false /\ Spec.occurs "-" b' = false)
    by (split; apply digits_occurs; reflexivity).
  destruct O as [O O'].
  destruct (Z.ltb_spec n 0), (Z.ltb_spec n' 0); intros E.
  - injection E as E. apply I in E. lia.
  - rewrite <- E in O'. cbn in O'. discriminate.
  - rewrite E in O. cbn in O. discriminate.
  - apply I in E. lia.
Qed.

Lemma append_inv_head (p x y : string) : (p ++ x)%string = (p ++ y)%string -> x = y.
Proof. induction p as [| c p IH]; cbn; [tauto |]. intros H. injection H as H. now apply IH. Qed.

Lemma split_at (c : ascii) (a a' b b' : string) :
  Spec.occurs c a = false -> Spec.occurs c a' = false ->
  (a ++ String c b)%string = (a' ++ String c b')%string -> a = a'.
Proof.
  revert a'. induction a as [| x a IH]; intros [| y a'] Ha Ha' H; cbn in *.
  - reflexivity.
  - injection H as -> _. rewrite Ascii.eqb_refl in Ha'. discriminate.
  - injection H as -> _. rewrite Ascii.eqb_refl in Ha. discriminate.
  - injection H as -> H. apply orb_false_iff in Ha. apply orb_false_iff in Ha'.
    f_equal. apply IH; tauto.
Qed.

Lemma signatureString_shape {D : Type}
    (metadata : BiometricMetadata.t (list (KeystrokeEvent.t D))) (secretKey : string) :
  exists prefix, forall now,
    CryptoUtils.signatureString now metadata secretKey
    = (prefix ++ (Text.decimal now ++ String "}" secretKey))%string.
Proof.
  exists ("{" ++ JSON.member "sessionId" (JSON.quote (BiometricMetadata.sessionId metadata))
          ++ "," ++ JSON.member "contentHash"
                      (JSON.quote_or_null (BiometricMetadata.contentHash metadata))
          ++ "," ++ JSON.member "eventCount"
                      (Text.decimal
                         (Z.of_nat (List.length (BiometricMetadata.events metadata))))
          ++ "," ++ JSON.member "finalTextLength"
                      (Text.decimal (Text.strlen (BiometricMetadata.finalText metadata)))
          ++ "," ++ JSON.dq ++ "timestamp" ++ JSON.dq ++ ":")%string.
  intros now.
  unfold CryptoUtils.signatureString, JSON.object.
  cbn [String.concat]. unfold JSON.member at 5.
  repeat rewrite append_assoc. reflexivity.
Qed.

(** X4.  The signature is bound to the clock that made it.  The string that
    is hashed differs for two different clock values, whatever the metadata
    and the key; a signature verifies at the instant it was made; and at
    another instant [verifySignature] accepts it only if the two different
    strings have the same SHA-256 digest. *)
Theorem signature_bound_to_clock {D : Type} (now now' : Z)
    (metadata : BiometricMetadata.t (list (KeystrokeEvent.t D))) (secretKey : string) :
  (CryptoUtils.signatureString now metadata secretKey
   = CryptoUtils.signatureString now' metadata secretKey <-> now = now')
  /\ CryptoUtils.verifySignature now metadata
       (CryptoUtils.createSignature now metadata secretKey) secretKey = true
  /\ (CryptoUtils.verifySignature now' metadata
        (CryptoUtils.createSignature now metadata secretKey) secretKey = true
      <-> CryptoUtils.createHash (CryptoUtils.signatureString now metadata secretKey)
          = CryptoUtils.createHash (CryptoUtils.signatureString now' metadata secretKey)).
Proof.
  split; [| split].
  - split; [| now intros ->].
    destruct (signatureString_shape metadata secretKey) as [prefix S].
    rewrite !S. intros E. apply append_inv_head in E.
    apply decimal_inj. apply (split_at "}" _ _ secretKey secretKey).
    + unfold Text.decimal, Text.toStringBase.
      destruct (now <? 0); [cbn [append Spec.occurs Ascii.eqb Bool.eqb orb] |];
        apply digits_occurs; reflexivity.
    + unfold Text.decimal, Text.toStringBase.
      destruct (now' <? 0); [cbn [append Spec.occurs Ascii.eqb Bool.eqb orb] |];
        apply digits_occurs; reflexivity.
    + exact E.
  - unfold CryptoUtils.verifySignature. apply String.eqb_refl.
  - unfold CryptoUtils.verifySignature, CryptoUtils.createSignature.
    rewrite String.eqb_eq. reflexivity.
Qed.
